(** * Digital Health Tracker: record store and statistics engine

    A shallow embedding of [assets/js/storage.js] (StorageManager) and of
    the scoring and flagging functions of [assets/js/dashboard.js]
    (DashboardManager), with the properties of the specification stated
    and proved over it.

    Conventions of the embedding.
    - A JavaScript number is a rational [Q]: arithmetic is exact, and the
      non-finite results (a division by zero) are made explicit by the
      error monad [option], [None] standing for NaN or an infinity. The
      health score is given a second time over IEEE 754 doubles
      ([Double]), for what depends on the rounding of the arithmetic.
    - An optional property of an object is an [option]: [None] is
      [undefined].
    - [localStorage] is an explicit state; [JSON.parse], [JSON.stringify]
      and [Date] belong to the runtime and are modelled apart from the
      code of the repository. *)

From Stdlib Require Import ZArith QArith Qround Qabs Qminmax Lqa Lia.
From Stdlib Require Import String Ascii List Sorting.Sorted Permutation.
From Stdlib Require SpecFloat Qcanon.
From stdpp Require Import base option list strings.

Local Open Scope Z_scope.

(** ** JavaScript numbers *)

Module JS.

Definition number := Q.

(** [a / b]: a finite quotient, or [None] when the divisor is zero
    (JavaScript would give NaN or an infinity). *)
Definition div (a b : number) : option number :=
  if Qeq_bool b 0 then None else Some (a / b)%Q.

(** Truthiness of a number: every number but zero. *)
Definition truthy (a : number) : bool := negb (Qeq_bool a 0).

(** [goal && ...] on an optional numeric property: defined and not 0. *)
Definition truthy_opt (a : option number) : bool :=
  match a with Some v => truthy v | None => false end.

(** [Math.round]: the nearest integer, halves towards plus infinity. *)
Definition Math_round (x : number) : Z := Qfloor (x + (1 # 2))%Q.

Definition Math_min (a b : number) : number := Qmin a b.
Definition Math_max (a b : number) : number := Qmax a b.
Definition Math_abs (a : number) : number := Qabs a.

(** [a < b], [a > b], [a >= b], [a <= b] on numbers. *)
Definition ltb (a b : number) : bool := negb (Qle_bool b a).
Definition gtb (a b : number) : bool := negb (Qle_bool a b).
Definition geb (a b : number) : bool := Qle_bool b a.
Definition leb (a b : number) : bool := Qle_bool a b.

(** A relational operator with a possibly [undefined] left operand:
    [undefined] converts to NaN and every comparison with NaN is
    false. *)
Definition cmp_undef (op : number -> number -> bool)
           (a : option number) (b : number) : bool :=
  match a with Some v => op v b | None => false end.

(** [a || 0] on an optional number. *)
Definition or_zero (a : option number) : number :=
  match a with
  | Some v => if truthy v then v else 0%Q
  | None => 0%Q
  end.

(** [a || d] on an optional number. *)
Definition or_default (a : option number) (d : number) : number :=
  match a with
  | Some v => if truthy v then v else d
  | None => d
  end.

End JS.

(** ** JSON values and objects *)

(** A JSON value as [JSON.parse] builds it. *)
#[warnings="-register-all"]
Inductive json :=
| JNull
| JBool (b : bool)
| JNum (q : JS.number)
| JStr (s : string)
| JArr (elements : list json)
| JObj (fields : list (string * json)).

(** Truthiness of a JSON value: objects and arrays are truthy, [null],
    [false], zero and the empty string are not. *)
Definition json_truthy (j : json) : bool :=
  match j with
  | JNull => false
  | JBool b => b
  | JNum q => JS.truthy q
  | JStr s => negb (String.eqb s "")
  | JArr _ | JObj _ => true
  end.

(** The properties of an object that the data model does not name are
    kept as they are, keys and values in the order of the object.
    [get_field] is the value of a key, if the object has it. *)
Definition get_field {A : Type} (k : string) (fields : list (string * A))
  : option A :=
  match List.find (fun kv => String.eqb (fst kv) k) fields with
  | Some kv => Some (snd kv)
  | None => None
  end.

(** ** Data model *)

(** One day's record. [date] is the key; every metric is optional. *)
Record Entry := mkEntry {
  date : string;
  steps : option JS.number;
  heartRate : option JS.number;
  sleep : option JS.number;
  water : option JS.number;
  calories : option JS.number;
  mood : option string;
  notes : option string
}.

(** The target range of the heart rate, [{min, max}]. *)
Record HeartRateGoal := mkHeartRateGoal {
  hr_min : JS.number;
  hr_max : JS.number
}.

(** The targets, a map from the name of a metric to its target: the
    targets that the code reads by name, and the other properties of the
    object ([exercise], for one). *)
Record Goals := mkGoals {
  g_steps : option JS.number;
  g_sleep : option JS.number;
  g_water : option JS.number;
  g_heartRate : option HeartRateGoal;
  g_calories : option JS.number;
  g_other : list (string * json)
}.

Definition no_goals : Goals := mkGoals None None None None None [].

(** An entry with a date and nothing else. *)
Definition entry_of_date (d : string) : Entry :=
  mkEntry d None None None None None None None.

(** ** The runtime: [Date] *)

(** [new Date(s)] for a date-only ISO string [YYYY-MM-DD]: the number of
    milliseconds from the epoch to midnight UTC of that day, or [None]
    (an invalid date, whose time value is NaN) for anything else. Other
    notations that an engine may accept are outside this model; the
    theorems below concern documents whose dates are all date-only ISO
    strings. *)
Module Date.

Definition digit (c : ascii) : option Z :=
  let n := Z.of_N (N_of_ascii c) in
  if (48 <=? n) && (n <=? 57) then Some (n - 48) else None.

Definition is_leap (y : Z) : bool :=
  (y mod 4 =? 0) && (negb (y mod 100 =? 0) || (y mod 400 =? 0)).

Definition days_in_month (y m : Z) : Z :=
  match m with
  | 1 => 31 | 2 => if is_leap y then 29 else 28 | 3 => 31 | 4 => 30
  | 5 => 31 | 6 => 30 | 7 => 31 | 8 => 31 | 9 => 30 | 10 => 31
  | 11 => 30 | 12 => 31
  | _ => 0
  end.

(** Days from the first of January to the first day of month [m]. *)
Definition days_before_month (y m : Z) : Z :=
  match m with
  | 1 => 0 | 2 => 31
  | _ =>
      (if is_leap y then 1 else 0) +
      match m with
      | 3 => 59 | 4 => 90 | 5 => 120 | 6 => 151 | 7 => 181 | 8 => 212
      | 9 => 243 | 10 => 273 | 11 => 304 | _ => 334
      end
  end.

(** Days from 0000-01-01 to the first of January of year [y >= 0]. *)
Definition days_before_year (y : Z) : Z :=
  365 * y + (y + 3) / 4 - (y + 99) / 100 + (y + 399) / 400.

Definition valid_ymd (y m d : Z) : bool :=
  (0 <=? y) && (1 <=? m) && (m <=? 12) && (1 <=? d) && (d <=? days_in_month y m).

(** Days from 1970-01-01. *)
Definition epoch_day (y m d : Z) : Z :=
  days_before_year y + days_before_month y m + (d - 1) - 719528.

Definition ms_per_day : Z := 86400000.

(** The year, month and day that [YYYY-MM-DD] spells. *)
Definition ymd (s : string) : option (Z * Z * Z) :=
  match list_ascii_of_string s with
  | [y1; y2; y3; y4; h1; m1; m2; h2; d1; d2] =>
      if Ascii.eqb h1 "-" && Ascii.eqb h2 "-" then
        a ← digit y1; b ← digit y2; c ← digit y3; e ← digit y4;
        f ← digit m1; g ← digit m2; h ← digit d1; i ← digit d2;
        Some (1000 * a + 100 * b + 10 * c + e, 10 * f + g, 10 * h + i)
      else None
  | _ => None
  end.

(** The time value of [new Date(s)]. *)
Definition parse (s : string) : option Z :=
  match ymd s with
  | Some (y, m, d) =>
      if valid_ymd y m d then Some (epoch_day y m d * ms_per_day) else None
  | None => None
  end.

(** [a - b] on two dates: NaN as soon as one of them is invalid. *)
Definition sub (a b : option Z) : option Z :=
  x ← a; y ← b; Some (x - y).

(** [a >= b] and [a <= b] on two dates: false when one is invalid. *)
Definition geb (a b : option Z) : bool :=
  match a, b with Some x, Some y => y <=? x | _, _ => false end.
Definition leb (a b : option Z) : bool :=
  match a, b with Some x, Some y => x <=? y | _, _ => false end.

End Date.

(** ** The runtime: [Array.prototype.sort] *)

(** The sort of an array with a comparator is stable; a comparator result
    that is NaN counts as zero. For a comparator that is a total preorder
    every stable sort gives the same array, here the one of a stable
    insertion sort. *)
Module Array.

Section Sort.
Context {A : Type} (compareFn : A -> A -> option Z).

(** [compareFn a b > 0]: [a] goes after [b]. *)
Definition after (a b : A) : bool :=
  match compareFn a b with Some v => 0 <? v | None => false end.

Fixpoint insert_sorted (x : A) (l : list A) : list A :=
  match l with
  | [] => [x]
  | y :: l' => if after x y then y :: insert_sorted x l' else x :: l
  end.

Fixpoint sort (l : list A) : list A :=
  match l with
  | [] => []
  | x :: l' => insert_sorted x (sort l')
  end.
End Sort.

(** [findIndex]: the first index whose element satisfies [p], if any
    ([-1] in JavaScript when there is none). *)
Fixpoint findIndex {A : Type} (p : A -> bool) (l : list A) : option nat :=
  match l with
  | [] => None
  | x :: l' => if p x then Some 0%nat else S <$> findIndex p l'
  end.

(** [find]: the first element that satisfies [p], or [undefined]. *)
Fixpoint find {A : Type} (p : A -> bool) (l : list A) : option A :=
  match l with
  | [] => None
  | x :: l' => if p x then Some x else find p l'
  end.

(** [every] and [slice(0, n)]. *)
Definition every {A : Type} (p : A -> bool) (l : list A) : bool := forallb p l.
Definition slice0 {A : Type} (n : nat) (l : list A) : list A := firstn n l.

End Array.

(** ** DashboardManager: the health score and the health flags *)

(** A health flag, [{type, message, metric}]. *)
Inductive FlagType := warning | danger.

Record Flag := mkFlag {
  flag_type : FlagType;
  flag_message : string;
  flag_metric : string
}.

Module DashboardManager.

(** [if (latest.f !== undefined && goals.f) score += min(f/goal*cap, cap)]:
    the block shared, up to the names, by steps, sleep, water and
    calories. *)
Definition add_ratio_score (value goal : option JS.number) (cap : JS.number)
           (score : JS.number) : option JS.number :=
  match value with
  | Some v =>
      if JS.truthy_opt goal then
        g ← goal;
        r ← JS.div v g;
        Some (score + JS.Math_min (r * cap) cap)%Q
      else Some score
  | None => Some score
  end.

(** The heart-rate block: 15 points within [min, max], otherwise
    [max(15 - |hr - (min + max) / 2| / 5, 0)]. A goal that is an object
    is always truthy. *)
Definition add_heart_score (value : option JS.number)
           (goal : option HeartRateGoal) (score : JS.number)
  : option JS.number :=
  match value, goal with
  | Some hr, Some g =>
      if JS.geb hr (hr_min g) && JS.leb hr (hr_max g) then
        Some (score + 15)%Q
      else
        mid ← JS.div (hr_min g + hr_max g)%Q 2%Q;
        let deviation := JS.Math_abs (hr - mid)%Q in
        d ← JS.div deviation 5%Q;
        Some (score + JS.Math_max (15 - d) 0)%Q
  | _, _ => Some score
  end.

(** The unrounded sum of the components of the latest entry. *)
Definition raw_score (latest : Entry) (goals : Goals) : option JS.number :=
  let score := 0%Q in
  score ← add_ratio_score (steps latest) (g_steps goals) 25%Q score;
  score ← add_ratio_score (sleep latest) (g_sleep goals) 25%Q score;
  score ← add_ratio_score (water latest) (g_water goals) 20%Q score;
  score ← add_heart_score (heartRate latest) (g_heartRate goals) score;
  score ← add_ratio_score (calories latest) (g_calories goals) 15%Q score;
  Some score.

Definition calculateHealthScore (entries : list Entry) (goals : Goals)
  : option Z :=
  match entries with
  | [] => Some 0
  | latest :: _ =>
      score ← raw_score latest goals;
      Some (JS.Math_round score)
  end.

(** [flags.push(x)]. *)
Definition push {A : Type} (l : list A) (x : A) : list A := l ++ [x].

Definition flag_sleep : Flag :=
  mkFlag danger "Insufficient sleep detected (<6 hours)" "sleep".
Definition flag_heartRate : Flag :=
  mkFlag warning "Elevated resting heart rate (>100 bpm)" "heartRate".
Definition flag_water : Flag :=
  mkFlag warning "Low water intake (<3 glasses)" "water".
Definition flag_steps : Flag :=
  mkFlag warning "Very low activity level (<2000 steps)" "steps".
Definition flag_chronic_sleep : Flag :=
  mkFlag danger "Chronic sleep deprivation detected (3+ days)" "sleep".

Definition detectHealthFlags (entries : list Entry) (goals : Goals)
  : list Flag :=
  let flags := [] in
  match entries with
  | [] => flags
  | latest :: _ =>
      let flags :=
        if JS.cmp_undef JS.ltb (sleep latest) 6%Q
        then push flags flag_sleep else flags in
      let flags :=
        if JS.cmp_undef JS.gtb (heartRate latest) 100%Q
        then push flags flag_heartRate else flags in
      let flags :=
        if JS.cmp_undef JS.ltb (water latest) 3%Q
        then push flags flag_water else flags in
      let flags :=
        if JS.cmp_undef JS.ltb (steps latest) 2000%Q
        then push flags flag_steps else flags in
      let flags :=
        if (3 <=? length entries)%nat then
          let recentSleep :=
            map (fun e => JS.or_zero (sleep e)) (Array.slice0 3 entries) in
          if Array.every (fun s => JS.ltb s 6%Q) recentSleep
          then push flags flag_chronic_sleep else flags
        else flags in
      flags
  end.

(** The statistics of calculateStats. *)
Record Stats := mkStats {
  avgSteps : JS.number;
  avgHeartRate : JS.number;
  avgSleep : JS.number;
  avgWater : JS.number;
  avgCalories : JS.number;
  totalEntries : nat
}.

(** [entries.reduce((sum, e) => sum + (e.f || 0), 0)]. *)
Definition reduce_sum (f : Entry -> option JS.number) (entries : list Entry)
  : JS.number :=
  fold_left (fun sum e => (sum + JS.or_zero (f e))%Q) entries 0%Q.

(** [entries.length], as a number. *)
Definition length_number (entries : list Entry) : JS.number :=
  inject_Z (Z.of_nat (length entries)).

Definition calculateStats (entries : list Entry) : option Stats :=
  if (length entries =? 0)%nat then
    Some (mkStats 0%Q 0%Q 0%Q 0%Q 0%Q 0)
  else
    a ← JS.div (reduce_sum steps entries) (length_number entries);
    b ← JS.div (reduce_sum heartRate entries) (length_number entries);
    c ← JS.div (reduce_sum sleep entries) (length_number entries);
    d ← JS.div (reduce_sum water entries) (length_number entries);
    e ← JS.div (reduce_sum calories entries) (length_number entries);
    Some (mkStats a b c d e (length entries)).

End DashboardManager.

(** ** The health score in double precision

    The numbers of the language are IEEE 754 doubles. [Double] is the
    binary64 arithmetic of the Standard Library's specification of
    floating-point numbers, and [Double.calculateHealthScore] is the
    function of [dashboard.js] over it: a number of an entry or of the
    goals, a decimal numeral, is read as the nearest double, and every
    operation rounds to nearest, ties to even. It settles what depends on
    the rounding; [DashboardManager.calculateHealthScore] above is the same
    function in exact arithmetic. *)
Module Double.

Definition number := SpecFloat.spec_float.

Definition prec : Z := 53.
Definition emax : Z := 1024.

Definition add : number -> number -> number := SpecFloat.SFadd prec emax.
Definition sub : number -> number -> number := SpecFloat.SFsub prec emax.
Definition mul : number -> number -> number := SpecFloat.SFmul prec emax.
Definition div : number -> number -> number := SpecFloat.SFdiv prec emax.

(** An integer as a double. *)
Definition of_Z (z : Z) : number :=
  SpecFloat.binary_normalize prec emax z 0 false.

(** The double nearest to a rational: the correctly rounded quotient of
    its numerator by its denominator. *)
Definition integer (z : Z) : number :=
  match z with
  | Z0 => SpecFloat.S754_zero false
  | Zpos p => SpecFloat.S754_finite false p 0
  | Zneg p => SpecFloat.S754_finite true p 0
  end.

Definition of_number (q : JS.number) : number :=
  div (integer (Qnum q)) (integer (Z.pos (Qden q))).

(** Truthiness: every number but the zeros and NaN. *)
Definition truthy (a : number) : bool :=
  match a with
  | SpecFloat.S754_zero _ | SpecFloat.S754_nan => false
  | _ => true
  end.

(** [a >= b] and [a <= b]: false as soon as one side is NaN. *)
Definition geb (a b : number) : bool := SpecFloat.SFleb b a.
Definition leb (a b : number) : bool := SpecFloat.SFleb a b.

(** [Math.min] and [Math.max]: NaN if an argument is, and -0 below +0. *)
Definition Math_min (a b : number) : number :=
  match SpecFloat.SFcompare a b with
  | None => SpecFloat.S754_nan
  | Some Lt => a
  | Some Gt => b
  | Some Eq => match a with SpecFloat.S754_zero true => a | _ => b end
  end.

Definition Math_max (a b : number) : number :=
  match SpecFloat.SFcompare a b with
  | None => SpecFloat.S754_nan
  | Some Lt => b
  | Some Gt => a
  | Some Eq => match a with SpecFloat.S754_zero false => a | _ => b end
  end.

Definition Math_abs : number -> number := SpecFloat.SFabs.

(** [Math.round]: the integer nearest to [x], halves towards plus
    infinity; a zero, an infinity and NaN are returned as they are, and a
    negative [x] from -0.5 on gives -0. *)
Definition Math_round (x : number) : number :=
  match x with
  | SpecFloat.S754_finite s m e =>
      if 0 <=? e then x
      else
        let n := if s then Z.neg m else Z.pos m in
        SpecFloat.binary_normalize prec emax
          ((2 * n + 2 ^ (- e)) / 2 ^ (1 - e)) 0 s
  | _ => x
  end.

(** The block of steps, sleep, water and calories. *)
Definition add_ratio_score (value goal : option JS.number) (cap : number)
           (score : number) : number :=
  match value, goal with
  | Some v, Some g =>
      if truthy (of_number g)
      then add score (Math_min (mul (div (of_number v) (of_number g)) cap) cap)
      else score
  | _, _ => score
  end.

(** The heart-rate block. *)
Definition add_heart_score (value : option JS.number)
           (goal : option HeartRateGoal) (score : number) : number :=
  match value, goal with
  | Some v, Some g =>
      let hr := of_number v in
      let min := of_number (hr_min g) in
      let max := of_number (hr_max g) in
      if geb hr min && leb hr max then add score (of_Z 15)
      else
        let deviation := Math_abs (sub hr (div (add min max) (of_Z 2))) in
        add score (Math_max (sub (of_Z 15) (div deviation (of_Z 5))) (of_Z 0))
  | _, _ => score
  end.

Definition calculateHealthScore (entries : list Entry) (goals : Goals)
  : number :=
  match entries with
  | [] => of_Z 0
  | latest :: _ =>
      let score := of_Z 0 in
      let score :=
        add_ratio_score (steps latest) (g_steps goals) (of_Z 25) score in
      let score :=
        add_ratio_score (sleep latest) (g_sleep goals) (of_Z 25) score in
      let score :=
        add_ratio_score (water latest) (g_water goals) (of_Z 20) score in
      let score :=
        add_heart_score (heartRate latest) (g_heartRate goals) score in
      let score :=
        add_ratio_score (calories latest) (g_calories goals) (of_Z 15) score in
      Math_round score
  end.

End Double.


(** ** NotificationManager: the checks of an entry *)

Module NotificationManager.

(** A relational operator between two properties that may both be
    [undefined]: false as soon as one of them is. *)
Definition cmp_undef2 (op : JS.number -> JS.number -> bool)
           (a b : option JS.number) : bool :=
  match a, b with Some x, Some y => op x y | _, _ => false end.

(** checkGoals: the names passed to showGoalAchievement, in order. A
    missing entry or missing goals end the function at once. *)
Definition checkGoals (entry : option Entry) (goals : option Goals)
  : list string :=
  match entry, goals with
  | Some entry, Some goals =>
      let shown := [] in
      let shown :=
        if cmp_undef2 JS.geb (steps entry) (g_steps goals)
        then DashboardManager.push shown "daily steps" else shown in
      let shown :=
        if cmp_undef2 JS.geb (water entry) (g_water goals)
        then DashboardManager.push shown "water intake" else shown in
      let shown :=
        if cmp_undef2 JS.geb (sleep entry) (g_sleep goals)
        then DashboardManager.push shown "sleep" else shown in
      shown
  | _, _ => []
  end.

Definition alert_sleep : string :=
  "You got less than 6 hours of sleep. Consider resting more.".
Definition alert_heartRate : string :=
  "Your heart rate is elevated. Consider consulting a doctor if this persists.".
Definition alert_water : string :=
  "Low water intake detected. Stay hydrated!".
Definition alert_steps : string :=
  "Very low activity today. Try to get some movement in.".

(** checkHealthFlags: the alerts passed to showHealthAlert, in order. *)
Definition checkHealthFlags (entry : option Entry) (goals : option Goals)
  : list string :=
  match entry with
  | None => []
  | Some entry =>
      let alerts := [] in
      let alerts :=
        if JS.cmp_undef JS.ltb (sleep entry) 6%Q
        then DashboardManager.push alerts alert_sleep else alerts in
      let alerts :=
        if JS.cmp_undef JS.gtb (heartRate entry) 100%Q
        then DashboardManager.push alerts alert_heartRate else alerts in
      let alerts :=
        if JS.cmp_undef JS.ltb (water entry) 3%Q
        then DashboardManager.push alerts alert_water else alerts in
      let alerts :=
        if JS.cmp_undef JS.ltb (steps entry) 2000%Q
        then DashboardManager.push alerts alert_steps else alerts in
      alerts
  end.

End NotificationManager.

(** ** The runtime: JSON values and [localStorage] *)

(** The [entries] property of a document, by what the code asks of it:
    absent or falsy, an array of entries, or some other truthy value: a
    value that is not an array, or an array one of whose elements is not
    an entry of the data model. *)
Inductive EntriesField :=
| EntriesAbsent
| EntriesOther (j : json)
| EntriesArray (l : list Entry).

(** [Array.isArray] of the [entries] property. *)
Definition is_array (e : EntriesField) : bool :=
  match e with
  | EntriesArray _ | EntriesOther (JArr _) => true
  | _ => false
  end.

(** The persisted document [{user, goals, settings, entries}], with the
    other properties that the object may carry. *)
Record Document := mkDocument {
  doc_user : option json;
  doc_goals : option Goals;
  doc_settings : option json;
  doc_entries : EntriesField;
  doc_other : list (string * json)
}.

(** A parsed JSON text, by what the code asks of it: [null], an array
    (whose [entries] property is the method of that name, a function), a
    number, string or boolean (which has no [entries] property), or an
    object read as a document. *)
Inductive Parsed :=
| PNull
| PArray (elements : list json)
| PPrimitive (j : json)
| PObject (d : Document).

(** What [data?.entries || []] evaluates to: an array of entries, or a
    truthy value that is not one. The functions below are modelled on
    the arrays of entries; for every other value they give the answer of
    the code on a value that is not an array, whose array methods are not
    functions. The theorems on the entries are stated for stores whose
    [entries] is an array of entries. *)
Inductive EntriesValue :=
| AnArray (l : list Entry)
| NotAnArray.

(** [JSON.parse] ([None]: a SyntaxError), [JSON.stringify(v)] and
    [JSON.stringify(v, null, 2)]. *)
Class JSONRuntime := {
  JSON_parse : string -> option Parsed;
  JSON_stringify : Parsed -> string;
  JSON_stringify_pretty : Parsed -> string
}.

(** The storage area of the page, reduced to the one key the store uses:
    the text under 'healthTrackerData', if any, and the room the browser
    leaves for it ([setItem] raises QuotaExceededError beyond it). *)
Record LocalStorage := mkLocalStorage {
  item : option string;
  quota : nat
}.

Inductive ErrorName := TypeError | SyntaxError | QuotaExceededError | PlainError.

Record Error := mkError {
  err_name : ErrorName;
  err_message : string
}.

(** Computations over the storage that return or throw. *)
Inductive outcome (A : Type) :=
| Return (a : A)
| Throw (e : Error).
Arguments Return {A} a.
Arguments Throw {A} e.

Definition M (A : Type) : Type := LocalStorage -> outcome A * LocalStorage.

Definition ret {A : Type} (a : A) : M A := fun st => (Return a, st).

Definition bind {A B : Type} (m : M A) (k : A -> M B) : M B :=
  fun st =>
    match m st with
    | (Return a, st') => k a st'
    | (Throw e, st') => (Throw e, st')
    end.

Definition throw {A : Type} (e : Error) : M A := fun st => (Throw e, st).

(** [try { m } catch (error) { handler(error) }]. *)
Definition try_catch {A : Type} (m : M A) (handler : Error -> M A) : M A :=
  fun st =>
    match m st with
    | (Return a, st') => (Return a, st')
    | (Throw e, st') => handler e st'
    end.

Declare Scope storage_scope.
Delimit Scope storage_scope with storage.
Notation "x <- m ;; k" := (bind m (fun x => k))
  (at level 100, m at next level, right associativity) : storage_scope.
Notation "m ;;; k" := (bind m (fun _ => k))
  (at level 100, right associativity) : storage_scope.

Module localStorage.

Definition getItem : M (option string) := fun st => (Return (item st), st).

Definition setItem (value : string) : M unit :=
  fun st =>
    if (String.length value <=? quota st)%nat
    then (Return tt, mkLocalStorage (Some value) (quota st))
    else (Throw (mkError QuotaExceededError "The quota has been exceeded."), st).

Definition removeItem : M unit :=
  fun st => (Return tt, mkLocalStorage None (quota st)).

End localStorage.

(** ** StorageManager *)

(** The result of an import, [{success, message}]. *)
Record ImportResult := mkImportResult {
  success : bool;
  message : string
}.

Module StorageManager.

Section WithRuntime.
Context `{JSONRuntime}.
Local Open Scope storage_scope.

Definition parse_or_throw (text : string) : M Parsed :=
  match JSON_parse text with
  | Some v => ret v
  | None => throw (mkError SyntaxError "Unexpected token in JSON")
  end.

(** An empty string is falsy, like [null]. *)
Definition getAll : M Parsed :=
  try_catch
    (data <- localStorage.getItem ;;
     match data with
     | Some text =>
         if String.eqb text "" then ret PNull else parse_or_throw text
     | None => ret PNull
     end)
    (fun error => ret PNull).

Definition saveAll (data : Parsed) : M bool :=
  try_catch
    (localStorage.setItem (JSON_stringify data) ;;;
     ret true)
    (fun error => ret false).

(** [data?.entries || []]: the value is an array unless the document
    holds something else that is truthy. *)
Definition getEntries : M EntriesValue :=
  data <- getAll ;;
  match data with
  | PObject d =>
      match doc_entries d with
      | EntriesArray l => ret (AnArray l)
      | EntriesOther _ => ret NotAnArray
      | EntriesAbsent => ret (AnArray [])
      end
  | PArray _ => ret NotAnArray
  | PNull | PPrimitive _ => ret (AnArray [])
  end.

Definition not_a_function {A : Type} (name : string) : M A :=
  throw (mkError TypeError (name ++ " is not a function")).

Definition getEntryByDate (d : string) : M (option Entry) :=
  entries <- getEntries ;;
  match entries with
  | AnArray l => ret (Array.find (fun entry => String.eqb (date entry) d) l)
  | NotAnArray => not_a_function "entries.find"
  end.

(** [{...old, ...entry}] on the properties of an entry: a property of
    [entry] wins, a property it lacks keeps the old value. *)
Definition spread_field {A : Type} (old new : option A) : option A :=
  match new with Some v => Some v | None => old end.

Definition spread (old entry : Entry) : Entry :=
  {| date := date entry;
     steps := spread_field (steps old) (steps entry);
     heartRate := spread_field (heartRate old) (heartRate entry);
     sleep := spread_field (sleep old) (sleep entry);
     water := spread_field (water old) (water entry);
     calories := spread_field (calories old) (calories entry);
     mood := spread_field (mood old) (mood entry);
     notes := spread_field (notes old) (notes entry) |}.

(** [(a, b) => new Date(b.date) - new Date(a.date)]. *)
Definition newest_first (a b : Entry) : option Z :=
  Date.sub (Date.parse (date b)) (Date.parse (date a)).

(** Lines 153 to 164 of saveEntry, on the array of entries. *)
Definition upsert (entry : Entry) (entries : list Entry) : list Entry :=
  let index := Array.findIndex (fun e => String.eqb (date e) (date entry)) entries in
  let entries :=
    match index with
    | Some i =>
        match entries !! i with
        | Some old => <[i := spread old entry]> entries
        | None => entries
        end
    | None => entries ++ [entry]
    end in
  Array.sort newest_first entries.

Definition with_entries (d : Document) (l : list Entry) : Document :=
  {| doc_user := doc_user d; doc_goals := doc_goals d;
     doc_settings := doc_settings d; doc_entries := EntriesArray l;
     doc_other := doc_other d |}.

Definition saveEntry (entry : Entry) : M bool :=
  data <- getAll ;;
  match data with
  | PNull =>
      throw (mkError TypeError "Cannot read properties of null (reading 'entries')")
  | PArray _ => not_a_function "entries.findIndex"
  | PPrimitive j =>
      (* [data.entries] is undefined and the assignment to it is lost *)
      saveAll (PPrimitive j)
  | PObject d =>
      match doc_entries d with
      | EntriesOther _ => not_a_function "entries.findIndex"
      | EntriesAbsent => saveAll (PObject (with_entries d (upsert entry [])))
      | EntriesArray l => saveAll (PObject (with_entries d (upsert entry l)))
      end
  end.

Definition deleteEntry (d : string) : M bool :=
  data <- getAll ;;
  match data with
  | PNull =>
      throw (mkError TypeError "Cannot read properties of null (reading 'entries')")
  | PArray _ => not_a_function "data.entries.filter"
  | PPrimitive _ =>
      throw (mkError TypeError "Cannot read properties of undefined (reading 'filter')")
  | PObject doc =>
      match doc_entries doc with
      | EntriesArray l =>
          saveAll (PObject (with_entries doc
            (List.filter (fun entry => negb (String.eqb (date entry) d)) l)))
      | EntriesOther _ => not_a_function "data.entries.filter"
      | EntriesAbsent =>
          throw (mkError TypeError "Cannot read properties of undefined (reading 'filter')")
      end
  end.

Definition in_range (startDate endDate : string) (entry : Entry) : bool :=
  let entryDate := Date.parse (date entry) in
  Date.geb entryDate (Date.parse startDate)
  && Date.leb entryDate (Date.parse endDate).

Definition getEntriesInRange (startDate endDate : string) : M (list Entry) :=
  entries <- getEntries ;;
  match entries with
  | AnArray l => ret (List.filter (in_range startDate endDate) l)
  | NotAnArray => not_a_function "entries.filter"
  end.


Definition importJSON (jsonString : string) : M ImportResult :=
  try_catch
    (data <- parse_or_throw jsonString ;;
     match data with
     | PNull =>
         throw (mkError TypeError "Cannot read properties of null (reading 'entries')")
     | PArray _ | PPrimitive _ =>
         throw (mkError PlainError "Invalid data format")
     | PObject d =>
         if is_array (doc_entries d) then
           saveAll data ;;;
           ret (mkImportResult true "Data imported successfully")
         else throw (mkError PlainError "Invalid data format")
     end)
    (fun error => ret (mkImportResult false (err_message error))).

(** [localStorage.getItem(key) !== null]. *)
Definition hasData : M bool :=
  data <- localStorage.getItem ;;
  ret (match data with Some _ => true | None => false end).

Definition clearAll : M unit := localStorage.removeItem.

(** The minimal document of loadDefaultData,
    [{user: {}, goals: {}, settings: {theme: 'light', notifications: true},
      entries: []}]. *)
Definition default_settings : json :=
  JObj [("theme", JStr "light"); ("notifications", JBool true)].

Definition skeleton : Document :=
  mkDocument (Some (JObj [])) (Some no_goals) (Some default_settings)
             (EntriesArray []) [].

(** loadDefaultData, the asynchronous steps run in sequence. [fetched] is
    what [fetch('/data/default.json')] followed by [response.json()]
    gives: a JSON value, or [None] when one of the two is rejected. *)
Definition loadDefaultData (fetched : option Parsed) : M bool :=
  match fetched with
  | Some defaultData =>
      saveAll defaultData ;;;
      ret true
  | None =>
      saveAll (PObject skeleton) ;;;
      ret false
  end.

Definition init (fetched : option Parsed) : M unit :=
  has <- hasData ;;
  if negb has then
    loadDefaultData fetched ;;;
    ret tt
  else ret tt.

(** [data?.user || {}]. *)
Definition getUserProfile : M json :=
  data <- getAll ;;
  match data with
  | PObject d =>
      match doc_user d with
      | Some u => if json_truthy u then ret u else ret (JObj [])
      | None => ret (JObj [])
      end
  | _ => ret (JObj [])
  end.

(** [data?.goals || {}]. *)
Definition getGoals : M Goals :=
  data <- getAll ;;
  match data with
  | PObject d =>
      match doc_goals d with
      | Some g => ret g
      | None => ret no_goals
      end
  | _ => ret no_goals
  end.

(** [data?.settings || { theme: 'light', notifications: true }]. *)
Definition getSettings : M json :=
  data <- getAll ;;
  match data with
  | PObject d =>
      match doc_settings d with
      | Some v => if json_truthy v then ret v else ret default_settings
      | None => ret default_settings
      end
  | _ => ret default_settings
  end.

(** [{...old, ...new}] on the properties that the data model does not
    name: a key of [old] keeps its place and takes the value that [new]
    gives it, if any; the other keys of [new] follow, in their order. *)
Definition spread_fields {A : Type} (old new : list (string * A))
  : list (string * A) :=
  map (fun kv =>
         (fst kv, match get_field (fst kv) new with
                  | Some v => v
                  | None => snd kv
                  end)) old
  ++ List.filter (fun kv => match get_field (fst kv) old with
                            | Some _ => false
                            | None => true
                            end) new.

(** [{...old, ...goals}] on the targets. *)
Definition spread_goals (old goals : Goals) : Goals :=
  {| g_steps := spread_field (g_steps old) (g_steps goals);
     g_sleep := spread_field (g_sleep old) (g_sleep goals);
     g_water := spread_field (g_water old) (g_water goals);
     g_heartRate := spread_field (g_heartRate old) (g_heartRate goals);
     g_calories := spread_field (g_calories old) (g_calories goals);
     g_other := spread_fields (g_other old) (g_other goals) |}.

Definition with_goals (d : Document) (g : Goals) : Document :=
  {| doc_user := doc_user d; doc_goals := Some g;
     doc_settings := doc_settings d; doc_entries := doc_entries d;
     doc_other := doc_other d |}.

Definition updateGoals (goals : Goals) : M bool :=
  data <- getAll ;;
  match data with
  | PNull =>
      throw (mkError TypeError "Cannot read properties of null (reading 'goals')")
  | PArray l =>
      (* the property set on the array is not part of its JSON text *)
      saveAll (PArray l)
  | PPrimitive j =>
      (* the assignment to a property of a primitive is lost *)
      saveAll (PPrimitive j)
  | PObject d =>
      let old := match doc_goals d with Some g => g | None => no_goals end in
      saveAll (PObject (with_goals d (spread_goals old goals)))
  end.

(** getLastNDays. [endDate] and [startDate] are the time values of the two
    [Date] objects that the function builds from the clock: now, and now
    moved back by [days] days with [setDate] ([None]: an invalid date). *)
Definition in_window (startDate endDate : option Z) (entry : Entry) : bool :=
  let entryDate := Date.parse (date entry) in
  Date.geb entryDate startDate && Date.leb entryDate endDate.

Definition getLastNDays (startDate endDate : option Z) (days : nat)
  : M (list Entry) :=
  entries <- getEntries ;;
  match entries with
  | AnArray l =>
      ret (Array.slice0 days (List.filter (in_window startDate endDate) l))
  | NotAnArray => not_a_function "entries.filter"
  end.

End WithRuntime.

End StorageManager.

(** ** RecommendationEngine: the recommendations for an entry *)

Inductive RecType := rec_info | rec_warning | rec_success | rec_danger.

Inductive Priority := high | medium | low.

(** A recommendation, [{type, category, message, tips, priority}];
    [tips] is absent from some of them. *)
Record Recommendation := mkRecommendation {
  rec_type : RecType;
  category : string;
  rec_message : string;
  tips : option (list string);
  priority : Priority
}.

(** The text that a template literal gives for a number ([None]: NaN). *)
Class NumberFormat := {
  Number_toString : option JS.number -> string
}.

Module RecommendationEngine.

Section WithFormat.
Context `{NumberFormat}.

Definition push := @DashboardManager.push Recommendation.

(** [a - b] between two properties that may be [undefined]: NaN as soon
    as one of them is. *)
Definition minus_undef (a b : option JS.number) : option JS.number :=
  match a, b with Some x, Some y => Some (x - y)%Q | _, _ => None end.

(** [entry.mood === s]. *)
Definition mood_is (entry : Entry) (s : string) : bool :=
  match mood entry with Some m => String.eqb m s | None => false end.

Definition start_logging : Recommendation :=
  mkRecommendation rec_info "general"
    "Start logging your health data to get personalized recommendations!"
    None low.

Definition sleep_insufficient : Recommendation :=
  mkRecommendation rec_warning "sleep"
    "You're getting insufficient sleep. Aim for 7-9 hours per night."
    (Some ["Maintain a consistent sleep schedule";
           "Avoid screens 1 hour before bed";
           "Create a relaxing bedtime routine";
           "Keep your bedroom cool and dark"])
    high.

Definition sleep_below_optimal : Recommendation :=
  mkRecommendation rec_info "sleep"
    "Your sleep is below optimal. Consider getting more rest."
    (Some ["Try to add 30-60 minutes more sleep";
           "Maintain consistent sleep/wake times"])
    medium.

Definition sleep_excellent : Recommendation :=
  mkRecommendation rec_success "sleep"
    "Excellent sleep! Keep up the good work!" None low.

Definition activity_very_low : Recommendation :=
  mkRecommendation rec_warning "activity"
    "Very low activity detected. Try to move more throughout the day."
    (Some ["Take short walking breaks every hour";
           "Use stairs instead of elevators";
           "Park farther away from destinations";
           "Try a 10-minute morning walk"])
    high.

Definition activity_steps_away (n : option JS.number) : Recommendation :=
  mkRecommendation rec_info "activity"
    ("You're " ++ Number_toString n ++ " steps away from your goal!")
    (Some ["Take a quick walk before bed";
           "Walk while on phone calls";
           "Do household chores"])
    medium.

Definition activity_goal_met : Recommendation :=
  mkRecommendation rec_success "activity"
    "Great job meeting your step goal!" None low.

Definition hydration_low : Recommendation :=
  mkRecommendation rec_warning "hydration"
    "Low water intake. Dehydration can affect your energy and focus."
    (Some ["Keep a water bottle with you";
           "Set hourly reminders to drink water";
           "Drink a glass of water before each meal";
           "Try infusing water with fruits for flavor"])
    high.

Definition hydration_glasses_away (n : option JS.number) : Recommendation :=
  mkRecommendation rec_info "hydration"
    ("Drink " ++ Number_toString n ++ " more glasses to reach your goal.")
    (Some ["Have a glass of water now";
           "Drink water before bed"])
    medium.

Definition hydration_good : Recommendation :=
  mkRecommendation rec_success "hydration"
    "Well hydrated! Keep it up!" None low.

Definition heart_elevated : Recommendation :=
  mkRecommendation rec_danger "heart"
    "Elevated resting heart rate detected."
    (Some ["Consider stress reduction techniques";
           "Practice deep breathing exercises";
           "Ensure adequate rest and recovery";
           "Consult a doctor if this persists"])
    high.

Definition heart_low : Recommendation :=
  mkRecommendation rec_info "heart"
    "Low resting heart rate. This can be normal for athletes."
    (Some ["Monitor for any unusual symptoms";
           "Consult a doctor if you feel dizzy or fatigued"])
    medium.

Definition heart_healthy : Recommendation :=
  mkRecommendation rec_success "heart"
    "Heart rate is in healthy range!" None low.

Definition wellness_tired : Recommendation :=
  mkRecommendation rec_info "wellness"
    "Feeling tired? Your body might need rest or exercise."
    (Some ["Get 15 minutes of fresh air and sunlight";
           "Take a power nap (20-30 minutes)";
           "Check your caffeine intake";
           "Ensure you're getting quality sleep"])
    medium.

Definition wellness_stressed : Recommendation :=
  mkRecommendation rec_info "wellness"
    "High stress detected. Consider relaxation techniques."
    (Some ["Practice 5 minutes of deep breathing";
           "Try meditation or mindfulness";
           "Take a short walk outdoors";
           "Talk to someone you trust";
           "Reduce caffeine intake"])
    high.

(** The five blocks of analyzeEntry, each on the list built so far. *)
Definition sleep_analysis (entry : Entry) (recommendations : list Recommendation)
  : list Recommendation :=
  if JS.cmp_undef JS.ltb (sleep entry) 6%Q then
    push recommendations sleep_insufficient
  else if JS.cmp_undef JS.ltb (sleep entry) 7%Q then
    push recommendations sleep_below_optimal
  else if JS.cmp_undef JS.geb (sleep entry) 8%Q then
    push recommendations sleep_excellent
  else recommendations.

(** [goals.steps] with [goals] that may be missing: a TypeError then. *)
Definition goal_of (f : Goals -> option JS.number) (name : string)
           (goals : option Goals) : outcome (option JS.number) :=
  match goals with
  | Some g => Return (f g)
  | None =>
      Throw (mkError TypeError
               ("Cannot read properties of undefined (reading '" ++ name ++ "')"))
  end.

(** [goals?.steps || d]. *)
Definition goal_or (f : Goals -> option JS.number) (goals : option Goals)
           (d : JS.number) : JS.number :=
  match goals with
  | Some g => JS.or_default (f g) d
  | None => d
  end.

Definition activity_analysis (entry : Entry) (goals : option Goals)
           (recommendations : list Recommendation)
  : outcome (list Recommendation) :=
  if JS.cmp_undef JS.ltb (steps entry) 2000%Q then
    Return (push recommendations activity_very_low)
  else if JS.cmp_undef JS.ltb (steps entry) (goal_or g_steps goals 10000%Q) then
    match goal_of g_steps "steps" goals with
    | Throw e => Throw e
    | Return target =>
        Return (push recommendations
                  (activity_steps_away
                     (minus_undef target (steps entry))))
    end
  else Return (push recommendations activity_goal_met).

Definition hydration_analysis (entry : Entry) (goals : option Goals)
           (recommendations : list Recommendation)
  : outcome (list Recommendation) :=
  if JS.cmp_undef JS.ltb (water entry) 3%Q then
    Return (push recommendations hydration_low)
  else if JS.cmp_undef JS.ltb (water entry) (goal_or g_water goals 8%Q) then
    match goal_of g_water "water" goals with
    | Throw e => Throw e
    | Return target =>
        Return (push recommendations
                  (hydration_glasses_away
                     (minus_undef target (water entry))))
    end
  else Return (push recommendations hydration_good).

Definition heart_analysis (entry : Entry) (recommendations : list Recommendation)
  : list Recommendation :=
  if JS.cmp_undef JS.gtb (heartRate entry) 100%Q then
    push recommendations heart_elevated
  else if JS.cmp_undef JS.ltb (heartRate entry) 60%Q
          && JS.cmp_undef JS.gtb (heartRate entry) 0%Q then
    push recommendations heart_low
  else if JS.cmp_undef JS.geb (heartRate entry) 60%Q
          && JS.cmp_undef JS.leb (heartRate entry) 80%Q then
    push recommendations heart_healthy
  else recommendations.

Definition mood_analysis (entry : Entry) (recommendations : list Recommendation)
  : list Recommendation :=
  if mood_is entry "tired" || mood_is entry "exhausted" then
    push recommendations wellness_tired
  else if mood_is entry "stressed" || mood_is entry "anxious" then
    push recommendations wellness_stressed
  else recommendations.

(** [priorityOrder = { high: 0, medium: 1, low: 2 }]. *)
Definition priorityOrder (p : Priority) : Z :=
  match p with high => 0 | medium => 1 | low => 2 end.

Definition by_priority (a b : Recommendation) : option Z :=
  Some (priorityOrder (priority a) - priorityOrder (priority b)).

Definition analyzeEntry (entry : option Entry) (goals : option Goals)
  : outcome (list Recommendation) :=
  match entry with
  | None => Return [start_logging]
  | Some entry =>
      let recommendations := [] in
      let recommendations := sleep_analysis entry recommendations in
      match activity_analysis entry goals recommendations with
      | Throw e => Throw e
      | Return recommendations =>
          match hydration_analysis entry goals recommendations with
          | Throw e => Throw e
          | Return recommendations =>
              let recommendations := heart_analysis entry recommendations in
              let recommendations := mood_analysis entry recommendations in
              Return (Array.sort by_priority recommendations)
          end
      end
  end.

End WithFormat.

End RecommendationEngine.

(** ** MedicalAI: the risk scores *)

(** The health data that the risk scores read; every property is
    optional. *)
Record HealthData := mkHealthData {
  age : option JS.number;
  systolicBP : option JS.number;
  totalCholesterol : option JS.number;
  hdlCholesterol : option JS.number;
  smoker : option bool;
  diabetic : option bool;
  bmi : option JS.number;
  waistCircumference : option JS.number;
  diabetesFamilyHistory : option bool;
  weeklyExerciseHours : option JS.number;
  fastingGlucose : option JS.number
}.

(** A piece of advice, [{priority, action, reason}]. *)
Record Advice := mkAdvice {
  adv_priority : string;
  action : string;
  reason : string
}.

Record CardiovascularRisk := mkCardiovascularRisk {
  cv_risk : Z;
  cv_category : string;
  cv_points : Z;
  cv_recommendations : list Advice
}.

Record DiabetesRisk := mkDiabetesRisk {
  db_risk : string;
  db_points : Z;
  preDiabetic : bool;
  db_diabetic : bool;
  db_recommendations : list Advice
}.

Record DepressionScreen := mkDepressionScreen {
  ds_score : JS.number;
  severity : string;
  recommendation : string
}.

Module MedicalAI.

(** [flag || false], then used as a condition. *)
Definition or_false (b : option bool) : bool :=
  match b with Some v => v | None => false end.

Definition advice_cardiologist : Advice :=
  mkAdvice "High" "Consult cardiologist immediately"
           "High 10-year cardiovascular disease risk detected".
Definition advice_blood_pressure : Advice :=
  mkAdvice "High" "Monitor and manage blood pressure"
           "Hypertension detected (BP > 140/90)".
Definition advice_cholesterol : Advice :=
  mkAdvice "Medium" "Reduce dietary cholesterol, consider statins"
           "High cholesterol levels".
Definition advice_smoking : Advice :=
  mkAdvice "High" "Smoking cessation program"
           "Smoking significantly increases cardiovascular risk".
Definition advice_exercise : Advice :=
  mkAdvice "Medium" "150 minutes of moderate exercise per week"
           "WHO recommendation for cardiovascular health".

Definition getCardioRecommendations (risk : Z) (data : HealthData)
  : list Advice :=
  let recommendations := [] in
  let recommendations :=
    if 20 <=? risk
    then DashboardManager.push recommendations advice_cardiologist
    else recommendations in
  let recommendations :=
    if JS.cmp_undef JS.gtb (systolicBP data) 140%Q
    then DashboardManager.push recommendations advice_blood_pressure
    else recommendations in
  let recommendations :=
    if JS.cmp_undef JS.gtb (totalCholesterol data) 240%Q
    then DashboardManager.push recommendations advice_cholesterol
    else recommendations in
  let recommendations :=
    if or_false (smoker data)
    then DashboardManager.push recommendations advice_smoking
    else recommendations in
  DashboardManager.push recommendations advice_exercise.

(** The points of calculateCardiovascularRisk, from the values after
    their defaults. *)
Definition cardiovascular_points
           (age systolic cholesterol hdl : JS.number) (smoker diabetic : bool)
  : Z :=
  let points := 0 in
  (* Age points *)
  let points :=
    if JS.geb age 70%Q then points + 10
    else if JS.geb age 60%Q then points + 8
    else if JS.geb age 50%Q then points + 6
    else if JS.geb age 40%Q then points + 4
    else if JS.geb age 35%Q then points + 2
    else points in
  (* Blood pressure *)
  let points :=
    if JS.geb systolic 160%Q then points + 6
    else if JS.geb systolic 140%Q then points + 4
    else if JS.geb systolic 130%Q then points + 2
    else if JS.geb systolic 120%Q then points + 1
    else points in
  (* Cholesterol *)
  let points :=
    if JS.geb cholesterol 280%Q then points + 6
    else if JS.geb cholesterol 240%Q then points + 4
    else if JS.geb cholesterol 200%Q then points + 2
    else points in
  (* HDL (protective) *)
  let points :=
    if JS.ltb hdl 35%Q then points + 3
    else if JS.geb hdl 60%Q then points - 2
    else points in
  (* Risk factors *)
  let points := if smoker then points + 4 else points in
  let points := if diabetic then points + 3 else points in
  points.

(** The 10-year risk percentage of a number of points. *)
Definition risk_of_points (points : Z) : Z :=
  if points <=? 0 then 1
  else if points <=? 4 then 2
  else if points <=? 6 then 4
  else if points <=? 8 then 7
  else if points <=? 10 then 11
  else if points <=? 12 then 17
  else if points <=? 14 then 25
  else if points <=? 16 then 35
  else 50.

Definition calculateCardiovascularRisk (healthData : HealthData)
  : CardiovascularRisk :=
  let age := JS.or_default (age healthData) 30%Q in
  let systolic := JS.or_default (systolicBP healthData) 120%Q in
  let cholesterol := JS.or_default (totalCholesterol healthData) 200%Q in
  let hdl := JS.or_default (hdlCholesterol healthData) 50%Q in
  let smoker := or_false (smoker healthData) in
  let diabetic := or_false (diabetic healthData) in
  let points := cardiovascular_points age systolic cholesterol hdl smoker diabetic in
  let risk := risk_of_points points in
  {| cv_risk := risk;
     cv_category :=
       if risk <? 10 then "Low" else if risk <? 20 then "Moderate" else "High";
     cv_points := points;
     cv_recommendations := getCardioRecommendations risk healthData |}.

Definition advice_endocrinologist : Advice :=
  mkAdvice "Urgent" "Consult endocrinologist immediately"
           "Fasting glucose in diabetic range (≥126 mg/dL)".
Definition advice_glucose_monitoring : Advice :=
  mkAdvice "High" "Lifestyle modification and glucose monitoring"
           "Pre-diabetic glucose levels detected".
Definition advice_weight_loss : Advice :=
  mkAdvice "High" "Weight loss program: target 5-10% reduction"
           "Obesity increases diabetes risk by 80%".
Definition advice_diet : Advice :=
  mkAdvice "Medium" "Mediterranean diet with low glycemic index foods"
           "Proven to reduce diabetes risk by 50% (Salas-Salvadó et al., 2014)".
Definition advice_daily_exercise : Advice :=
  mkAdvice "Medium" "30 minutes daily moderate exercise"
           "Reduces diabetes risk and improves insulin sensitivity".

Definition getDiabetesRecommendations (risk : string) (glucose bmi : JS.number)
  : list Advice :=
  let recommendations := [] in
  let recommendations :=
    if JS.geb glucose 126%Q
    then DashboardManager.push recommendations advice_endocrinologist
    else if JS.geb glucose 100%Q
    then DashboardManager.push recommendations advice_glucose_monitoring
    else recommendations in
  let recommendations :=
    if JS.geb bmi 30%Q
    then DashboardManager.push recommendations advice_weight_loss
    else recommendations in
  let recommendations := DashboardManager.push recommendations advice_diet in
  DashboardManager.push recommendations advice_daily_exercise.

(** The points of calculateDiabetesRisk, from the values after their
    defaults. *)
Definition diabetes_points
           (age bmi waist : JS.number) (familyHistory : bool)
           (physicalActivity bloodGlucose : JS.number) : Z :=
  let points := 0 in
  (* Age *)
  let points :=
    if JS.geb age 65%Q then points + 3
    else if JS.geb age 45%Q then points + 2
    else if JS.geb age 40%Q then points + 1
    else points in
  (* BMI *)
  let points :=
    if JS.geb bmi 35%Q then points + 3
    else if JS.geb bmi 30%Q then points + 2
    else if JS.geb bmi 25%Q then points + 1
    else points in
  (* Waist circumference (cm) *)
  let points :=
    if JS.gtb waist 102%Q then points + 2
    else if JS.gtb waist 88%Q then points + 2
    else points in
  (* Family history *)
  let points := if familyHistory then points + 2 else points in
  (* Physical activity *)
  let points := if JS.ltb physicalActivity 2%Q then points + 2 else points in
  (* Blood glucose *)
  let points :=
    if JS.geb bloodGlucose 126%Q then points + 4
    else if JS.geb bloodGlucose 100%Q then points + 2
    else points in
  points.

Definition calculateDiabetesRisk (healthData : HealthData) : DiabetesRisk :=
  let age := JS.or_default (age healthData) 30%Q in
  let bmi := JS.or_default (bmi healthData) 22%Q in
  let waist := JS.or_default (waistCircumference healthData) 80%Q in
  let familyHistory := or_false (diabetesFamilyHistory healthData) in
  let physicalActivity := JS.or_default (weeklyExerciseHours healthData) 2%Q in
  let bloodGlucose := JS.or_default (fastingGlucose healthData) 90%Q in
  let points :=
    diabetes_points age bmi waist familyHistory physicalActivity bloodGlucose in
  let risk :=
    if 6 <=? points then "High" else if 3 <=? points then "Moderate" else "Low" in
  {| db_risk := risk;
     db_points := points;
     preDiabetic := JS.geb bloodGlucose 100%Q && JS.ltb bloodGlucose 126%Q;
     db_diabetic := JS.geb bloodGlucose 126%Q;
     db_recommendations := getDiabetesRecommendations risk bloodGlucose bmi |}.

(** screenDepression, the PHQ-9 scale: the sum of the responses and its
    severity. *)
Definition screenDepression (responses : list JS.number) : DepressionScreen :=
  let score := fold_left (fun sum val => (sum + val)%Q) responses 0%Q in
  if JS.leb score 4%Q then
    mkDepressionScreen score "Minimal" "No treatment needed, monitor symptoms"
  else if JS.leb score 9%Q then
    mkDepressionScreen score "Mild" "Watchful waiting, consider counseling"
  else if JS.leb score 14%Q then
    mkDepressionScreen score "Moderate"
      "Treatment plan: therapy and/or medication"
  else if JS.leb score 19%Q then
    mkDepressionScreen score "Moderately Severe"
      "Active treatment: medication + therapy strongly recommended"
  else
    mkDepressionScreen score "Severe"
      "Immediate treatment: medication + intensive therapy, safety assessment".

End MedicalAI.

(** ** A reference JSON runtime

    A printer and a parser of JSON texts, and the reading of a JSON
    object as a document. The theorems on the store hold for every
    runtime; this one runs the store on concrete texts, and is the
    runtime of the round trip of export and import. It prints as
    [JSON.stringify] does: strings with the escapes of the quote, the
    backslash and the control characters, and two spaces of indentation
    in the pretty form; a number is printed by its decimal expansion,
    where [JSON.stringify] prints the shortest numeral of the same
    double. It parses the JSON texts whose characters lie below U+0100:
    any white space, the string escapes below U+0080, numbers with a
    fraction and an exponent. *)
Module RefJSON.

Definition chars (s : string) : list ascii := list_ascii_of_string s.

(** *** Printing *)

Definition digit_char (n : Z) : ascii := ascii_of_N (Z.to_N (48 + n)).

Fixpoint print_digits (fuel : nat) (n : Z) (acc : list ascii) : list ascii :=
  match fuel with
  | O => acc
  | S fuel' =>
      let acc' := digit_char (n mod 10) :: acc in
      if n <? 10 then acc' else print_digits fuel' (n / 10) acc'
  end.

Definition print_natural (n : Z) : list ascii :=
  print_digits (S (Z.to_nat (Z.log2 n))) n [].

Fixpoint print_fraction (fuel : nat) (r d : Z) : list ascii :=
  match fuel with
  | O => []
  | S fuel' =>
      if r =? 0 then []
      else digit_char (10 * r / d) :: print_fraction fuel' (10 * r mod d) d
  end.

(** The decimal expansion of a number; it is exact for the decimal
    numbers, whose fraction has fewer digits than the denominator has
    bits. *)
Definition print_number (q : JS.number) : list ascii :=
  let n := Z.abs (Qnum q) in
  let d := Z.pos (Qden q) in
  (if Qnum q <? 0 then chars "-" else [])
  ++ print_natural (n / d)
  ++ (if n mod d =? 0 then []
      else chars "." ++ print_fraction (Pos.size_nat (Qden q)) (n mod d) d).

Definition quote : ascii := ascii_of_nat 34.
Definition backslash : ascii := "\"%char.
Definition newline : ascii := ascii_of_nat 10.

Definition hex_digit (n : nat) : ascii :=
  nth n (chars "0123456789abcdef") "0"%char.

(** A character of a string as [JSON.stringify] writes it. *)
Definition escape_char (c : ascii) : list ascii :=
  let n := nat_of_ascii c in
  if Ascii.eqb c quote then [backslash; quote]
  else if Ascii.eqb c backslash then [backslash; backslash]
  else if (n =? 8)%nat then [backslash; "b"%char]
  else if (n =? 12)%nat then [backslash; "f"%char]
  else if (n =? 10)%nat then [backslash; "n"%char]
  else if (n =? 13)%nat then [backslash; "r"%char]
  else if (n =? 9)%nat then [backslash; "t"%char]
  else if (n <? 32)%nat then
    [backslash; "u"%char; "0"%char; "0"%char;
     hex_digit (n / 16); hex_digit (n mod 16)]
  else [c].

Definition escape (s : list ascii) : list ascii := flat_map escape_char s.

Definition print_string (s : string) : list ascii :=
  quote :: escape (chars s) ++ [quote].

Fixpoint join (sep : list ascii) (l : list (list ascii)) : list ascii :=
  match l with
  | [] => []
  | [x] => x
  | x :: r => x ++ sep ++ join sep r
  end.

(** A line break and the indentation of [level], in the pretty form. *)
Definition break (pretty : bool) (level : nat) : list ascii :=
  if pretty then newline :: repeat " "%char (2 * level) else [].

Fixpoint print (pretty : bool) (level : nat) (j : json) : list ascii :=
  match j with
  | JNull => chars "null"
  | JBool true => chars "true"
  | JBool false => chars "false"
  | JNum q => print_number q
  | JStr s => print_string s
  | JArr [] => chars "[]"
  | JArr l =>
      chars "[" ++ break pretty (S level)
      ++ join (chars "," ++ break pretty (S level))
              (map (print pretty (S level)) l)
      ++ break pretty level ++ chars "]"
  | JObj [] => chars "{}"
  | JObj l =>
      chars "{" ++ break pretty (S level)
      ++ join (chars "," ++ break pretty (S level))
              (map (fun kv =>
                      print_string (fst kv)
                      ++ chars (if pretty then ": " else ":")
                      ++ print pretty (S level) (snd kv)) l)
      ++ break pretty level ++ chars "}"
  end.

(** *** Parsing *)

Definition is_ws (c : ascii) : bool :=
  let n := nat_of_ascii c in
  (n =? 32)%nat || (n =? 10)%nat || (n =? 13)%nat || (n =? 9)%nat.

Fixpoint skip_ws (s : list ascii) : list ascii :=
  match s with
  | c :: r => if is_ws c then skip_ws r else s
  | [] => []
  end.

Fixpoint strip_prefix (p s : list ascii) : option (list ascii) :=
  match p, s with
  | [], _ => Some s
  | a :: p', b :: s' => if Ascii.eqb a b then strip_prefix p' s' else None
  | _ :: _, [] => None
  end.

Definition hex_value (c : ascii) : option nat :=
  let n := nat_of_ascii c in
  if (48 <=? n)%nat && (n <=? 57)%nat then Some (n - 48)%nat
  else if (97 <=? n)%nat && (n <=? 102)%nat then Some (n - 87)%nat
  else if (65 <=? n)%nat && (n <=? 70)%nat then Some (n - 55)%nat
  else None.

(** The character that a one-letter escape stands for. *)
Definition unescape (e : ascii) : option ascii :=
  if Ascii.eqb e quote then Some quote
  else if Ascii.eqb e backslash then Some backslash
  else if Ascii.eqb e "/" then Some "/"%char
  else if Ascii.eqb e "b" then Some (ascii_of_nat 8)
  else if Ascii.eqb e "f" then Some (ascii_of_nat 12)
  else if Ascii.eqb e "n" then Some (ascii_of_nat 10)
  else if Ascii.eqb e "r" then Some (ascii_of_nat 13)
  else if Ascii.eqb e "t" then Some (ascii_of_nat 9)
  else None.

(** The characters of a string up to its closing quote. A control
    character must be escaped; of the escapes [\uXXXX] the ones below
    U+0080, which are one character of the string, are read. *)
Fixpoint string_body (s acc : list ascii) : option (list ascii * list ascii) :=
  match s with
  | [] => None
  | c :: r =>
      if Ascii.eqb c quote then Some (rev acc, r)
      else if Ascii.eqb c backslash then
        match r with
        | e :: r' =>
            if Ascii.eqb e "u" then
              match r' with
              | a :: b :: h :: l :: r'' =>
                  match hex_value a, hex_value b, hex_value h, hex_value l with
                  | Some O, Some O, Some x, Some y =>
                      if (x <? 8)%nat
                      then string_body r'' (ascii_of_nat (16 * x + y) :: acc)
                      else None
                  | _, _, _, _ => None
                  end
              | _ => None
              end
            else
              match unescape e with
              | Some x => string_body r' (x :: acc)
              | None => None
              end
        | [] => None
        end
      else if (nat_of_ascii c <? 32)%nat then None
      else string_body r (c :: acc)
  end.

Fixpoint digits (s : list ascii) (acc : Z) (count : nat) : Z * nat * list ascii :=
  match s with
  | c :: r =>
      match Date.digit c with
      | Some d => digits r (10 * acc + d) (S count)
      | None => (acc, count, s)
      end
  | [] => (acc, count, [])
  end.

(** The sign, the integer part, without a leading zero, and the
    fraction of a number. *)
Definition mantissa (s : list ascii) : option (json * list ascii) :=
  let '(sign, s) :=
    match s with
    | c :: r => if Ascii.eqb c "-" then (-1, r) else (1, s)
    | [] => (1, s)
    end in
  let leading_zero :=
    match s with
    | c :: _ => Ascii.eqb c "0"
    | [] => false
    end in
  let '(int, n, s) := digits s 0 O in
  if (n =? 0)%nat || (leading_zero && (1 <? n)%nat) then None
  else
    match s with
    | c :: r =>
        if Ascii.eqb c "." then
          let '(all, k, s') := digits r int O in
          if (k =? 0)%nat then None
          else Some (JNum (Qred (Qmake (sign * all) (Z.to_pos (10 ^ Z.of_nat k)))), s')
        else Some (JNum (inject_Z (sign * int)), s)
    | [] => Some (JNum (inject_Z (sign * int)), s)
    end.

(** The exponent of a number, if it has one: [e] or [E], an optional
    sign and digits. *)
Definition exponent (q : JS.number) (s : list ascii)
  : option (json * list ascii) :=
  match s with
  | c :: r =>
      if Ascii.eqb c "e" || Ascii.eqb c "E" then
        let '(sign, r) :=
          match r with
          | c' :: r' =>
              if Ascii.eqb c' "-" then (-1, r')
              else if Ascii.eqb c' "+" then (1, r')
              else (1, r)
          | [] => (1, r)
          end in
        let '(e, k, rest) := digits r 0 O in
        if (k =? 0)%nat then None
        else
          let p := inject_Z (10 ^ e) in
          Some (JNum (Qred (if sign <? 0 then q / p else q * p)%Q), rest)
      else Some (JNum q, s)
  | [] => Some (JNum q, s)
  end.

(** A number: a mantissa and an optional exponent. *)
Definition number (s : list ascii) : option (json * list ascii) :=
  '(j, r) ← mantissa s;
  match j with
  | JNum q => exponent q r
  | _ => None
  end.

(** [obj[k] = v]: the value of the key is replaced where the key stands;
    a new key goes to the end. *)
Fixpoint set_field (k : string) (v : json) (fields : list (string * json))
  : list (string * json) :=
  match fields with
  | [] => [(k, v)]
  | kv :: r =>
      if String.eqb k (fst kv) then (fst kv, v) :: r
      else kv :: set_field k v r
  end.

(** A value, the elements of an array after its bracket, and the members
    of an object after its brace. *)
Fixpoint value (fuel : nat) (s : list ascii) {struct fuel}
  : option (json * list ascii) :=
  match fuel with
  | O => None
  | S fuel' =>
      match skip_ws s with
      | [] => None
      | c :: r =>
          if Ascii.eqb c "n" then
            r' ← strip_prefix (chars "ull") r; Some (JNull, r')
          else if Ascii.eqb c "t" then
            r' ← strip_prefix (chars "rue") r; Some (JBool true, r')
          else if Ascii.eqb c "f" then
            r' ← strip_prefix (chars "alse") r; Some (JBool false, r')
          else if Ascii.eqb c quote then
            '(str, r') ← string_body r [];
            Some (JStr (string_of_list_ascii str), r')
          else if Ascii.eqb c "[" then
            match skip_ws r with
            | [] => None
            | c' :: r' =>
                if Ascii.eqb c' "]" then Some (JArr [], r')
                else elements fuel' r []
            end
          else if Ascii.eqb c "{" then
            match skip_ws r with
            | [] => None
            | c' :: r' =>
                if Ascii.eqb c' "}" then Some (JObj [], r')
                else members fuel' r []
            end
          else number (c :: r)
      end
  end
with elements (fuel : nat) (s : list ascii) (acc : list json) {struct fuel}
  : option (json * list ascii) :=
  match fuel with
  | O => None
  | S fuel' =>
      '(v, r1) ← value fuel' s;
      match skip_ws r1 with
      | d :: r2 =>
          if Ascii.eqb d "," then elements fuel' r2 (v :: acc)
          else if Ascii.eqb d "]" then Some (JArr (rev (v :: acc)), r2)
          else None
      | [] => None
      end
  end
with members (fuel : nat) (s : list ascii) (acc : list (string * json))
             {struct fuel}
  : option (json * list ascii) :=
  match fuel with
  | O => None
  | S fuel' =>
      s1 ← strip_prefix [quote] (skip_ws s);
      '(key, s2) ← string_body s1 [];
      s3 ← strip_prefix (chars ":") (skip_ws s2);
      '(v, r1) ← value fuel' s3;
      let acc' := set_field (string_of_list_ascii key) v acc in
      match skip_ws r1 with
      | d :: r2 =>
          if Ascii.eqb d "," then members fuel' r2 acc'
          else if Ascii.eqb d "}" then Some (JObj acc', r2)
          else None
      | [] => None
      end
  end.

Definition parse_json (text : string) : option json :=
  '(v, rest) ← value (S (2 * String.length text)) (chars text);
  match skip_ws rest with
  | [] => Some v
  | _ :: _ => None
  end.

(** *** JSON values as documents, and back *)

(** The value of the last member named [k], as [JSON.parse] keeps it. *)
Fixpoint member (k : string) (fields : list (string * json)) : option json :=
  match fields with
  | [] => None
  | (k', v) :: r =>
      match member k r with
      | Some w => Some w
      | None => if String.eqb k k' then Some v else None
      end
  end.

Definition as_number (j : option json) : option JS.number :=
  match j with Some (JNum q) => Some q | _ => None end.

Definition as_string (j : option json) : option string :=
  match j with Some (JStr s) => Some s | _ => None end.

Definition read_entry (j : json) : option Entry :=
  match j with
  | JObj f =>
      d ← as_string (member "date" f);
      Some (mkEntry d (as_number (member "steps" f))
                    (as_number (member "heartRate" f))
                    (as_number (member "sleep" f))
                    (as_number (member "water" f))
                    (as_number (member "calories" f))
                    (as_string (member "mood" f))
                    (as_string (member "notes" f)))
  | _ => None
  end.

Definition read_heartRate (j : option json) : option HeartRateGoal :=
  match j with
  | Some (JObj f) =>
      lo ← as_number (member "min" f);
      hi ← as_number (member "max" f);
      Some (mkHeartRateGoal lo hi)
  | _ => None
  end.

(** The properties whose key is none of [names]. *)
Definition others (names : list string) (f : list (string * json))
  : list (string * json) :=
  List.filter (fun kv => negb (existsb (String.eqb (fst kv)) names)) f.

Definition goal_names : list string :=
  ["steps"; "sleep"; "water"; "heartRate"; "calories"].

Definition document_names : list string :=
  ["user"; "goals"; "settings"; "entries"].

Definition read_goals (j : json) : option Goals :=
  match j with
  | JObj f =>
      Some (mkGoals (as_number (member "steps" f))
                    (as_number (member "sleep" f))
                    (as_number (member "water" f))
                    (read_heartRate (member "heartRate" f))
                    (as_number (member "calories" f))
                    (others goal_names f))
  | _ => None
  end.

Definition falsy (j : json) : bool :=
  match j with
  | JNull => true
  | JBool b => negb b
  | JNum q => Qeq_bool q 0
  | JStr s => String.eqb s ""
  | _ => false
  end.

Definition read_entries (j : option json) : EntriesField :=
  match j with
  | None => EntriesAbsent
  | Some (JArr l) =>
      match mapM read_entry l with
      | Some es => EntriesArray es
      | None => EntriesOther (JArr l)
      end
  | Some v => if falsy v then EntriesAbsent else EntriesOther v
  end.

Definition read (j : json) : Parsed :=
  match j with
  | JNull => PNull
  | JObj f =>
      PObject (mkDocument (member "user" f)
                          (member "goals" f ≫= read_goals)
                          (member "settings" f)
                          (read_entries (member "entries" f))
                          (others document_names f))
  | JArr l => PArray l
  | _ => PPrimitive j
  end.

Definition field {A : Type} (k : string) (f : A -> json) (o : option A)
  : list (string * json) :=
  match o with Some v => [(k, f v)] | None => [] end.

Definition write_entry (e : Entry) : json :=
  JObj (("date", JStr (date e))
        :: field "steps" JNum (steps e)
        ++ field "heartRate" JNum (heartRate e)
        ++ field "sleep" JNum (sleep e)
        ++ field "water" JNum (water e)
        ++ field "calories" JNum (calories e)
        ++ field "mood" JStr (mood e)
        ++ field "notes" JStr (notes e)).

Definition write_heartRate (g : HeartRateGoal) : json :=
  JObj [("min", JNum (hr_min g)); ("max", JNum (hr_max g))].

Definition write_goals (g : Goals) : json :=
  JObj (field "steps" JNum (g_steps g)
        ++ field "sleep" JNum (g_sleep g)
        ++ field "water" JNum (g_water g)
        ++ field "heartRate" write_heartRate (g_heartRate g)
        ++ field "calories" JNum (g_calories g)
        ++ g_other g).

Definition write_entries (e : EntriesField) : list (string * json) :=
  match e with
  | EntriesAbsent => []
  | EntriesOther j => [("entries", j)]
  | EntriesArray l => [("entries", JArr (map write_entry l))]
  end.

Definition write (v : Parsed) : json :=
  match v with
  | PNull => JNull
  | PArray l => JArr l
  | PPrimitive j => j
  | PObject d =>
      JObj (field "user" id (doc_user d)
            ++ field "goals" write_goals (doc_goals d)
            ++ field "settings" id (doc_settings d)
            ++ write_entries (doc_entries d)
            ++ doc_other d)
  end.

#[export] Instance runtime : JSONRuntime := {|
  JSON_parse text := read <$> parse_json text;
  JSON_stringify v := string_of_list_ascii (print false 0 (write v));
  JSON_stringify_pretty v := string_of_list_ascii (print true 0 (write v))
|}.

End RefJSON.

(** * Properties *)

(** ** Vocabulary of the statements *)

(** A metric or a target that, when present, is not negative. *)
Definition nonneg (a : option JS.number) : Prop :=
  match a with Some v => (0 <= v)%Q | None => True end.

Definition nonneg_metrics (e : Entry) : Prop :=
  nonneg (steps e) /\ nonneg (sleep e) /\ nonneg (water e) /\ nonneg (calories e).

Definition nonneg_goals (g : Goals) : Prop :=
  nonneg (g_steps g) /\ nonneg (g_sleep g) /\ nonneg (g_water g)
  /\ nonneg (g_calories g).

(** The metrics of the latest entry, when there is one, are not negative. *)
Definition nonneg_latest (entries : list Entry) : Prop :=
  match entries with latest :: _ => nonneg_metrics latest | [] => True end.

(** A metric that stays as it is or grows: absent on both sides, or
    present on both with the second value at least the first. *)
Definition grows (a b : option JS.number) : Prop :=
  match a, b with
  | Some x, Some y => (x <= y)%Q
  | None, None => True
  | _, _ => False
  end.

(** The midpoint of the target range of the heart rate. *)
Definition midpoint (g : HeartRateGoal) : JS.number :=
  ((hr_min g + hr_max g) / 2)%Q.

(** A heart rate that stays as it is or moves towards the midpoint of
    the target range (any move when there is no target). *)
Definition approaches (goal : option HeartRateGoal) (a b : option JS.number)
  : Prop :=
  match a, b with
  | Some x, Some y =>
      match goal with
      | Some g => (Qabs (y - midpoint g) <= Qabs (x - midpoint g))%Q
      | None => True
      end
  | None, None => True
  | _, _ => False
  end.

(** [b] is [a] with some metrics improved. *)
Definition improves (goals : Goals) (a b : Entry) : Prop :=
  grows (steps a) (steps b) /\ grows (sleep a) (sleep b)
  /\ grows (water a) (water b) /\ grows (calories a) (calories b)
  /\ approaches (g_heartRate goals) (heartRate a) (heartRate b).





Definition with_g_steps (g : Goals) (v : option JS.number) : Goals :=
  mkGoals v (g_sleep g) (g_water g) (g_heartRate g) (g_calories g) (g_other g).
Definition with_g_sleep (g : Goals) (v : option JS.number) : Goals :=
  mkGoals (g_steps g) v (g_water g) (g_heartRate g) (g_calories g) (g_other g).
Definition with_g_water (g : Goals) (v : option JS.number) : Goals :=
  mkGoals (g_steps g) (g_sleep g) v (g_heartRate g) (g_calories g) (g_other g).
Definition with_g_calories (g : Goals) (v : option JS.number) : Goals :=
  mkGoals (g_steps g) (g_sleep g) (g_water g) (g_heartRate g) v (g_other g).

Definition ex_full_entry : Entry :=
  mkEntry "2024-01-03" (Some 12000%Q) (Some 70%Q) (Some 8%Q) (Some 8%Q)
          (Some 2200%Q) None None.
Definition ex_full_goals : Goals :=
  mkGoals (Some 10000%Q) (Some 8%Q) (Some 8%Q)
          (Some (mkHeartRateGoal 60%Q 80%Q)) (Some 2200%Q) [].

(** The scenario with missing fields: only steps are logged. *)
Definition ex_steps_entry : Entry :=
  mkEntry "2024-01-04" (Some 5000%Q) None None None None None None.
Definition ex_steps_goals : Goals :=
  mkGoals (Some 10000%Q) (Some 8%Q) None None None [].

(** An entry that logs nothing but a number of steps. *)
Definition steps_only (d : string) (n : JS.number) : Entry :=
  mkEntry d (Some n) None None None None None None.
Definition steps_goal (n : JS.number) : Goals :=
  mkGoals (Some n) None None None None [].

(** A present metric below, or above, a limit. *)
Definition below (limit : JS.number) (a : option JS.number) : Prop :=
  exists v, a = Some v /\ (v < limit)%Q.
Definition above (limit : JS.number) (a : option JS.number) : Prop :=
  exists v, a = Some v /\ (limit < v)%Q.

(** A night of less than six hours; in the look-back over three days a
    sleep that was not logged counts as no sleep at all. *)
Definition short_night (e : Entry) : Prop :=
  match sleep e with Some v => (v < 6)%Q | None => True end.

Definition chronic (entries : list Entry) : Prop :=
  (3 <= length entries)%nat /\ List.Forall short_night (firstn 3 entries).

(** The order of the rules. *)
Definition rule_order : list Flag :=
  [DashboardManager.flag_sleep; DashboardManager.flag_heartRate;
   DashboardManager.flag_water; DashboardManager.flag_steps;
   DashboardManager.flag_chronic_sleep].

#[global] Instance FlagType_eq_dec : EqDecision FlagType.
Proof. solve_decision. Defined.
#[global] Instance Flag_eq_dec : EqDecision Flag.
Proof. solve_decision. Defined.

(** The scenario of the flags: three short nights in a row, then an
    older, longer one. *)
Definition ex_short_nights : list Entry :=
  [ mkEntry "2024-01-05" (Some 5000%Q) (Some 60%Q) (Some 5%Q) (Some 4%Q)
            None None None;
    mkEntry "2024-01-04" None None (Some (11 # 2)%Q) None None None None;
    mkEntry "2024-01-03" None None (Some 4%Q) None None None None;
    mkEntry "2024-01-02" None None (Some 8%Q) None None None None ].

(** The time value of the date of an entry. *)
Definition time_of (e : Entry) : option Z := Date.parse (date e).

(** An entry whose date is a date-only ISO string of a real day. *)
Definition iso_dated (e : Entry) : Prop := is_Some (time_of e).

(** [a] is of a strictly later day than [b]. *)
Definition newer (a b : Entry) : Prop :=
  match time_of a, time_of b with
  | Some x, Some y => y < x
  | _, _ => False
  end.

(** The invariant of the list of entries: every date is a day, every
    entry is of a later day than all the entries after it (so the first
    one is the most recent), and no date occurs twice. *)
Definition entries_invariant (l : list Entry) : Prop :=
  List.Forall iso_dated l
  /\ StronglySorted newer l
  /\ List.NoDup (map date l).

(** The entries of a list that carry the date [d]. *)
Definition dated (d : string) (l : list Entry) : list Entry :=
  List.filter (fun e => String.eqb (date e) d) l.

(** The day of the year, from 0. *)
Definition day_of_year (y m d : Z) : Z := Date.days_before_month y m + (d - 1).

(** ** JSON values of the data model *)

(** A number that a JSON text spells exactly, in lowest terms: the
    denominator divides a power of ten. *)
Definition decimal (q : JS.number) : bool :=
  (Z.gcd (Qnum q) (Z.pos (Qden q)) =? 1)
  && (10 ^ Z.of_nat (Pos.size_nat (Qden q)) mod Z.pos (Qden q) =? 0).

(** No key twice. *)
Fixpoint distinct (keys : list string) : bool :=
  match keys with
  | [] => true
  | k :: r => negb (existsb (String.eqb k) r) && distinct r
  end.

(** A value that [JSON.parse] gives: its numbers are decimal and no
    object has a key twice. *)
Fixpoint wf_json (j : json) : bool :=
  match j with
  | JNum q => decimal q
  | JArr l => forallb wf_json l
  | JObj f => distinct (map fst f) && forallb (fun kv => wf_json (snd kv)) f
  | _ => true
  end.













(** The same on documents: the numbers of a document are decimal, and the
    properties kept beside the named ones have other keys, none twice. *)
Definition wf_number (o : option JS.number) : bool :=
  match o with Some q => decimal q | None => true end.

Definition wf_value (o : option json) : bool :=
  match o with Some j => wf_json j | None => true end.

Definition wf_entry (e : Entry) : bool :=
  wf_number (steps e) && wf_number (heartRate e) && wf_number (sleep e)
  && wf_number (water e) && wf_number (calories e).

Definition beside (names : list string) (f : list (string * json)) : bool :=
  distinct (map fst f)
  && forallb (fun kv => negb (existsb (String.eqb (fst kv)) names)
                        && wf_json (snd kv)) f.

Definition wf_goals (g : Goals) : bool :=
  wf_number (g_steps g) && wf_number (g_sleep g) && wf_number (g_water g)
  && match g_heartRate g with
     | Some r => decimal (hr_min r) && decimal (hr_max r)
     | None => true
     end
  && wf_number (g_calories g)
  && beside RefJSON.goal_names (g_other g).

Definition well_formed (d : Document) : bool :=
  wf_value (doc_user d)
  && match doc_goals d with Some g => wf_goals g | None => true end
  && wf_value (doc_settings d)
  && match doc_entries d with
     | EntriesArray l => forallb wf_entry l
     | _ => false
     end
  && beside RefJSON.document_names (doc_other d).

(** ** Vocabulary of the proofs about the JSON runtime *)

Section RuntimeVocabulary.
Import RefJSON.

(** The digits of a string [l] read after the number [a]. *)
Definition read_digits (l : list ascii) (a : Z) : Z :=
  fold_left (fun a c => 10 * a + match Date.digit c with
                                  | Some d => d
                                  | None => 0
                                  end) l a.

Definition all_digits (l : list ascii) : Prop :=
  List.Forall (fun c => is_Some (Date.digit c)) l.

(** A rest of the text at which a number ends. *)
Definition ends_digits (rest : list ascii) : Prop :=
  match rest with
  | [] => True
  | c :: _ => Date.digit c = None
  end.

(** A rest of the text at which a value ends. *)
Definition ends_value (rest : list ascii) : Prop :=
  match rest with
  | [] => True
  | c :: _ =>
      Date.digit c = None /\ c <> "."%char
      /\ Ascii.eqb c "e" || Ascii.eqb c "E" = false
  end.

(** What [mantissa] reads after the sign. *)
Definition unsigned (sign : Z) (s : list ascii) : option (json * list ascii) :=
  let leading_zero :=
    match s with
    | c :: _ => Ascii.eqb c "0"
    | [] => false
    end in
  let '(int, n, s) := digits s 0 O in
  if (n =? 0)%nat || (leading_zero && (1 <? n)%nat) then None
  else
    match s with
    | c :: r =>
        if Ascii.eqb c "." then
          let '(all, k, s') := digits r int O in
          if (k =? 0)%nat then None
          else Some (JNum (Qred (Qmake (sign * all)
                                       (Z.to_pos (10 ^ Z.of_nat k)))), s')
        else Some (JNum (inject_Z (sign * int)), s)
    | [] => Some (JNum (inject_Z (sign * int)), s)
    end.

Definition all_ws (l : list ascii) : Prop :=
  List.Forall (fun c => is_ws c = true) l.

(** A character at which a value ends and which is no white space. *)
Definition closing (c : ascii) : Prop :=
  c = ","%char \/ c = "]"%char \/ c = "}"%char.

(** The first character of a printed value: no white space and no
    closing bracket. *)
Definition opening (c : ascii) : Prop :=
  is_ws c = false /\ Ascii.eqb c "]" = false /\ Ascii.eqb c "}" = false.

(** What the round trip of a value asks of the parser. *)
Definition parses (j : json) : Prop :=
  wf_json j = true ->
  forall pretty level rest fuel,
    ends_value rest ->
    (2 * length (print pretty level j ++ rest) <= fuel)%nat ->
    value fuel (print pretty level j ++ rest) = Some (j, rest).

Definition separator (pretty : bool) (level : nat) : list ascii :=
  chars "," ++ break pretty (S level).

Definition member_text (pretty : bool) (level : nat) (kv : string * json)
  : list ascii :=
  print_string (fst kv)
  ++ chars (if pretty then ": " else ":")
  ++ print pretty (S level) (snd kv).

(** The named properties that [write] gives the targets and a document. *)
Definition goal_fields (g : Goals) : list (string * json) :=
  field "steps" JNum (g_steps g)
  ++ field "sleep" JNum (g_sleep g)
  ++ field "water" JNum (g_water g)
  ++ field "heartRate" write_heartRate (g_heartRate g)
  ++ field "calories" JNum (g_calories g).

Definition document_fields (d : Document) : list (string * json) :=
  field "user" id (doc_user d)
  ++ field "goals" write_goals (doc_goals d)
  ++ field "settings" id (doc_settings d)
  ++ write_entries (doc_entries d).

End RuntimeVocabulary.

Section StoreVocabulary.
Context `{JSONRuntime}.

(** The storage holds a text that reads as the document [d]. *)
Definition holds (st : LocalStorage) (d : Document) : Prop :=
  exists text,
    item st = Some text /\ text <> ""
    /\ JSON_parse text = Some (PObject d).

(** The storage holds the text that [saveAll] writes for [d]. *)
Definition written (st : LocalStorage) (d : Document) : Prop :=
  item st = Some (JSON_stringify (PObject d)).

(** The runtime reads back what it writes for [d]. *)
Definition readable (d : Document) : Prop :=
  JSON_stringify (PObject d) <> ""
  /\ JSON_parse (JSON_stringify (PObject d)) = Some (PObject d).

(** The storage has room for the text of [d]. *)
Definition fits (st : LocalStorage) (d : Document) : Prop :=
  (String.length (JSON_stringify (PObject d)) <= quota st)%nat.
End StoreVocabulary.

(** A JSON text written with apostrophes for its double quotes. *)
Definition json_text (s : string) : string :=
  string_of_list_ascii
    (map (fun c => if Ascii.eqb c "'" then ascii_of_nat 34 else c)
         (list_ascii_of_string s)).

(** A store for the examples: the text of a document with a target and
    two entries, in a storage with room for 4096 characters. *)
Definition ex_text : string :=
  json_text "{'goals':{'steps':10000},'entries':[{'date':'2024-01-03','steps':12000},{'date':'2024-01-01','sleep':7.5}]}".

(** A document with targets, entries and properties beside those of the
    data model, its properties in no particular order: the text, the
    JSON value that the text spells, and a store that holds the text. *)
Definition ex_document_text : string :=
  json_text "{'version':2,'entries':[{'steps':12000,'date':'2024-01-03','mood':'good'},{'date':'2024-01-01','sleep':7.5}],'goals':{'exercise':30,'steps':10000,'heartRate':{'max':100,'min':60}},'user':{'name':'Ada'}}".


Definition ex_document_store : LocalStorage :=
  mkLocalStorage (Some ex_document_text) 4096.

(** The same document as the store reads it, and new targets: a target
    for the sleep and one for the exercise. *)
Definition ex_document : Document :=
  mkDocument
    (Some (JObj [("name", JStr "Ada")]))
    (Some (mkGoals (Some 10000%Q) None None (Some (mkHeartRateGoal 60%Q 100%Q))
                   None [("exercise", JNum 30%Q)]))
    None
    (EntriesArray
       [mkEntry "2024-01-03" (Some 12000%Q) None None None None (Some "good")
                None;
        mkEntry "2024-01-01" None None (Some (15 # 2)%Q) None None None None])
    [("version", JNum 2%Q)].

Definition ex_new_goals : Goals :=
  mkGoals None (Some 8%Q) None None None [("exercise", JNum 45%Q)].

(** The text of a document without entries. *)
Definition ex_empty_text : string := json_text "{'entries':[]}".

Definition ex_store : LocalStorage := mkLocalStorage (Some ex_text) 4096.

Definition ex_entries : list Entry :=
  [ mkEntry "2024-01-03" (Some 12000%Q) None None None None None None;
    mkEntry "2024-01-01" None None (Some (15 # 2)%Q) None None None None ].

Definition ex_doc : Document :=
  mkDocument None (Some (steps_goal 10000%Q)) None (EntriesArray ex_entries) [].

(** An entry for a new day, and one for a day that is already there. *)
Definition ex_new_entry : Entry :=
  mkEntry "2024-01-02" None None None (Some 6%Q) None None None.
Definition ex_update_entry : Entry :=
  mkEntry "2024-01-03" None None (Some 8%Q) None None None None.

(** A storage that is full: it holds the same text and has no room for
    another one. *)
Definition ex_full_store : LocalStorage := mkLocalStorage (Some ex_text) 3.

(** What a ratio block (steps, sleep, water, calories) adds to the score,
    and what the heart-rate block adds to it, as numbers. *)
Definition ratio_points (value goal : option JS.number) (cap : JS.number)
  : JS.number :=
  match value, goal with
  | Some v, Some g => if JS.truthy g then Qmin (v / g * cap) cap else 0%Q
  | _, _ => 0%Q
  end.

Definition in_target (g : HeartRateGoal) (hr : JS.number) : bool :=
  JS.geb hr (hr_min g) && JS.leb hr (hr_max g).

Definition heart_points (value : option JS.number) (goal : option HeartRateGoal)
  : JS.number :=
  match value, goal with
  | Some hr, Some g =>
      if in_target g hr then 15%Q
      else Qmax (15 - Qabs (hr - midpoint g) / 5) 0
  | _, _ => 0%Q
  end.

(** The look-back of three days, as the code computes it. *)
Definition chronicb (entries : list Entry) : bool :=
  (3 <=? length entries)%nat
  && Array.every (fun s => JS.ltb s 6%Q)
       (map (fun e => JS.or_zero (sleep e)) (Array.slice0 3 entries)).

(** The flag that a rule emits, if it fires. *)
Definition emit (b : bool) (f : Flag) : list Flag := if b then [f] else [].

(** A storage without a document to read: nothing under the key, an
    empty text, a text that does not parse, or the text of [null]. *)
Definition unreadable `{JSONRuntime} (st : LocalStorage) : Prop :=
  match item st with
  | None => True
  | Some text =>
      text = "" \/ JSON_parse text = None \/ JSON_parse text = Some PNull
  end.

(** The first entry of a list that carries the date [d], if any. *)
Definition lookup_date (d : string) (l : list Entry) : option Entry :=
  Array.find (fun entry => String.eqb (date entry) d) l.

(** The entries of a list that do not carry the date [d]. *)
Definition without_date (d : string) (l : list Entry) : list Entry :=
  List.filter (fun entry => negb (String.eqb (date entry) d)) l.

(** The targets of a document, [{}] when it has none. *)
Definition goals_of (d : Document) : Goals :=
  match doc_goals d with Some g => g | None => no_goals end.

(** The five metrics of an entry, and the average that calculateStats
    gives of each. *)
Inductive Metric := Steps | HeartRate | Sleep | Water | Calories.

Definition metric_of (m : Metric) (e : Entry) : option JS.number :=
  match m with
  | Steps => steps e
  | HeartRate => heartRate e
  | Sleep => sleep e
  | Water => water e
  | Calories => calories e
  end.

Definition average_of (m : Metric) (s : DashboardManager.Stats) : JS.number :=
  match m with
  | Steps => DashboardManager.avgSteps s
  | HeartRate => DashboardManager.avgHeartRate s
  | Sleep => DashboardManager.avgSleep s
  | Water => DashboardManager.avgWater s
  | Calories => DashboardManager.avgCalories s
  end.

(** A target that is absent or zero: its component is left out. *)
Definition no_target (a : option JS.number) : Prop :=
  match a with Some v => (v == 0)%Q | None => True end.

(** A metric that reaches a target which is positive. *)
Definition reaches (value goal : option JS.number) : Prop :=
  exists v g, value = Some v /\ goal = Some g /\ (0 < g)%Q /\ (g <= v)%Q.

(** The points a component can give at most: its cap when the metric is
    logged and the target is set, nothing otherwise. *)
Definition cap_if {A B : Type} (value : option A) (goal : option B) (cap : Z) : Z :=
  match value, goal with Some _, Some _ => cap | _, _ => 0 end.

(** A metric that is not below, or not above, a limit: absent, or on the
    right side of it. *)
Definition not_below (limit : JS.number) (a : option JS.number) : Prop :=
  match a with Some v => (limit <= v)%Q | None => True end.
Definition not_above (limit : JS.number) (a : option JS.number) : Prop :=
  match a with Some v => (v <= limit)%Q | None => True end.

(** The alert of checkHealthFlags that goes with a flag of
    detectHealthFlags, by the metric of the flag. *)
Definition alert_of (f : Flag) : string :=
  if String.eqb (flag_metric f) "sleep" then NotificationManager.alert_sleep
  else if String.eqb (flag_metric f) "heartRate" then NotificationManager.alert_heartRate
  else if String.eqb (flag_metric f) "water" then NotificationManager.alert_water
  else NotificationManager.alert_steps.

(** The flags of a single day: all but the one of the look-back. *)
Definition single_day (flags : list Flag) : list Flag :=
  List.filter
    (fun f => negb (bool_decide (f = DashboardManager.flag_chronic_sleep)))
    flags.

(** A metric logged with a value from [lo] on and below [hi]. *)
Definition between (lo hi : JS.number) (a : option JS.number) : Prop :=
  exists v, a = Some v /\ (lo <= v)%Q /\ (v < hi)%Q.

(** The order of the priorities: a recommendation is not before one of a
    higher priority. *)
Definition priority_le (a b : Recommendation) : Prop :=
  RecommendationEngine.priorityOrder (priority a)
  <= RecommendationEngine.priorityOrder (priority b).

(** The comparator of a sort by an integer key. *)
Definition key_cmp {A : Type} (key : A -> Z) (a b : A) : option Z :=
  Some (key a - key b).

(** A block of analyzeEntry adds one recommendation of its category at
    most. *)
Definition block (c : string) (l : list Recommendation) : Prop :=
  l = [] \/ exists r, l = [r] /\ category r = c.

(** The category of the recommendations that goes with a flag, by the
    metric of the flag. *)
Definition category_of (f : Flag) : string :=
  if String.eqb (flag_metric f) "sleep" then "sleep"
  else if String.eqb (flag_metric f) "heartRate" then "heart"
  else if String.eqb (flag_metric f) "water" then "hydration"
  else "activity".

(** The points that each factor of the cardiovascular score gives. *)
Definition age_points (a : JS.number) : Z :=
  if JS.geb a 70%Q then 10 else if JS.geb a 60%Q then 8
  else if JS.geb a 50%Q then 6 else if JS.geb a 40%Q then 4
  else if JS.geb a 35%Q then 2 else 0.

Definition pressure_points (s : JS.number) : Z :=
  if JS.geb s 160%Q then 6 else if JS.geb s 140%Q then 4
  else if JS.geb s 130%Q then 2 else if JS.geb s 120%Q then 1 else 0.

Definition cholesterol_points (c : JS.number) : Z :=
  if JS.geb c 280%Q then 6 else if JS.geb c 240%Q then 4
  else if JS.geb c 200%Q then 2 else 0.

Definition hdl_points (h : JS.number) : Z :=
  if JS.ltb h 35%Q then 3 else if JS.geb h 60%Q then -2 else 0.

(** The values that calculateCardiovascularRisk works with, after the
    defaults. *)
Definition cv_age (d : HealthData) : JS.number := JS.or_default (age d) 30%Q.
Definition cv_systolic (d : HealthData) : JS.number :=
  JS.or_default (systolicBP d) 120%Q.
Definition cv_cholesterol (d : HealthData) : JS.number :=
  JS.or_default (totalCholesterol d) 200%Q.
Definition cv_hdl (d : HealthData) : JS.number :=
  JS.or_default (hdlCholesterol d) 50%Q.

(** [d'] is no better than [d] on any factor of the cardiovascular
    score: not younger, pressure and cholesterol not lower, HDL not
    higher, smoking and diabetes not dropped. *)
Definition cv_no_better (d d' : HealthData) : Prop :=
  (cv_age d <= cv_age d')%Q
  /\ (cv_systolic d <= cv_systolic d')%Q
  /\ (cv_cholesterol d <= cv_cholesterol d')%Q
  /\ (cv_hdl d' <= cv_hdl d)%Q
  /\ (MedicalAI.or_false (smoker d) = true -> MedicalAI.or_false (smoker d') = true)
  /\ (MedicalAI.or_false (diabetic d) = true
      -> MedicalAI.or_false (diabetic d') = true).

(** The rank of a category of risk. *)
Definition category_rank (c : string) : Z :=
  if String.eqb c "Low" then 0 else if String.eqb c "Moderate" then 1 else 2.

(** The health data with other weekly hours of exercise. *)
Definition with_exercise (d : HealthData) (v : option JS.number) : HealthData :=
  mkHealthData (age d) (systolicBP d) (totalCholesterol d) (hdlCholesterol d)
               (smoker d) (diabetic d) (bmi d) (waistCircumference d)
               (diabetesFamilyHistory d) v (fastingGlucose d).

(** The rank of a severity of the depression scale. *)
Definition severity_rank (s : string) : Z :=
  if String.eqb s "Minimal" then 0 else if String.eqb s "Mild" then 1
  else if String.eqb s "Moderate" then 2
  else if String.eqb s "Moderately Severe" then 3 else 4.

(** Further examples: a storage with nothing under the key, a number
    format that prints decimal digits, a day outside the limits, health
    data, and the responses of a form. *)
Definition ex_blank_store : LocalStorage := mkLocalStorage None 4096.

Definition ex_format : NumberFormat :=
  {| Number_toString := fun n =>
       match n with
       | Some q => string_of_list_ascii (RefJSON.print_number q)
       | None => "NaN"
       end |}.

Definition ex_poor_entry : Entry :=
  mkEntry "2024-01-06" (Some 1500%Q) (Some 110%Q) (Some 5%Q) (Some 2%Q)
          None None None.

Definition ex_health : HealthData :=
  mkHealthData (Some 50%Q) (Some 130%Q) (Some 210%Q) (Some 45%Q)
               (Some false) None (Some 27%Q) (Some 90%Q) None (Some 1%Q)
               (Some 130%Q).
Definition ex_health_worse : HealthData :=
  mkHealthData (Some 65%Q) (Some 150%Q) (Some 250%Q) (Some 35%Q)
               (Some true) None (Some 27%Q) (Some 90%Q) None (Some 1%Q)
               (Some 130%Q).

Definition ex_responses : list JS.number :=
  [1; 2; 0; 3; 1; 1; 2; 0; 1]%Q.
Definition ex_responses_worse : list JS.number :=
  [2; 2; 1; 3; 2; 1; 3; 1; 1]%Q.

(** ** The health score *)

Import DashboardManager.

Section Numbers.
Local Open Scope Q_scope.

Lemma truthy_div (v g : JS.number) :
  JS.truthy g = true -> JS.div v g = Some (v / g).
Proof.
  unfold JS.truthy, JS.div. destruct (Qeq_bool g 0); [discriminate | reflexivity].
Qed.

Lemma truthy_nonzero (g : JS.number) : JS.truthy g = true -> ~ g == 0.
Proof.
  unfold JS.truthy. intros Ht Hz. apply Qeq_bool_iff in Hz.
  rewrite Hz in Ht. discriminate.
Qed.

Lemma falsy_zero (g : JS.number) : g == 0 -> JS.truthy g = false.
Proof.
  unfold JS.truthy. intros Hz. apply Qeq_bool_iff in Hz. now rewrite Hz.
Qed.

Lemma Math_round_le (x y : JS.number) :
  x <= y -> (JS.Math_round x <= JS.Math_round y)%Z.
Proof.
  intros Hxy. unfold JS.Math_round. apply Qfloor_resp_le. lra.
Qed.

Lemma quotient_le (v v' g : JS.number) :
  0 < g -> v <= v' -> v / g <= v' / g.
Proof.
  intros Hg Hv. unfold Qdiv. apply Qmult_le_compat_r; [exact Hv |].
  apply Qlt_le_weak, Qinv_lt_0_compat, Hg.
Qed.

Lemma quotient_nonneg (v g : JS.number) : 0 <= v -> 0 < g -> 0 <= v / g.
Proof.
  intros Hv Hg. unfold Qdiv. apply Qmult_le_0_compat; [exact Hv |].
  apply Qlt_le_weak, Qinv_lt_0_compat, Hg.
Qed.

End Numbers.

Section Components.
Local Open Scope Q_scope.

(** Quotients by the constants 2 and 5 as products, for [lra]. *)
Ltac lra_div :=
  unfold midpoint, Qdiv in *;
  change (/ 2) with (1 # 2) in *; change (/ 5) with (1 # 5) in *; lra.

Lemma div_by_2 (x : JS.number) : JS.div x 2 = Some (x / 2).
Proof. reflexivity. Qed.

Lemma div_by_5 (x : JS.number) : JS.div x 5 = Some (x / 5).
Proof. reflexivity. Qed.

Lemma add_ratio_score_eq value goal cap score :
  exists score',
    add_ratio_score value goal cap score = Some score'
    /\ score' == score + ratio_points value goal cap.
Proof.
  unfold add_ratio_score, ratio_points.
  destruct value as [v|]; [| exists score; split; [reflexivity | lra]].
  destruct goal as [g|]; simpl; [| exists score; split; [reflexivity | lra]].
  destruct (JS.truthy g) eqn:Hg; [| exists score; split; [reflexivity | lra]].
  rewrite (truthy_div v g Hg). simpl. eexists. split; [reflexivity |].
  unfold JS.Math_min. lra.
Qed.

Lemma ratio_points_le value goal cap :
  0 <= cap -> ratio_points value goal cap <= cap.
Proof.
  intros Hcap. unfold ratio_points.
  destruct value as [v|], goal as [g|]; try exact Hcap.
  destruct (JS.truthy g); [apply Q.le_min_r | exact Hcap].
Qed.

Lemma ratio_points_nonneg value goal cap :
  0 <= cap -> nonneg value -> nonneg goal ->
  0 <= ratio_points value goal cap.
Proof.
  intros Hcap Hv Hg. unfold ratio_points.
  destruct value as [v|], goal as [g|]; try lra.
  destruct (JS.truthy g) eqn:Ht; [| lra]. unfold nonneg in Hv, Hg.
  apply truthy_nonzero in Ht.
  assert (Hpos : 0 < g) by (apply Qle_lteq in Hg; destruct Hg as [Hg | Hg];
                            [exact Hg | exfalso; apply Ht; symmetry; exact Hg]).
  apply Q.min_glb; [| exact Hcap].
  apply Qmult_le_0_compat; [apply quotient_nonneg; assumption | exact Hcap].
Qed.

Lemma ratio_points_mono value value' goal cap :
  0 <= cap -> nonneg goal -> grows value value' ->
  ratio_points value goal cap <= ratio_points value' goal cap.
Proof.
  intros Hcap Hg Hv. unfold ratio_points.
  destruct value as [v|], value' as [v'|]; unfold grows in Hv;
    try contradiction;
    [| lra].
  destruct goal as [g|]; [| lra].
  destruct (JS.truthy g) eqn:Ht; [| lra]. unfold nonneg in Hg.
  apply truthy_nonzero in Ht.
  assert (Hpos : 0 < g) by (apply Qle_lteq in Hg; destruct Hg as [Hg | Hg];
                            [exact Hg | exfalso; apply Ht; symmetry; exact Hg]).
  apply Q.min_le_compat_r.
  apply Qmult_le_compat_r; [apply quotient_le; assumption | exact Hcap].
Qed.

Lemma add_heart_score_eq value goal score :
  exists score',
    add_heart_score value goal score = Some score'
    /\ score' == score + heart_points value goal.
Proof.
  unfold add_heart_score, heart_points, in_target.
  destruct value as [hr|]; [| exists score; split; [reflexivity | lra]].
  destruct goal as [g|]; [| exists score; split; [reflexivity | lra]].
  destruct (JS.geb hr (hr_min g) && JS.leb hr (hr_max g)).
  - eexists. split; [reflexivity | lra].
  - rewrite div_by_2. cbn [mbind option_bind]. rewrite div_by_5.
    cbn [mbind option_bind]. eexists. split; [reflexivity |].
    unfold JS.Math_max, JS.Math_abs, midpoint. reflexivity.
Qed.

Lemma in_target_iff g hr :
  in_target g hr = true <-> hr_min g <= hr /\ hr <= hr_max g.
Proof.
  unfold in_target, JS.geb, JS.leb.
  rewrite andb_true_iff, !Qle_bool_iff. tauto.
Qed.

Lemma heart_points_bounds value goal :
  0 <= heart_points value goal <= 15.
Proof.
  unfold heart_points.
  destruct value as [hr|], goal as [g|]; try lra.
  destruct (in_target g hr); [lra |].
  assert (Habs := Qabs_nonneg (hr - midpoint g)).
  split; [apply Q.le_max_r |].
  apply Q.max_lub; lra_div.
Qed.

Lemma heart_points_mono value value' goal :
  approaches goal value value' ->
  heart_points value goal <= heart_points value' goal.
Proof.
  intros Happ. unfold heart_points.
  destruct value as [hr|], value' as [hr'|]; unfold approaches in Happ;
    try contradiction;
    [| lra].
  destruct goal as [g|]; [| lra].
  destruct (in_target g hr') eqn:Hin'.
  - destruct (in_target g hr); [lra |].
    assert (Habs := Qabs_nonneg (hr - midpoint g)).
    apply Q.max_lub; lra_div.
  - destruct (in_target g hr) eqn:Hin.
    + exfalso. apply in_target_iff in Hin. destruct Hin as [Hlo Hhi].
      assert (Hnot : ~ (hr_min g <= hr' /\ hr' <= hr_max g)).
      { intros Hc. apply in_target_iff in Hc. congruence. }
      apply Hnot.
      assert (Hd : Qabs (hr - midpoint g) <= (hr_max g - hr_min g) / 2).
      { apply Qabs_Qle_condition. split; lra_div. }
      assert (Hd' : Qabs (hr' - midpoint g) <= (hr_max g - hr_min g) / 2)
        by (eapply Qle_trans; eassumption).
      apply Qabs_Qle_condition in Hd'.
      destruct Hd' as [H1 H2]. split; lra_div.
    + apply Q.max_le_compat_r. lra_div.
Qed.


Lemma raw_score_eq latest goals :
  exists score,
    raw_score latest goals = Some score
    /\ score ==
         ratio_points (steps latest) (g_steps goals) 25
         + ratio_points (sleep latest) (g_sleep goals) 25
         + ratio_points (water latest) (g_water goals) 20
         + heart_points (heartRate latest) (g_heartRate goals)
         + ratio_points (calories latest) (g_calories goals) 15.
Proof.
  unfold raw_score.
  destruct (add_ratio_score_eq (steps latest) (g_steps goals) 25 0)
    as (s1 & -> & E1). simpl.
  destruct (add_ratio_score_eq (sleep latest) (g_sleep goals) 25 s1)
    as (s2 & -> & E2). simpl.
  destruct (add_ratio_score_eq (water latest) (g_water goals) 20 s2)
    as (s3 & -> & E3). simpl.
  destruct (add_heart_score_eq (heartRate latest) (g_heartRate goals) s3)
    as (s4 & -> & E4). simpl.
  destruct (add_ratio_score_eq (calories latest) (g_calories goals) 15 s4)
    as (s5 & -> & E5). simpl.
  exists s5. split; [reflexivity | lra].
Qed.

End Components.

Section HealthScore.
Local Open Scope Q_scope.

Lemma raw_score_le_100 latest goals score :
  raw_score latest goals = Some score -> score <= 100.
Proof.
  intros Hs. destruct (raw_score_eq latest goals) as (s & Hs' & E).
  rewrite Hs in Hs'. injection Hs' as <-. rewrite E.
  assert (H1 := ratio_points_le (steps latest) (g_steps goals) 25).
  assert (H2 := ratio_points_le (sleep latest) (g_sleep goals) 25).
  assert (H3 := ratio_points_le (water latest) (g_water goals) 20).
  assert (H4 := heart_points_bounds (heartRate latest) (g_heartRate goals)).
  assert (H5 := ratio_points_le (calories latest) (g_calories goals) 15).
  lra.
Qed.

Lemma raw_score_nonneg latest goals score :
  nonneg_metrics latest -> nonneg_goals goals ->
  raw_score latest goals = Some score -> 0 <= score.
Proof.
  intros (M1 & M2 & M3 & M4) (G1 & G2 & G3 & G4) Hs.
  destruct (raw_score_eq latest goals) as (s & Hs' & E).
  rewrite Hs in Hs'. injection Hs' as <-. rewrite E.
  assert (H1 := ratio_points_nonneg _ _ 25 ltac:(lra) M1 G1).
  assert (H2 := ratio_points_nonneg _ _ 25 ltac:(lra) M2 G2).
  assert (H3 := ratio_points_nonneg _ _ 20 ltac:(lra) M3 G3).
  assert (H4 := heart_points_bounds (heartRate latest) (g_heartRate goals)).
  assert (H5 := ratio_points_nonneg _ _ 15 ltac:(lra) M4 G4).
  lra.
Qed.

Lemma raw_score_mono latest latest' goals score score' :
  nonneg_goals goals -> improves goals latest latest' ->
  raw_score latest goals = Some score ->
  raw_score latest' goals = Some score' ->
  score <= score'.
Proof.
  intros (G1 & G2 & G3 & G4) (I1 & I2 & I3 & I4 & I5) Hs Hs'.
  destruct (raw_score_eq latest goals) as (s & Es & E).
  destruct (raw_score_eq latest' goals) as (s' & Es' & E').
  rewrite Hs in Es. injection Es as <-.
  rewrite Hs' in Es'. injection Es' as <-.
  rewrite E, E'.
  assert (H1 := ratio_points_mono _ _ _ 25 ltac:(lra) G1 I1).
  assert (H2 := ratio_points_mono _ _ _ 25 ltac:(lra) G2 I2).
  assert (H3 := ratio_points_mono _ _ _ 20 ltac:(lra) G3 I3).
  assert (H4 := heart_points_mono _ _ _ I5).
  assert (H5 := ratio_points_mono _ _ _ 15 ltac:(lra) G4 I4).
  lra.
Qed.


Lemma add_ratio_score_zero_goal value z cap score :
  z == 0 ->
  add_ratio_score value (Some z) cap score
  = add_ratio_score value None cap score.
Proof.
  intros Hz. unfold add_ratio_score. destruct value; [| reflexivity].
  simpl. rewrite (falsy_zero z Hz). reflexivity.
Qed.

End HealthScore.

(** The upper bound of the score, and its lower bound on the inputs that
    are not negative: in exact arithmetic the score is always defined, is
    an integer that never exceeds 100, and is the rounding of the sum of
    the capped components; it is not negative as soon as the metrics of
    the latest entry and the numeric targets are not negative. *)
Lemma calculateHealthScore_range (entries : list Entry) (goals : Goals) :
  exists z : Z,
    calculateHealthScore entries goals = Some z
    /\ z <= 100
    /\ (nonneg_latest entries -> nonneg_goals goals -> 0 <= z)
    /\ (forall latest rest, entries = latest :: rest ->
        exists score,
          raw_score latest goals = Some score
          /\ (score <= 100)%Q
          /\ z = JS.Math_round score).
Proof.
  destruct entries as [| latest rest].
  - exists 0. repeat split; try lia. intros ? ? Hnil. discriminate.
  - destruct (raw_score_eq latest goals) as (score & Hs & _).
    exists (JS.Math_round score). unfold calculateHealthScore. rewrite Hs.
    pose proof (raw_score_le_100 _ _ _ Hs) as Hle.
    split; [reflexivity |]. split; [| split].
    + assert (Hb : JS.Math_round score <= JS.Math_round 100%Q)
        by (apply Math_round_le; exact Hle).
      exact Hb.
    + intros Hm Hg. pose proof (raw_score_nonneg _ _ _ Hm Hg Hs) as Hge.
      assert (Hb : JS.Math_round 0%Q <= JS.Math_round score)
        by (apply Math_round_le; exact Hge).
      exact Hb.
    + intros latest' rest' Heq. injection Heq as <- <-.
      exists score. auto.
Qed.

(** C1. The function is documented to return a score from 0 to 100 and
    its steps block to give from 0 to 25 points, but the blocks of steps,
    sleep, water and calories are capped from above only, where the
    heart-rate block is clamped at 0: for an entry that logs -10000 steps
    and a target of 10000 steps the score is -25, in exact arithmetic and
    in double precision alike. *)
Theorem calculateHealthScore_negative :
  calculateHealthScore [steps_only "2024-01-05" (-10000)%Q] (steps_goal 10000%Q)
  = Some (-25)
  /\ Double.calculateHealthScore [steps_only "2024-01-05" (-10000)%Q]
                                 (steps_goal 10000%Q)
     = Double.of_Z (-25).
Proof. split; vm_compute; reflexivity. Qed.



(** With a negative target more steps lower the score: the blocks that
    are not clamped at 0 make the score decrease as well as negative. *)
Lemma calculateHealthScore_negative_target :
  ~ (forall goals latest latest' rest z z',
        improves goals latest latest' ->
        calculateHealthScore (latest :: rest) goals = Some z ->
        calculateHealthScore (latest' :: rest) goals = Some z' ->
        z <= z').
Proof.
  intros Hall.
  assert (Himp : improves (steps_goal (-10000)%Q)
                          (steps_only "2024-01-05" 0%Q)
                          (steps_only "2024-01-05" 10000%Q)).
  { unfold improves, grows, approaches; simpl. repeat split. discriminate. }
  specialize (Hall _ _ _ [] 0 (-25) Himp eq_refl eq_refl). lia.
Qed.

(** C3 (as amended). In the scenario with missing fields the score is 13:
    the steps component is 12.5, which rounds up, the sleep component is
    left out and nothing else contributes. *)
Theorem calculateHealthScore_missing_fields :
  calculateHealthScore [ex_steps_entry] ex_steps_goals = Some 13
  /\ (exists score,
        raw_score ex_steps_entry ex_steps_goals = Some score
        /\ (score == 25 # 2)%Q)
  /\ (ratio_points (steps ex_steps_entry) (g_steps ex_steps_goals) 25
      == 25 # 2)%Q
  /\ (ratio_points (sleep ex_steps_entry) (g_sleep ex_steps_goals) 25 == 0)%Q.
Proof.
  split; [vm_compute; reflexivity |]. split; [| split; vm_compute; reflexivity].
  eexists. split; [vm_compute; reflexivity | vm_compute; reflexivity].
Qed.

(** C3 (as stated) fails: the score of the scenario is not 12. *)
Lemma calculateHealthScore_missing_fields_not_12 :
  calculateHealthScore [ex_steps_entry] ex_steps_goals <> Some 12.
Proof. vm_compute. discriminate. Qed.

(** C10. The score is defined for every input, so no division by zero
    takes place, and a target of zero counts exactly as a target that is
    not set, for each of the four numeric targets. *)
Theorem calculateHealthScore_zero_goal (entries : list Entry) (goals : Goals) :
  is_Some (calculateHealthScore entries goals)
  /\ forall z : JS.number, (z == 0)%Q ->
       calculateHealthScore entries (with_g_steps goals (Some z))
       = calculateHealthScore entries (with_g_steps goals None)
       /\ calculateHealthScore entries (with_g_sleep goals (Some z))
          = calculateHealthScore entries (with_g_sleep goals None)
       /\ calculateHealthScore entries (with_g_water goals (Some z))
          = calculateHealthScore entries (with_g_water goals None)
       /\ calculateHealthScore entries (with_g_calories goals (Some z))
          = calculateHealthScore entries (with_g_calories goals None).
Proof.
  split.
  - destruct entries as [| latest rest]; [simpl; eauto |].
    destruct (raw_score_eq latest goals) as (score & Hs & _).
    unfold calculateHealthScore. rewrite Hs. simpl. eauto.
  - intros z Hz. destruct entries as [| latest rest]; [auto |].
    unfold calculateHealthScore, raw_score; simpl.
    repeat split; apply (f_equal (mbind _));
      repeat first
        [ rewrite (add_ratio_score_zero_goal _ z _ _ Hz); reflexivity
        | apply option_bind_ext; [intros ? | reflexivity] ].
Qed.

(** ** The health flags *)

Section HealthFlags.
Local Open Scope Q_scope.

Lemma ltb_iff (a b : JS.number) : JS.ltb a b = true <-> a < b.
Proof.
  unfold JS.ltb. rewrite negb_true_iff. split.
  - intros Hf. apply Qnot_le_lt. intros Hle.
    apply Qle_bool_iff in Hle. congruence.
  - intros Hlt. destruct (Qle_bool b a) eqn:Hb; [| reflexivity].
    apply Qle_bool_iff in Hb. lra.
Qed.

Lemma gtb_iff (a b : JS.number) : JS.gtb a b = true <-> b < a.
Proof. unfold JS.gtb. apply (ltb_iff b a). Qed.

Lemma below_iff (limit : JS.number) (a : option JS.number) :
  JS.cmp_undef JS.ltb a limit = true <-> below limit a.
Proof.
  unfold below. destruct a as [v|]; simpl.
  - rewrite ltb_iff. split; [eauto |]. intros (w & [= <-] & Hw). exact Hw.
  - split; [discriminate |]. intros (w & Hw & _). discriminate.
Qed.

Lemma above_iff (limit : JS.number) (a : option JS.number) :
  JS.cmp_undef JS.gtb a limit = true <-> above limit a.
Proof.
  unfold above. destruct a as [v|]; simpl.
  - rewrite gtb_iff. split; [eauto |]. intros (w & [= <-] & Hw). exact Hw.
  - split; [discriminate |]. intros (w & Hw & _). discriminate.
Qed.

Lemma short_night_iff (e : Entry) :
  JS.ltb (JS.or_zero (sleep e)) 6 = true <-> short_night e.
Proof.
  unfold short_night, JS.or_zero. rewrite ltb_iff.
  destruct (sleep e) as [v|]; [| split; [trivial | lra]].
  destruct (JS.truthy v) eqn:Hv; [tauto |].
  assert (Hz : v == 0).
  { unfold JS.truthy in Hv. apply negb_false_iff in Hv.
    apply Qeq_bool_iff in Hv. exact Hv. }
  rewrite Hz. tauto.
Qed.

Lemma chronicb_iff (entries : list Entry) :
  chronicb entries = true <-> chronic entries.
Proof.
  unfold chronicb, chronic, Array.every, Array.slice0.
  rewrite andb_true_iff, Nat.leb_le, forallb_forall, List.Forall_forall.
  split; intros [Hlen Hall]; (split; [exact Hlen |]).
  - intros e He. apply short_night_iff. apply Hall.
    apply in_map_iff. eauto.
  - intros s Hs. apply in_map_iff in Hs. destruct Hs as (e & <- & He).
    apply short_night_iff. auto.
Qed.

Lemma in_flags_iff (f : Flag) (l : list Flag) (b : bool) :
  bool_decide (f ∈ l) = b -> (f ∈ l <-> b = true).
Proof. intros <-. rewrite bool_decide_eq_true. reflexivity. Qed.

Lemma detectHealthFlags_eq latest rest goals :
  detectHealthFlags (latest :: rest) goals
  = emit (JS.cmp_undef JS.ltb (sleep latest) 6) flag_sleep
    ++ emit (JS.cmp_undef JS.gtb (heartRate latest) 100) flag_heartRate
    ++ emit (JS.cmp_undef JS.ltb (water latest) 3) flag_water
    ++ emit (JS.cmp_undef JS.ltb (steps latest) 2000) flag_steps
    ++ emit (chronicb (latest :: rest)) flag_chronic_sleep.
Proof.
  unfold detectHealthFlags, chronicb, emit, push.
  destruct (JS.cmp_undef JS.ltb (sleep latest) 6),
           (JS.cmp_undef JS.gtb (heartRate latest) 100),
           (JS.cmp_undef JS.ltb (water latest) 3),
           (JS.cmp_undef JS.ltb (steps latest) 2000),
           (3 <=? length (latest :: rest))%nat; cbn [andb app];
    try reflexivity;
    destruct (Array.every _ _); reflexivity.
Qed.

End HealthFlags.

(** C8. On the latest entry the flags follow the rules sleep < 6 (danger),
    heartRate > 100, water < 3, steps < 2000 (warnings), each emitted
    exactly when its rule holds, followed by the flag of chronic sleep
    deprivation exactly when there are three entries or more and the three
    most recent ones have less than 6 hours of sleep (a missing sleep
    counts as none). The output keeps the order of the rules, and in the
    scenario of the specification both sleep flags are emitted. *)
Theorem detectHealthFlags_rules
        (latest : Entry) (rest : list Entry) (goals : Goals) :
  let flags := detectHealthFlags (latest :: rest) goals in
  sublist flags rule_order
  /\ (flag_sleep ∈ flags <-> below 6%Q (sleep latest))
  /\ (flag_heartRate ∈ flags <-> above 100%Q (heartRate latest))
  /\ (flag_water ∈ flags <-> below 3%Q (water latest))
  /\ (flag_steps ∈ flags <-> below 2000%Q (steps latest))
  /\ (flag_chronic_sleep ∈ flags <-> chronic (latest :: rest))
  /\ (chronic (latest :: rest) -> last flags = Some flag_chronic_sleep)
  /\ detectHealthFlags ex_short_nights goals = [flag_sleep; flag_chronic_sleep].
Proof.
  intros flags. subst flags. rewrite detectHealthFlags_eq.
  rewrite <- (below_iff 6%Q), <- (above_iff 100%Q), <- (below_iff 3%Q),
    <- (below_iff 2000%Q), <- chronicb_iff.
  destruct (JS.cmp_undef JS.ltb (sleep latest) 6%Q),
           (JS.cmp_undef JS.gtb (heartRate latest) 100%Q),
           (JS.cmp_undef JS.ltb (water latest) 3%Q),
           (JS.cmp_undef JS.ltb (steps latest) 2000%Q),
           (chronicb (latest :: rest));
    cbn [emit app];
    (split;
     [ unfold rule_order;
       repeat first [apply sublist_nil | apply sublist_skip | apply sublist_cons] |]);
    do 5 (split; [apply in_flags_iff; vm_compute; reflexivity |]);
    (split; [intros Hc; first [reflexivity | discriminate Hc]
            | vm_compute; reflexivity]).
Qed.

(** ** Dates *)

Section Dates.

Lemma digit_range c d : Date.digit c = Some d -> 0 <= d <= 9.
Proof.
  unfold Date.digit. intros Hd.
  destruct (_ && _) eqn:Hb; [| discriminate]. injection Hd as <-.
  apply andb_true_iff in Hb. destruct Hb as [H1 H2]. lia.
Qed.

Lemma digit_inj c c' d :
  Date.digit c = Some d -> Date.digit c' = Some d -> c = c'.
Proof.
  unfold Date.digit. intros Hc Hc'.
  destruct (_ && _); [| discriminate].
  destruct (_ && _); [| discriminate].
  injection Hc as Hc. injection Hc' as Hc'.
  assert (Hn : N_of_ascii c = N_of_ascii c') by lia.
  rewrite <- (ascii_N_embedding c), <- (ascii_N_embedding c'), Hn.
  reflexivity.
Qed.

Lemma is_leap_step y :
  0 <= y ->
  Date.days_before_year (y + 1)
  = Date.days_before_year y + 365 + (if Date.is_leap y then 1 else 0).
Proof.
  intros Hy. unfold Date.days_before_year, Date.is_leap.
  replace (y + 1 + 3) with (y + 4) by lia.
  replace (y + 1 + 99) with (y + 100) by lia.
  replace (y + 1 + 399) with (y + 400) by lia.
  destruct (y mod 4 =? 0) eqn:H4; destruct (y mod 100 =? 0) eqn:H100;
    destruct (y mod 400 =? 0) eqn:H400; simpl;
    rewrite ?Z.eqb_eq, ?Z.eqb_neq in *;
    Z.div_mod_to_equations; lia.
Qed.

Lemma days_before_year_mono y y' :
  0 <= y <= y' -> Date.days_before_year y <= Date.days_before_year y'.
Proof.
  intros Hy. unfold Date.days_before_year.
  Z.div_mod_to_equations. lia.
Qed.

Lemma month_cases m :
  1 <= m <= 12 ->
  m = 1 \/ m = 2 \/ m = 3 \/ m = 4 \/ m = 5 \/ m = 6 \/ m = 7 \/ m = 8
  \/ m = 9 \/ m = 10 \/ m = 11 \/ m = 12.
Proof. lia. Qed.

Lemma valid_ymd_spec y m d :
  Date.valid_ymd y m d = true ->
  0 <= y /\ 1 <= m <= 12 /\ 1 <= d <= Date.days_in_month y m.
Proof.
  unfold Date.valid_ymd. rewrite !andb_true_iff, !Z.leb_le. tauto.
Qed.

Lemma day_of_year_bounds y m d :
  Date.valid_ymd y m d = true ->
  0 <= day_of_year y m d < 365 + (if Date.is_leap y then 1 else 0).
Proof.
  intros Hv. apply valid_ymd_spec in Hv. destruct Hv as (_ & Hm & Hd).
  unfold day_of_year.
  destruct (month_cases m Hm) as
    [-> | [-> | [-> | [-> | [-> | [-> | [-> | [-> | [-> | [-> | [-> | ->]]]]]]]]]]];
    cbn [Date.days_in_month Date.days_before_month] in *;
    destruct (Date.is_leap y); lia.
Qed.

Lemma day_of_year_lt y m d m' d' :
  Date.valid_ymd y m d = true -> Date.valid_ymd y m' d' = true ->
  m < m' -> day_of_year y m d < day_of_year y m' d'.
Proof.
  intros Hv Hv' Hlt.
  apply valid_ymd_spec in Hv. destruct Hv as (_ & Hm & Hd).
  apply valid_ymd_spec in Hv'. destruct Hv' as (_ & Hm' & Hd').
  unfold day_of_year.
  destruct (month_cases m Hm) as
    [-> | [-> | [-> | [-> | [-> | [-> | [-> | [-> | [-> | [-> | [-> | ->]]]]]]]]]]];
    destruct (month_cases m' Hm') as
    [-> | [-> | [-> | [-> | [-> | [-> | [-> | [-> | [-> | [-> | [-> | ->]]]]]]]]]]];
    try lia;
    cbn [Date.days_in_month Date.days_before_month] in *;
    destruct (Date.is_leap y); lia.
Qed.

Lemma epoch_day_inj y m d y' m' d' :
  Date.valid_ymd y m d = true -> Date.valid_ymd y' m' d' = true ->
  Date.epoch_day y m d = Date.epoch_day y' m' d' ->
  y = y' /\ m = m' /\ d = d'.
Proof.
  intros Hv Hv' He.
  pose proof (day_of_year_bounds _ _ _ Hv) as Hb.
  pose proof (day_of_year_bounds _ _ _ Hv') as Hb'.
  pose proof (valid_ymd_spec _ _ _ Hv) as (Hy & _ & _).
  pose proof (valid_ymd_spec _ _ _ Hv') as (Hy' & _ & _).
  unfold Date.epoch_day in He. fold (day_of_year y m d) in *.
  assert (He' : Date.days_before_year y + day_of_year y m d
                = Date.days_before_year y' + day_of_year y' m' d')
    by (unfold day_of_year in *; lia).
  clear He.
  assert (Hyy : y = y').
  { destruct (Z.lt_trichotomy y y') as [Hlt | [Heq | Hgt]]; [| exact Heq |].
    - pose proof (is_leap_step y Hy) as Hs.
      pose proof (days_before_year_mono (y + 1) y' ltac:(lia)). lia.
    - pose proof (is_leap_step y' Hy') as Hs.
      pose proof (days_before_year_mono (y' + 1) y ltac:(lia)). lia. }
  subst y'. split; [reflexivity |].
  assert (Hdoy : day_of_year y m d = day_of_year y m' d') by lia.
  assert (Hmm : m = m').
  { destruct (Z.lt_trichotomy m m') as [Hlt | [Heq | Hgt]]; [| exact Heq |].
    - pose proof (day_of_year_lt _ _ _ _ _ Hv Hv' Hlt). lia.
    - pose proof (day_of_year_lt _ _ _ _ _ Hv' Hv Hgt). lia. }
  subst m'. split; [reflexivity |]. unfold day_of_year in Hdoy. lia.
Qed.

Lemma ymd_inj s s' v : Date.ymd s = Some v -> Date.ymd s' = Some v -> s = s'.
Proof.
  unfold Date.ymd. intros Hs Hs'.
  rewrite <- (string_of_list_ascii_of_string s),
          <- (string_of_list_ascii_of_string s').
  destruct (list_ascii_of_string s)
    as [|y1 [|y2 [|y3 [|y4 [|h1 [|m1 [|m2 [|h2 [|d1 [|d2 [|]]]]]]]]]]];
    try discriminate.
  destruct (list_ascii_of_string s')
    as [|z1 [|z2 [|z3 [|z4 [|k1 [|n1 [|n2 [|k2 [|e1 [|e2 [|]]]]]]]]]]];
    try discriminate.
  destruct (Ascii.eqb h1 "-" && Ascii.eqb h2 "-") eqn:Hh; [| discriminate].
  destruct (Ascii.eqb k1 "-" && Ascii.eqb k2 "-") eqn:Hk; [| discriminate].
  apply andb_true_iff in Hh. destruct Hh as [Hh1 Hh2].
  apply andb_true_iff in Hk. destruct Hk as [Hk1 Hk2].
  apply Ascii.eqb_eq in Hh1, Hh2, Hk1, Hk2. subst h1 h2 k1 k2.
  destruct (Date.digit y1) as [a1|] eqn:A1; [| discriminate].
  destruct (Date.digit y2) as [a2|] eqn:A2; [| discriminate].
  destruct (Date.digit y3) as [a3|] eqn:A3; [| discriminate].
  destruct (Date.digit y4) as [a4|] eqn:A4; [| discriminate].
  destruct (Date.digit m1) as [a5|] eqn:A5; [| discriminate].
  destruct (Date.digit m2) as [a6|] eqn:A6; [| discriminate].
  destruct (Date.digit d1) as [a7|] eqn:A7; [| discriminate].
  destruct (Date.digit d2) as [a8|] eqn:A8; [| discriminate].
  destruct (Date.digit z1) as [b1|] eqn:B1; [| discriminate].
  destruct (Date.digit z2) as [b2|] eqn:B2; [| discriminate].
  destruct (Date.digit z3) as [b3|] eqn:B3; [| discriminate].
  destruct (Date.digit z4) as [b4|] eqn:B4; [| discriminate].
  destruct (Date.digit n1) as [b5|] eqn:B5; [| discriminate].
  destruct (Date.digit n2) as [b6|] eqn:B6; [| discriminate].
  destruct (Date.digit e1) as [b7|] eqn:B7; [| discriminate].
  destruct (Date.digit e2) as [b8|] eqn:B8; [| discriminate].
  cbn [mbind option_bind] in Hs, Hs'. rewrite <- Hs in Hs'.
  injection Hs' as Ey Em Ed.
  pose proof (digit_range _ _ A1). pose proof (digit_range _ _ A2).
  pose proof (digit_range _ _ A3). pose proof (digit_range _ _ A4).
  pose proof (digit_range _ _ A5). pose proof (digit_range _ _ A6).
  pose proof (digit_range _ _ A7). pose proof (digit_range _ _ A8).
  pose proof (digit_range _ _ B1). pose proof (digit_range _ _ B2).
  pose proof (digit_range _ _ B3). pose proof (digit_range _ _ B4).
  pose proof (digit_range _ _ B5). pose proof (digit_range _ _ B6).
  pose proof (digit_range _ _ B7). pose proof (digit_range _ _ B8).
  assert (a1 = b1) by lia. assert (a2 = b2) by lia.
  assert (a3 = b3) by lia. assert (a4 = b4) by lia.
  assert (a5 = b5) by lia. assert (a6 = b6) by lia.
  assert (a7 = b7) by lia. assert (a8 = b8) by lia.
  subst.
  rewrite (digit_inj _ _ _ A1 B1), (digit_inj _ _ _ A2 B2),
    (digit_inj _ _ _ A3 B3), (digit_inj _ _ _ A4 B4),
    (digit_inj _ _ _ A5 B5), (digit_inj _ _ _ A6 B6),
    (digit_inj _ _ _ A7 B7), (digit_inj _ _ _ A8 B8).
  reflexivity.
Qed.

(** Distinct date strings denote distinct days. *)
Lemma parse_inj s s' t :
  Date.parse s = Some t -> Date.parse s' = Some t -> s = s'.
Proof.
  unfold Date.parse. intros Hs Hs'.
  destruct (Date.ymd s) as [[[y m] d]|] eqn:Es; [| discriminate].
  destruct (Date.ymd s') as [[[y' m'] d']|] eqn:Es'; [| discriminate].
  destruct (Date.valid_ymd y m d) eqn:Hv; [| discriminate].
  destruct (Date.valid_ymd y' m' d') eqn:Hv'; [| discriminate].
  injection Hs as Hs. injection Hs' as Hs'.
  assert (He : Date.epoch_day y m d = Date.epoch_day y' m' d')
    by (unfold Date.ms_per_day in *; lia).
  destruct (epoch_day_inj _ _ _ _ _ _ Hv Hv' He) as (-> & -> & ->).
  eapply ymd_inj; eassumption.
Qed.

End Dates.

(** ** Sorting the entries *)

Section Sorting.

Lemma after_newest_first (x y : Entry) :
  Array.after StorageManager.newest_first x y = true <->
  exists tx ty, time_of x = Some tx /\ time_of y = Some ty /\ tx < ty.
Proof.
  unfold Array.after, StorageManager.newest_first, Date.sub, time_of.
  destruct (Date.parse (date y)) as [ty|], (Date.parse (date x)) as [tx|];
    cbn [mbind option_bind]; split;
    try discriminate;
    try (intros (? & ? & ? & ? & ?); discriminate).
  - intros Hlt. apply Z.ltb_lt in Hlt. exists tx, ty. repeat split. lia.
  - intros (a & b & [= <-] & [= <-] & Hlt). apply Z.ltb_lt. lia.
Qed.

Lemma insert_sorted_perm {A : Type} (cmp : A -> A -> option Z) x l :
  Permutation (Array.insert_sorted cmp x l) (x :: l).
Proof.
  induction l as [| y l IH]; simpl; [reflexivity |].
  destruct (Array.after cmp x y); [| reflexivity].
  rewrite IH. apply perm_swap.
Qed.

Lemma sort_perm {A : Type} (cmp : A -> A -> option Z) l :
  Permutation (Array.sort cmp l) l.
Proof.
  induction l as [| x l IH]; simpl; [reflexivity |].
  rewrite insert_sorted_perm. constructor. exact IH.
Qed.

#[local] Instance newer_trans : Transitive newer.
Proof.
  intros a b c. unfold newer.
  destruct (time_of a), (time_of b), (time_of c); try tauto. lia.
Qed.

Lemma newer_or_older (x y : Entry) :
  iso_dated x -> iso_dated y -> date x <> date y ->
  newer x y \/ newer y x.
Proof.
  intros [tx Hx] [ty Hy] Hne. unfold newer. rewrite Hx, Hy.
  destruct (Z.lt_trichotomy tx ty) as [Hlt | [Heq | Hgt]]; [right | | left];
    try lia.
  subst ty. exfalso. apply Hne. eapply parse_inj; eassumption.
Qed.

Lemma after_iff_newer (x y : Entry) :
  Array.after StorageManager.newest_first x y = true <-> newer y x.
Proof.
  rewrite after_newest_first. unfold newer. split.
  - intros (tx & ty & -> & -> & Hlt). exact Hlt.
  - destruct (time_of y) as [ty|], (time_of x) as [tx|]; try tauto.
    intros Hlt. eauto.
Qed.

Lemma newer_irrefl (x y : Entry) : newer x y -> ~ newer y x.
Proof.
  unfold newer. destruct (time_of x), (time_of y); try tauto. lia.
Qed.

Lemma insert_sorted_newer x l :
  iso_dated x -> List.Forall iso_dated l ->
  List.Forall (fun y => date y <> date x) l ->
  StronglySorted newer l ->
  StronglySorted newer (Array.insert_sorted StorageManager.newest_first x l).
Proof.
  intros Hx Hiso Hne Hs.
  induction l as [| y l IH]; simpl.
  - constructor; [constructor | constructor].
  - inversion Hiso as [| ? ? Hy Hiso']; subst.
    inversion Hne as [| ? ? Hyx Hne']; subst.
    inversion Hs as [| ? ? Hs' Hall]; subst.
    destruct (Array.after StorageManager.newest_first x y) eqn:Haft.
    + apply after_iff_newer in Haft.
      constructor; [apply IH; assumption |].
      rewrite (insert_sorted_perm StorageManager.newest_first x l).
      constructor; assumption.
    + assert (Hxy : newer x y).
      { destruct (newer_or_older x y Hx Hy ltac:(congruence)) as [Hn | Hn];
          [exact Hn |].
        apply after_iff_newer in Hn. congruence. }
      constructor; [exact Hs |].
      constructor; [exact Hxy |].
      eapply List.Forall_impl; [| exact Hall].
      intros z Hz. etransitivity; eassumption.
Qed.

Lemma Forall_sort {A : Type} (cmp : A -> A -> option Z) (P : A -> Prop) l :
  List.Forall P l -> List.Forall P (Array.sort cmp l).
Proof.
  intros Hl. rewrite (sort_perm cmp l). exact Hl.
Qed.

Lemma sort_newer l :
  List.Forall iso_dated l -> List.NoDup (map date l) ->
  StronglySorted newer (Array.sort StorageManager.newest_first l).
Proof.
  induction l as [| x l IH]; intros Hiso Hnd; simpl; [constructor |].
  inversion Hiso as [| ? ? Hx Hiso']; subst.
  inversion Hnd as [| ? ? Hnotin Hnd']; subst.
  apply insert_sorted_newer; auto.
  - apply Forall_sort; assumption.
  - apply Forall_sort. apply List.Forall_forall. intros y Hy Heq.
    apply Hnotin. rewrite <- Heq. apply in_map. exact Hy.
Qed.

Lemma sort_sorted l :
  StronglySorted newer l -> Array.sort StorageManager.newest_first l = l.
Proof.
  induction 1 as [| x l Hs IH Hall]; simpl; [reflexivity |].
  rewrite IH. destruct l as [| y l']; [reflexivity |]. simpl.
  inversion Hall as [| ? ? Hxy _]; subst.
  destruct (Array.after StorageManager.newest_first x y) eqn:Haft;
    [| reflexivity].
  apply after_iff_newer in Haft. exfalso.
  exact (newer_irrefl _ _ Hxy Haft).
Qed.

Lemma sort_invariant l :
  List.Forall iso_dated l -> List.NoDup (map date l) ->
  entries_invariant (Array.sort StorageManager.newest_first l).
Proof.
  intros Hiso Hnd. split; [| split].
  - apply Forall_sort; exact Hiso.
  - apply sort_newer; assumption.
  - eapply Permutation_NoDup; [| exact Hnd].
    apply Permutation_map. symmetry. apply sort_perm.
Qed.

End Sorting.

(** ** The upsert of an entry *)

Section Upsert.
Import StorageManager.

Lemma findIndex_spec {A : Type} (p : A -> bool) (l : list A) :
  match Array.findIndex p l with
  | Some i =>
      exists x, l !! i = Some x /\ p x = true
                /\ hd_error (List.filter p l) = Some x
  | None => List.filter p l = []
  end.
Proof.
  induction l as [| y l IH]; simpl; [reflexivity |].
  destruct (p y) eqn:Hy; simpl.
  - exists y. auto.
  - destruct (Array.findIndex p l) as [i|]; simpl; exact IH.
Qed.

Lemma map_date_insert (l : list Entry) i old m :
  l !! i = Some old -> date m = date old ->
  map date (<[i := m]> l) = map date l.
Proof.
  revert i. induction l as [| y l IH]; intros [| i] Hi Hd; simpl in *;
    try discriminate.
  - injection Hi as ->. rewrite Hd. reflexivity.
  - rewrite (IH i Hi Hd). reflexivity.
Qed.

Lemma filter_insert_other (p : Entry -> bool) (l : list Entry) i old m :
  l !! i = Some old -> p old = false -> p m = false ->
  List.filter p (<[i := m]> l) = List.filter p l.
Proof.
  revert i. induction l as [| y l IH]; intros [| i] Hi Ho Hm; simpl in *;
    try discriminate.
  - injection Hi as ->. rewrite Ho, Hm. reflexivity.
  - rewrite (IH i Hi Ho Hm). reflexivity.
Qed.

Lemma Forall_insert_entry (P : Entry -> Prop) (l : list Entry) i m :
  List.Forall P l -> P m -> List.Forall P (<[i := m]> l).
Proof.
  intros Hl Hm. revert i. induction Hl as [| y l Hy Hl IH]; intros [| i];
    simpl; constructor; auto.
Qed.

Lemma In_insert_entry (l : list Entry) i old m :
  l !! i = Some old -> In m (<[i := m]> l).
Proof.
  revert i. induction l as [| y l IH]; intros [| i] Hi; simpl in *;
    try discriminate; [left; reflexivity | right; eauto].
Qed.

Lemma dated_unique (l : list Entry) (e : Entry) :
  List.NoDup (map date l) -> In e l -> dated (date e) l = [e].
Proof.
  unfold dated. induction l as [| y l IH]; intros Hnd Hin; [contradiction |].
  simpl in Hnd. inversion Hnd as [| ? ? Hnotin Hnd']; subst.
  simpl. destruct Hin as [-> | Hin].
  - rewrite String.eqb_refl. f_equal.
    destruct (List.filter _ l) as [| z t] eqn:Hf; [reflexivity |].
    exfalso. apply Hnotin.
    assert (Hz : In z (List.filter (fun e0 => String.eqb (date e0) (date e)) l))
      by (rewrite Hf; left; reflexivity).
    apply filter_In in Hz. destruct Hz as [Hz Hd].
    apply String.eqb_eq in Hd. rewrite <- Hd. apply in_map. exact Hz.
  - destruct (String.eqb (date y) (date e)) eqn:Hd.
    + exfalso. apply Hnotin. apply String.eqb_eq in Hd. rewrite Hd.
      apply in_map. exact Hin.
    + apply IH; assumption.
Qed.

Lemma dated_In (l : list Entry) d e :
  In e (dated d l) <-> In e l /\ date e = d.
Proof.
  unfold dated. rewrite filter_In, String.eqb_eq. reflexivity.
Qed.

Lemma NoDup_snoc_date (l : list Entry) (entry : Entry) :
  List.NoDup (map date l) -> dated (date entry) l = [] ->
  List.NoDup (map date (l ++ [entry])).
Proof.
  intros Hnd Hd.
  apply (Permutation_NoDup (l := map date (entry :: l))).
  - apply Permutation_map, Permutation_cons_append.
  - simpl. constructor; [| exact Hnd].
    intros Hin. apply in_map_iff in Hin. destruct Hin as (e & Hde & Hin).
    assert (Hdd : In e (dated (date entry) l)) by (apply dated_In; auto).
    rewrite Hd in Hdd. contradiction.
Qed.

(** With distinct dates, the entries of a day do not depend on the
    order of the list. *)
Lemma dated_perm (l l' : list Entry) d :
  Permutation l l' -> List.NoDup (map date l) -> dated d l' = dated d l.
Proof.
  intros Hp Hnd.
  assert (Hnd' : List.NoDup (map date l'))
    by (eapply Permutation_NoDup; [apply Permutation_map, Hp | exact Hnd]).
  destruct (dated d l) as [| e t] eqn:Hl.
  - destruct (dated d l') as [| e' t'] eqn:Hl'; [reflexivity |].
    assert (He : In e' (dated d l')) by (rewrite Hl'; left; reflexivity).
    apply dated_In in He. destruct He as [He Hd].
    assert (Hin : In e' (dated d l)).
    { apply dated_In. split; [| exact Hd].
      eapply Permutation_in; [symmetry; exact Hp | exact He]. }
    rewrite Hl in Hin. contradiction.
  - assert (He : In e (dated d l)) by (rewrite Hl; left; reflexivity).
    apply dated_In in He. destruct He as [He Hd]. subst d.
    rewrite (dated_unique l e Hnd He) in Hl. rewrite <- Hl.
    apply dated_unique; [exact Hnd' |].
    eapply Permutation_in; eassumption.
Qed.

(** The two branches of the upsert, by the entries of the date. *)
Lemma upsert_cases (entry : Entry) (l : list Entry) :
  match dated (date entry) l with
  | [] => upsert entry l = Array.sort newest_first (l ++ [entry])
  | old :: _ =>
      exists i,
        l !! i = Some old /\ date old = date entry
        /\ upsert entry l
           = Array.sort newest_first (<[i := spread old entry]> l)
  end.
Proof.
  unfold upsert, dated.
  pose proof (findIndex_spec (fun e => String.eqb (date e) (date entry)) l)
    as Hspec.
  destruct (Array.findIndex _ l) as [i|].
  - destruct Hspec as (x & Hx & Hp & Hhd).
    destruct (List.filter _ l) as [| old t]; [discriminate |].
    injection Hhd as ->. exists i. rewrite Hx.
    apply String.eqb_eq in Hp. auto.
  - rewrite Hspec. reflexivity.
Qed.

Lemma upsert_invariant (entry : Entry) (l : list Entry) :
  iso_dated entry -> List.Forall iso_dated l -> List.NoDup (map date l) ->
  entries_invariant (upsert entry l).
Proof.
  intros He Hiso Hnd. pose proof (upsert_cases entry l) as Hc.
  destruct (dated (date entry) l) as [| old t] eqn:Hd.
  - rewrite Hc. apply sort_invariant.
    + apply Forall_app. split; [exact Hiso | constructor; [exact He | constructor]].
    + apply NoDup_snoc_date; assumption.
  - destruct Hc as (i & Hi & Hdate & ->). apply sort_invariant.
    + apply Forall_insert_entry; [exact Hiso |]. exact He.
    + rewrite (map_date_insert l i old); [exact Hnd | exact Hi |].
      symmetry. exact Hdate.
Qed.

Lemma spread_spread (old entry : Entry) :
  spread (spread old entry) entry = spread old entry.
Proof.
  unfold spread, spread_field; simpl.
  destruct (steps entry), (heartRate entry), (sleep entry), (water entry),
    (calories entry), (mood entry), (notes entry); reflexivity.
Qed.

Lemma spread_self (entry : Entry) : spread entry entry = entry.
Proof.
  destruct entry as [d s h sl w c m n]. unfold spread, spread_field; simpl.
  destruct s, h, sl, w, c, m, n; reflexivity.
Qed.

(** What the upsert does to the entries of the date of [entry], and to
    those of the other dates. *)
Lemma upsert_dated (entry : Entry) (l : list Entry) :
  List.NoDup (map date l) ->
  List.NoDup (map date (upsert entry l))
  /\ match dated (date entry) l with
     | old :: _ =>
         dated (date entry) (upsert entry l) = [spread old entry]
         /\ length (upsert entry l) = length l
     | [] =>
         dated (date entry) (upsert entry l) = [entry]
         /\ Permutation (upsert entry l) (l ++ [entry])
     end
  /\ forall day, day <> date entry ->
       dated day (upsert entry l) = dated day l.
Proof.
  intros Hnd. pose proof (upsert_cases entry l) as Hc.
  destruct (dated (date entry) l) as [| old t] eqn:Hd.
  - rewrite Hc.
    assert (Hnd1 : List.NoDup (map date (l ++ [entry])))
      by (apply NoDup_snoc_date; assumption).
    pose proof (sort_perm newest_first (l ++ [entry])) as Hp.
    split; [| split; [split |]].
    + eapply Permutation_NoDup; [| exact Hnd1].
      apply Permutation_map. symmetry. exact Hp.
    + rewrite (dated_perm (l ++ [entry]) _ _ (Permutation_sym Hp) Hnd1).
      apply (dated_unique (l ++ [entry]) entry Hnd1).
      apply in_or_app. right. left. reflexivity.
    + exact Hp.
    + intros day Hday.
      rewrite (dated_perm (l ++ [entry]) _ _ (Permutation_sym Hp) Hnd1).
      unfold dated. rewrite List.filter_app. simpl.
      destruct (String.eqb (date entry) day) eqn:He;
        [apply String.eqb_eq in He; congruence | apply app_nil_r].
  - destruct Hc as (i & Hi & Hdate & ->).
    set (m := spread old entry).
    assert (Hmap : map date (<[i := m]> l) = map date l)
      by (apply (map_date_insert l i old); [exact Hi | symmetry; exact Hdate]).
    assert (Hnd1 : List.NoDup (map date (<[i := m]> l)))
      by (rewrite Hmap; exact Hnd).
    pose proof (sort_perm newest_first (<[i := m]> l)) as Hp.
    split; [| split; [split |]].
    + eapply Permutation_NoDup; [| exact Hnd1].
      apply Permutation_map. symmetry. exact Hp.
    + rewrite (dated_perm (<[i := m]> l) _ _ (Permutation_sym Hp) Hnd1).
      apply (dated_unique (<[i := m]> l) m Hnd1).
      eapply In_insert_entry; exact Hi.
    + rewrite (Permutation_length Hp). apply length_insert.
    + intros day Hday.
      rewrite (dated_perm (<[i := m]> l) _ _ (Permutation_sym Hp) Hnd1).
      unfold dated. apply (filter_insert_other _ l i old m Hi).
      * apply String.eqb_neq. congruence.
      * apply String.eqb_neq. simpl. congruence.
Qed.

(** On a list that satisfies the invariant, a second upsert of the same
    entry changes nothing. *)
Lemma upsert_twice (entry : Entry) (l : list Entry) :
  iso_dated entry -> List.Forall iso_dated l -> List.NoDup (map date l) ->
  upsert entry (upsert entry l) = upsert entry l.
Proof.
  intros He Hiso Hnd.
  destruct (upsert_invariant entry l He Hiso Hnd) as (_ & Hs1 & _).
  destruct (upsert_dated entry l Hnd) as (_ & Hcase & _).
  assert (Hm : exists m, dated (date entry) (upsert entry l) = [m]
                         /\ spread m entry = m).
  { destruct (dated (date entry) l) as [| old t].
    - exists entry. split; [apply Hcase | apply spread_self].
    - exists (spread old entry). split; [apply Hcase | apply spread_spread]. }
  destruct Hm as (m & Hd & Hsp).
  pose proof (upsert_cases entry (upsert entry l)) as Hc.
  rewrite Hd in Hc. destruct Hc as (i & Hi & _ & ->).
  rewrite Hsp, (list_insert_id _ _ _ Hi). apply sort_sorted, Hs1.
Qed.

End Upsert.

(** ** The store *)

Section Store.
Context `{JSONRuntime}.
Import StorageManager.

Lemma getAll_holds st d : holds st d -> getAll st = (Return (PObject d), st).
Proof.
  intros (text & Hitem & Hne & Hparse).
  unfold getAll, try_catch, bind, localStorage.getItem, parse_or_throw, ret.
  rewrite Hitem. apply String.eqb_neq in Hne. rewrite Hne, Hparse.
  reflexivity.
Qed.

Lemma saveAll_spec data st :
  saveAll data st =
  if (String.length (JSON_stringify data) <=? quota st)%nat
  then (Return true, mkLocalStorage (Some (JSON_stringify data)) (quota st))
  else (Return false, st).
Proof.
  unfold saveAll, try_catch, bind, localStorage.setItem, ret.
  destruct (_ <=? _)%nat; reflexivity.
Qed.

(** A write either stores the text of the document or changes nothing. *)
Lemma saveAll_document d st :
  exists b st',
    saveAll (PObject d) st = (Return b, st')
    /\ (b = true -> fits st d /\ written st' d /\ quota st' = quota st)
    /\ (b = false -> ~ fits st d /\ st' = st).
Proof.
  rewrite saveAll_spec. unfold fits, written.
  destruct (_ <=? _)%nat eqn:Hq.
  - apply Nat.leb_le in Hq. eexists _, _. split; [reflexivity |].
    split; [auto | discriminate].
  - apply Nat.leb_gt in Hq. eexists _, _. split; [reflexivity |].
    split; [discriminate | intros _; split; [lia | reflexivity]].
Qed.

Lemma written_holds st d : written st d -> readable d -> holds st d.
Proof.
  intros Hw [Hne Hp]. exists (JSON_stringify (PObject d)). auto.
Qed.

Lemma saveEntry_holds st d l entry :
  holds st d -> doc_entries d = EntriesArray l ->
  saveEntry entry st = saveAll (PObject (with_entries d (upsert entry l))) st.
Proof.
  intros Hh Hl. unfold saveEntry, bind. rewrite (getAll_holds _ _ Hh), Hl.
  reflexivity.
Qed.

Lemma deleteEntry_holds st d l day :
  holds st d -> doc_entries d = EntriesArray l ->
  deleteEntry day st
  = saveAll (PObject (with_entries d
      (List.filter (fun entry => negb (String.eqb (date entry) day)) l))) st.
Proof.
  intros Hh Hl. unfold deleteEntry, bind. rewrite (getAll_holds _ _ Hh), Hl.
  reflexivity.
Qed.

Lemma filter_invariant (p : Entry -> bool) l :
  entries_invariant l -> entries_invariant (List.filter p l).
Proof.
  intros (Hiso & Hs & Hnd). split; [| split].
  - apply List.Forall_forall. intros e He. apply filter_In in He.
    rewrite List.Forall_forall in Hiso. apply Hiso, He.
  - clear Hiso Hnd. induction Hs as [| x l Hs IH Hall]; simpl; [constructor |].
    destruct (p x); [| exact IH]. constructor; [exact IH |].
    apply List.Forall_forall. intros e He. apply filter_In in He.
    rewrite List.Forall_forall in Hall. apply Hall, He.
  - clear Hiso Hs. induction l as [| x l IH]; simpl; [constructor |].
    simpl in Hnd. inversion Hnd as [| ? ? Hnotin Hnd']; subst.
    destruct (p x); [| apply IH; exact Hnd'].
    simpl. constructor; [| apply IH; exact Hnd'].
    intros Hin. apply Hnotin. apply in_map_iff in Hin.
    destruct Hin as (e & He & Hin). apply filter_In in Hin.
    rewrite <- He. apply in_map, Hin.
Qed.

Lemma getEntries_holds st d l :
  holds st d -> doc_entries d = EntriesArray l ->
  getEntries st = (Return (AnArray l), st).
Proof.
  intros Hh Hl. unfold getEntries, bind. rewrite (getAll_holds _ _ Hh), Hl.
  reflexivity.
Qed.

Lemma in_range_iff a b ta tb e :
  Date.parse a = Some ta -> Date.parse b = Some tb ->
  in_range a b e = true <->
  exists t, time_of e = Some t /\ ta <= t <= tb.
Proof.
  intros Ha Hb. unfold in_range, time_of, Date.geb, Date.leb.
  rewrite Ha, Hb. destruct (Date.parse (date e)) as [t|].
  - rewrite andb_true_iff, !Z.leb_le. split.
    + intros [H1 H2]. exists t. auto.
    + intros (t' & [= <-] & H1 & H2). auto.
  - split; [discriminate | intros (t' & Ht & _); discriminate].
Qed.

Lemma in_range_same_day d e :
  iso_dated e -> date e = d \/ is_Some (Date.parse d) ->
  in_range d d e = String.eqb (date e) d.
Proof.
  intros [t Ht] Hd.
  assert (Hsome : is_Some (Date.parse d)).
  { destruct Hd as [<- | Hd]; [exists t; exact Ht | exact Hd]. }
  destruct Hsome as [td Htd].
  destruct (String.eqb (date e) d) eqn:He.
  - apply String.eqb_eq in He. subst d.
    apply (in_range_iff _ _ td td e Htd Htd).
    exists td. split; [exact Htd | lia].
  - apply String.eqb_neq in He.
    destruct (in_range d d e) eqn:Hr; [| reflexivity].
    apply (in_range_iff _ _ td td e Htd Htd) in Hr.
    destruct Hr as (t' & Ht' & Hle). exfalso. apply He.
    assert (t' = td) by lia. subst t'.
    eapply parse_inj; eassumption.
Qed.

End Store.

Section StoreProperties.
Context `{JSONRuntime}.
Import StorageManager.

(** C4. On a store that holds a document whose entries satisfy the
    invariant (dates that are days, strictly descending, no date twice),
    saveEntry of an entry dated by a day and deleteEntry both return,
    and the document in the store afterwards (the one written, or the
    old one when the write is refused) satisfies the invariant again;
    its first entry is the most recent. *)
Theorem writes_keep_entries_sorted
        (st : LocalStorage) (d : Document) (l : list Entry)
        (entry : Entry) (day : string) :
  holds st d -> doc_entries d = EntriesArray l ->
  entries_invariant l -> iso_dated entry ->
  (exists b st' l',
      saveEntry entry st = (Return b, st')
      /\ (if b then written st' (with_entries d l') else st' = st /\ l' = l)
      /\ entries_invariant l'
      /\ forall first rest, l' = first :: rest -> List.Forall (newer first) rest)
  /\ (exists b st' l',
      deleteEntry day st = (Return b, st')
      /\ (if b then written st' (with_entries d l') else st' = st /\ l' = l)
      /\ entries_invariant l'
      /\ forall first rest, l' = first :: rest -> List.Forall (newer first) rest).
Proof.
  intros Hh Hl Hinv He.
  assert (Hfirst : forall l', entries_invariant l' ->
            forall first rest, l' = first :: rest ->
                               List.Forall (newer first) rest).
  { intros l' (_ & Hs & _) first rest ->.
    inversion Hs; subst; assumption. }
  split.
  - rewrite (saveEntry_holds _ _ _ _ Hh Hl).
    destruct (saveAll_document (with_entries d (upsert entry l)) st)
      as (b & st' & Hsave & Ht & Hf).
    assert (Hinv' : entries_invariant (upsert entry l)).
    { destruct Hinv as (Hiso & _ & Hnd). apply upsert_invariant; assumption. }
    destruct b.
    + exists true, st', (upsert entry l). split; [exact Hsave |].
      split; [apply (Ht eq_refl) |]. split; [exact Hinv' | exact (Hfirst _ Hinv')].
    + exists false, st', l. split; [exact Hsave |].
      split; [split; [apply Hf; reflexivity | reflexivity] |].
      split; [exact Hinv | exact (Hfirst _ Hinv)].
  - rewrite (deleteEntry_holds _ _ _ _ Hh Hl).
    set (l1 := List.filter (fun e => negb (String.eqb (date e) day)) l).
    destruct (saveAll_document (with_entries d l1) st)
      as (b & st' & Hsave & Ht & Hf).
    assert (Hinv' : entries_invariant l1) by (apply filter_invariant, Hinv).
    destruct b.
    + exists true, st', l1. split; [exact Hsave |].
      split; [apply (Ht eq_refl) |]. split; [exact Hinv' | exact (Hfirst _ Hinv')].
    + exists false, st', l. split; [exact Hsave |].
      split; [split; [apply Hf; reflexivity | reflexivity] |].
      split; [exact Hinv | exact (Hfirst _ Hinv)].
Qed.

(** C5. saveEntry is an upsert keyed on the date. When the write is
    accepted, the document written has exactly one entry of that date:
    the merge of the old entry and the new one when the date was there
    (the number of entries is unchanged, a field of the new entry wins
    and a field it lacks keeps its old value), the new entry itself
    otherwise (it is added to the others); the entries of the other
    dates are untouched. Saving the same entry once more leaves exactly
    that one entry for the date. *)
Theorem saveEntry_upsert
        (st st1 : LocalStorage) (d : Document) (l : list Entry)
        (entry : Entry) :
  holds st d -> doc_entries d = EntriesArray l ->
  List.NoDup (map date l) ->
  saveEntry entry st = (Return true, st1) ->
  exists l1,
    written st1 (with_entries d l1)
    /\ match dated (date entry) l with
       | old :: _ =>
           dated (date entry) l1 = [spread old entry]
           /\ length l1 = length l
       | [] =>
           dated (date entry) l1 = [entry]
           /\ Permutation l1 (l ++ [entry])
       end
    /\ (forall day, day <> date entry -> dated day l1 = dated day l)
    /\ (forall old,
          date (spread old entry) = date entry
          /\ steps (spread old entry)
             = match steps entry with Some v => Some v | None => steps old end
          /\ heartRate (spread old entry)
             = match heartRate entry with
               | Some v => Some v | None => heartRate old end
          /\ sleep (spread old entry)
             = match sleep entry with Some v => Some v | None => sleep old end
          /\ water (spread old entry)
             = match water entry with Some v => Some v | None => water old end
          /\ calories (spread old entry)
             = match calories entry with
               | Some v => Some v | None => calories old end
          /\ mood (spread old entry)
             = match mood entry with Some v => Some v | None => mood old end
          /\ notes (spread old entry)
             = match notes entry with Some v => Some v | None => notes old end)
    /\ (readable (with_entries d l1) ->
        exists b st2 l2,
          saveEntry entry st1 = (Return b, st2)
          /\ written st2 (with_entries d l2)
          /\ dated (date entry) l2 = dated (date entry) l1
          /\ length (dated (date entry) l2) = 1%nat).
Proof.
  intros Hh Hl Hnd Hsave.
  rewrite (saveEntry_holds _ _ _ _ Hh Hl) in Hsave.
  destruct (saveAll_document (with_entries d (upsert entry l)) st)
    as (b & st' & Hsave' & Ht & _).
  rewrite Hsave in Hsave'. injection Hsave' as <- <-.
  destruct (Ht eq_refl) as (_ & Hw & _).
  destruct (upsert_dated entry l Hnd) as (Hnd1 & Hcase & Hother).
  exists (upsert entry l). split; [exact Hw |]. split; [exact Hcase |].
  split; [exact Hother |]. split; [intros old; repeat split |].
  intros Hread.
  pose proof (written_holds _ _ Hw Hread) as Hh1.
  assert (Hl1 : doc_entries (with_entries d (upsert entry l))
                = EntriesArray (upsert entry l)) by reflexivity.
  rewrite (saveEntry_holds _ _ _ _ Hh1 Hl1).
  set (l1 := upsert entry l) in *.
  destruct (upsert_dated entry l1 Hnd1) as (_ & Hcase2 & _).
  assert (Hone : exists m, dated (date entry) l1 = [m]
                           /\ dated (date entry) (upsert entry l1) = [m]).
  { destruct (dated (date entry) l) as [| old t].
    - destruct Hcase as [Hd1 _]. rewrite Hd1 in Hcase2 |- *.
      exists entry. split; [reflexivity |].
      destruct Hcase2 as [-> _]. rewrite spread_self. reflexivity.
    - destruct Hcase as [Hd1 _]. rewrite Hd1 in Hcase2 |- *.
      exists (spread old entry). split; [reflexivity |].
      destruct Hcase2 as [-> _]. rewrite spread_spread. reflexivity. }
  destruct Hone as (m & Hm1 & Hm2).
  destruct (saveAll_document
              (with_entries (with_entries d l1) (upsert entry l1)) st1)
    as (b & st2 & Hsave2 & Ht2 & Hf2).
  destruct b.
  - exists true, st2, (upsert entry l1). split; [exact Hsave2 |].
    split; [apply (Ht2 eq_refl) |]. rewrite Hm1, Hm2. auto.
  - exists false, st2, l1. split; [exact Hsave2 |].
    destruct (Hf2 eq_refl) as [_ ->]. split; [exact Hw |].
    rewrite Hm1. auto.
Qed.

(** X28. importJSON never throws, and what it rejects it leaves alone. A
    text that does not parse, or that parses to a value without an
    [entries] array, is answered with [{success: false, message}] and the
    storage is left exactly as it was. A text that parses to an object
    with an [entries] array, whatever the array holds, is answered with
    [{success: true, ...}]: the object is stored in place of the old
    document when the storage has room for it, and the storage is left
    as it was when it has not. *)
Theorem importJSON_validates (st : LocalStorage) (text : string) :
  exists res st',
    importJSON text st = (Return res, st')
    /\ match JSON_parse text with
       | Some (PObject d) =>
           if is_array (doc_entries d) then
             success res = true
             /\ (fits st d -> written st' d /\ quota st' = quota st)
             /\ (~ fits st d -> st' = st)
           else
             success res = false /\ message res = "Invalid data format"
             /\ st' = st
       | Some (PArray _) | Some (PPrimitive _) =>
           success res = false /\ message res = "Invalid data format"
           /\ st' = st
       | Some PNull | None => success res = false /\ st' = st
       end.
Proof.
  unfold importJSON, try_catch, bind, parse_or_throw, ret, throw.
  destruct (JSON_parse text) as [[| elements | j | d]|]; simpl;
    try (eexists _, _; split; [reflexivity | auto]).
  destruct (is_array (doc_entries d)); simpl;
    [| eexists _, _; split; [reflexivity | auto]].
  destruct (saveAll_document d st) as (b & st' & Hsave & Ht & Hf).
  rewrite Hsave. eexists _, _. split; [reflexivity |].
  split; [reflexivity |]. destruct b.
  - destruct (Ht eq_refl) as (Hfit & Hw & Hq).
    split; [auto | intros Hno; contradiction].
  - destruct (Hf eq_refl) as [Hno ->].
    split; [intros Hfit; contradiction | reflexivity].
Qed.

(** C9. On a store that holds a document whose entries are dated by
    days, getEntriesInRange returns the entries whose day lies between
    the days of the two bounds, both included: an entry dated by one of
    the bounds is returned, and when exactly one entry carries the date
    [a], the range from [a] to [a] is that entry alone. *)
Theorem getEntriesInRange_inclusive
        (st : LocalStorage) (d : Document) (l : list Entry) (a b : string) :
  holds st d -> doc_entries d = EntriesArray l ->
  List.Forall iso_dated l ->
  exists r,
    getEntriesInRange a b st = (Return r, st)
    /\ (forall ta tb, Date.parse a = Some ta -> Date.parse b = Some tb ->
        forall e, In e r <->
                  In e l /\ exists t, time_of e = Some t /\ ta <= t <= tb)
    /\ (forall ta tb e, Date.parse a = Some ta -> Date.parse b = Some tb ->
        ta <= tb -> In e l -> date e = a \/ date e = b -> In e r)
    /\ (forall e, b = a -> dated a l = [e] -> r = [e]).
Proof.
  intros Hh Hl Hiso.
  exists (List.filter (in_range a b) l).
  unfold getEntriesInRange, bind. rewrite (getEntries_holds _ _ _ Hh Hl).
  split; [reflexivity |]. split; [| split].
  - intros ta tb Ha Hb e. rewrite filter_In, (in_range_iff a b ta tb e Ha Hb).
    reflexivity.
  - intros ta tb e Ha Hb Hle He Hd. apply filter_In. split; [exact He |].
    apply (in_range_iff a b ta tb e Ha Hb). unfold time_of.
    destruct Hd as [-> | ->]; [exists ta | exists tb]; split; auto; lia.
  - intros e -> Hd. rewrite <- Hd. unfold dated.
    apply List.filter_ext_in. intros x Hx.
    apply in_range_same_day.
    + rewrite List.Forall_forall in Hiso. apply Hiso, Hx.
    + right. assert (He : In e (dated a l)) by (rewrite Hd; left; reflexivity).
      apply dated_In in He. destruct He as [He <-].
      rewrite List.Forall_forall in Hiso. apply (Hiso e He).
Qed.

End StoreProperties.

(** ** The JSON runtime reads back what it writes *)

(** *** Numbers *)

Section JSONNumbers.
Import RefJSON.

Lemma digit_of_char n : 0 <= n <= 9 -> Date.digit (digit_char n) = Some n.
Proof.
  intros Hn. rewrite <- (Z2Nat.id n) by lia.
  assert (Hm : (Z.to_nat n < 10)%nat) by lia.
  revert Hm. generalize (Z.to_nat n) as m. intros m Hm.
  do 10 (destruct m as [| m]; [reflexivity |]). lia.
Qed.

Lemma digits_spec l rest a c :
  all_digits l -> ends_digits rest ->
  digits (l ++ rest) a c = (read_digits l a, (c + length l)%nat, rest).
Proof.
  intros Hl Hrest. revert a c.
  induction Hl as [| x l [d Hd] Hl IH]; intros a c.
  - cbn [app read_digits fold_left length]. rewrite Nat.add_0_r.
    destruct rest as [| y rest]; [reflexivity |].
    cbn [digits]. cbn in Hrest. rewrite Hrest. reflexivity.
  - cbn [app digits]. rewrite Hd, IH. cbn [read_digits fold_left length].
    rewrite Hd. f_equal. f_equal. lia.
Qed.

Lemma read_digits_app l l' a :
  read_digits (l ++ l') a = read_digits l' (read_digits l a).
Proof. unfold read_digits. apply fold_left_app. Qed.

Lemma print_one_digit n :
  0 <= n < 10 ->
  all_digits [digit_char n] /\ (0 < length [digit_char n])%nat
  /\ (forall a, read_digits [digit_char n] a
                = a * 10 ^ Z.of_nat (length [digit_char n]) + n)
  /\ (0 < n -> exists d r, [digit_char n] = digit_char d :: r /\ 1 <= d <= 9).
Proof.
  intros Hn. split.
  { constructor; [exists n; apply digit_of_char; lia | constructor]. }
  split; [cbn; lia |]. split.
  - intros a. cbn [read_digits fold_left length].
    rewrite digit_of_char by lia. cbn iota.
    change (10 ^ Z.of_nat 1) with 10. lia.
  - intros Hpos. exists n, []. split; [reflexivity | lia].
Qed.

Lemma print_digits_spec fuel :
  forall n acc, 0 <= n < 10 ^ Z.of_nat (S fuel) ->
  exists l,
    print_digits (S fuel) n acc = l ++ acc
    /\ all_digits l /\ (0 < length l)%nat
    /\ (forall a, read_digits l a = a * 10 ^ Z.of_nat (length l) + n)
    /\ (0 < n -> exists d r, l = digit_char d :: r /\ 1 <= d <= 9).
Proof.
  induction fuel as [| fuel IH]; intros n acc Hn;
    cbn [print_digits]; destruct (Z.ltb_spec n 10) as [Hlt | Hge].
  - exists [digit_char (n mod 10)]. rewrite Z.mod_small by lia.
    split; [reflexivity | apply print_one_digit; lia].
  - change (10 ^ Z.of_nat 1) with 10 in Hn. lia.
  - exists [digit_char (n mod 10)]. rewrite Z.mod_small by lia.
    split; [reflexivity | apply print_one_digit; lia].
  - assert (Hq : 0 <= n / 10 < 10 ^ Z.of_nat (S fuel)).
    { split; [apply Z.div_pos; lia |].
      apply Z.div_lt_upper_bound; [lia |].
      rewrite (Nat2Z.inj_succ (S fuel)), Z.pow_succ_r in Hn by lia. lia. }
    destruct (IH (n / 10) (digit_char (n mod 10) :: acc) Hq)
      as (l & Hl & Hall & Hlen & Hval & Hhd).
    exists (l ++ [digit_char (n mod 10)]).
    split; [cbn [print_digits] in Hl; rewrite Hl, <- app_assoc; reflexivity |].
    split.
    { apply Forall_app. split; [exact Hall |].
      constructor; [| constructor]. exists (n mod 10).
      apply digit_of_char. pose proof (Z.mod_pos_bound n 10). lia. }
    split; [rewrite length_app; cbn; lia |]. split.
    { intros a. rewrite read_digits_app, Hval.
      cbn [read_digits fold_left].
      rewrite digit_of_char by (pose proof (Z.mod_pos_bound n 10); lia).
      cbn iota. rewrite length_app. cbn [length].
      rewrite Nat2Z.inj_add. change (Z.of_nat 1) with 1.
      rewrite Z.pow_add_r, Z.pow_1_r by lia.
      pose proof (Z.div_mod n 10). lia. }
    intros _. destruct Hhd as (d & r & -> & Hd).
    { apply Z.div_str_pos. lia. }
    exists d, (r ++ [digit_char (n mod 10)]). split; [reflexivity | exact Hd].
Qed.

Lemma print_natural_spec n :
  0 <= n ->
  exists l,
    print_natural n = l
    /\ all_digits l /\ (0 < length l)%nat
    /\ (forall a, read_digits l a = a * 10 ^ Z.of_nat (length l) + n)
    /\ (0 < n -> exists d r, l = digit_char d :: r /\ 1 <= d <= 9)
    /\ (n = 0 -> length l = 1%nat).
Proof.
  intros Hn. unfold print_natural.
  assert (Hb : 0 <= n < 10 ^ Z.of_nat (S (Z.to_nat (Z.log2 n)))).
  { split; [exact Hn |].
    destruct (Z.eq_dec n 0) as [-> | Hnz]; [reflexivity |].
    rewrite Nat2Z.inj_succ, Z2Nat.id by apply Z.log2_nonneg.
    assert (Hlog : n < 2 ^ Z.succ (Z.log2 n)) by (apply Z.log2_spec; lia).
    eapply Z.lt_le_trans; [exact Hlog |].
    apply Z.pow_le_mono_l. lia. }
  destruct (print_digits_spec _ n [] Hb) as (l & Hl & Hall & Hlen & Hval & Hhd).
  rewrite app_nil_r in Hl. exists l. repeat split; auto.
  intros ->. rewrite <- Hl. reflexivity.
Qed.

Lemma print_fraction_spec fuel :
  forall r d, 0 < d -> 0 <= r < d -> (d | r * 10 ^ Z.of_nat fuel) ->
  all_digits (print_fraction fuel r d)
  /\ (0 < r -> (0 < length (print_fraction fuel r d))%nat)
  /\ forall a,
       read_digits (print_fraction fuel r d) a * d
       = (a * d + r) * 10 ^ Z.of_nat (length (print_fraction fuel r d)).
Proof.
  induction fuel as [| fuel IH]; intros r d Hd Hr Hdiv.
  - cbn [print_fraction]. change (10 ^ Z.of_nat 0) with 1 in Hdiv.
    rewrite Z.mul_1_r in Hdiv.
    assert (r = 0).
    { destruct (Z.eq_dec r 0) as [| Hnz]; [assumption |].
      apply Z.divide_pos_le in Hdiv; lia. }
    subst r. split; [constructor |]. split; [lia |].
    intros a. cbn. lia.
  - cbn [print_fraction]. destruct (Z.eqb_spec r 0) as [-> | Hnz].
    + split; [constructor |]. split; [lia |]. intros a. cbn. lia.
    + assert (Hq : 0 <= 10 * r / d <= 9).
      { split; [apply Z.div_pos; lia |].
        assert (10 * r / d < 10); [| lia].
        apply Z.div_lt_upper_bound; lia. }
      assert (Hr' : 0 <= (10 * r) mod d < d) by (apply Z.mod_pos_bound; lia).
      assert (Hdiv' : (d | (10 * r) mod d * 10 ^ Z.of_nat fuel)).
      { rewrite Nat2Z.inj_succ, Z.pow_succ_r in Hdiv by lia.
        replace (r * (10 * 10 ^ Z.of_nat fuel))
          with ((10 * r) * 10 ^ Z.of_nat fuel) in Hdiv by ring.
        rewrite (Z.div_mod (10 * r) d) in Hdiv at 1 by lia.
        rewrite Z.mul_add_distr_r in Hdiv.
        apply (Z.divide_add_cancel_r _ (d * (10 * r / d) * 10 ^ Z.of_nat fuel));
          [| exact Hdiv].
        rewrite <- Z.mul_assoc. apply Z.divide_factor_l. }
      destruct (IH _ d Hd Hr' Hdiv') as (Hall & Hlen & Hval).
      split.
      { constructor; [| exact Hall]. exists (10 * r / d).
        apply digit_of_char, Hq. }
      split; [intros _; cbn; lia |].
      intros a. cbn [read_digits fold_left length].
      rewrite digit_of_char by exact Hq. cbn iota.
      fold (read_digits (print_fraction fuel ((10 * r) mod d) d)
                        (10 * a + 10 * r / d)).
      rewrite Hval. rewrite Nat2Z.inj_succ, Z.pow_succ_r by lia.
      pose proof (Z.div_mod (10 * r) d ltac:(lia)) as Hdm.
      nia.
Qed.

Lemma ends_value_digits rest : ends_value rest -> ends_digits rest.
Proof. destruct rest; [auto | intros [H _]; exact H]. Qed.

Lemma decimal_spec q :
  decimal q = true ->
  Qred q = q /\ (Z.pos (Qden q) | 10 ^ Z.of_nat (Pos.size_nat (Qden q))).
Proof.
  unfold decimal. intros Hd. apply andb_true_iff in Hd.
  destruct Hd as [Hg Hm]. apply Z.eqb_eq in Hg, Hm. split.
  - apply Qcanon.Qred_identity. exact Hg.
  - apply Z.mod_divide; [lia | exact Hm].
Qed.

Lemma mantissa_unsigned s :
  mantissa s
  = match s with
    | c :: r => if Ascii.eqb c "-" then unsigned (-1) r else unsigned 1 s
    | [] => unsigned 1 s
    end.
Proof.
  unfold mantissa, unsigned. destruct s as [| c r]; [reflexivity |].
  destruct (Ascii.eqb c "-"); reflexivity.
Qed.

Lemma unsigned_print (sign N : Z) (d : positive) rest :
  0 <= N -> (sign = 1 \/ sign = -1) ->
  Z.gcd (sign * N) (Z.pos d) = 1 ->
  (Z.pos d | 10 ^ Z.of_nat (Pos.size_nat d)) ->
  ends_value rest ->
  unsigned sign
    (print_natural (N / Z.pos d)
     ++ (if N mod Z.pos d =? 0 then []
         else chars "." ++ print_fraction (Pos.size_nat d) (N mod Z.pos d) (Z.pos d))
     ++ rest)
  = Some (JNum (sign * N # d), rest).
Proof.
  intros HN Hsign Hgcd Hdec Hrest.
  set (D := Z.pos d) in *.
  assert (HD : 0 < D) by (unfold D; lia).
  pose proof (Z.div_mod N D ltac:(lia)) as Hdm.
  pose proof (Z.mod_pos_bound N D HD) as Hmod.
  assert (HI : 0 <= N / D) by (apply Z.div_pos; lia).
  destruct (print_natural_spec (N / D) HI)
    as (l & Hl & Hall & Hlen & Hval & Hhd & Hzero).
  rewrite Hl.
  set (tail := (if N mod D =? 0 then [] else _) ++ rest).
  assert (Htail : ends_digits tail).
  { unfold tail. destruct (N mod D =? 0); [apply ends_value_digits, Hrest |].
    reflexivity. }
  unfold unsigned. rewrite (digits_spec l tail 0 O Hall Htail).
  rewrite Hval, Z.mul_0_l, Z.add_0_l, Nat.add_0_l.
  assert (Hcheck : ((length l =? 0)%nat
                    || (match l ++ tail with
                        | c :: _ => Ascii.eqb c "0"
                        | [] => false
                        end && (1 <? length l)%nat)) = false).
  { apply orb_false_iff. split; [apply Nat.eqb_neq; lia |].
    destruct (Z.eq_dec (N / D) 0) as [Hz | Hnz].
    - rewrite (Hzero Hz). apply andb_false_r.
    - destruct Hhd as (x & r & -> & Hx); [lia |]. cbn [app].
      apply andb_false_iff. left.
      assert (Hc : x = 1 \/ x = 2 \/ x = 3 \/ x = 4 \/ x = 5 \/ x = 6
                   \/ x = 7 \/ x = 8 \/ x = 9) by lia.
      repeat destruct Hc as [-> | Hc]; try reflexivity. subst x. reflexivity. }
  rewrite Hcheck. unfold tail.
  destruct (Z.eqb_spec (N mod D) 0) as [Hr | Hr].
  - (* an integer *)
    assert (Hone : d = 1%positive).
    { assert (Hdiv : (D | sign * N)).
      { exists (sign * (N / D)). lia. }
      assert (Hg : Z.gcd (sign * N) D = D).
      { rewrite Z.gcd_comm. apply Z.divide_gcd_iff; [lia | exact Hdiv]. }
      unfold D in *. lia. }
    subst d. unfold D in *. rewrite Z.div_1_r.
    cbn [app]. destruct rest as [| c r].
    + reflexivity.
    + destruct Hrest as (_ & Hdot & _).
      destruct (Ascii.eqb_spec c "."); [contradiction | reflexivity].
  - (* a fraction *)
    assert (Hdiv : (D | N mod D * 10 ^ Z.of_nat (Pos.size_nat d))).
    { apply Z.divide_mul_r. exact Hdec. }
    destruct (print_fraction_spec (Pos.size_nat d) (N mod D) D HD Hmod Hdiv)
      as (Hfall & Hflen & Hfval).
    set (frac := print_fraction (Pos.size_nat d) (N mod D) D) in *.
    cbn [chars list_ascii_of_string app].
    change (Ascii.eqb "." ".") with true. cbn iota.
    rewrite (digits_spec frac rest (N / D) O Hfall (ends_value_digits _ Hrest)).
    rewrite Nat.add_0_l.
    assert (Hk : (length frac =? 0)%nat = false)
      by (apply Nat.eqb_neq; specialize (Hflen ltac:(lia)); lia).
    rewrite Hk. f_equal. f_equal. f_equal.
    assert (Hpow : 0 < 10 ^ Z.of_nat (length frac))
      by (apply Z.pow_pos_nonneg; lia).
    rewrite <- (Qcanon.Qred_identity (sign * N # d)) by exact Hgcd.
    apply Qred_complete. unfold Qeq. cbn [Qnum Qden].
    rewrite Z2Pos.id by exact Hpow. fold D.
    specialize (Hfval (N / D)). nia.
Qed.

Lemma mantissa_print q rest :
  decimal q = true -> ends_value rest ->
  mantissa (print_number q ++ rest) = Some (JNum q, rest).
Proof.
  intros Hq Hrest. destruct q as [n d].
  unfold decimal in Hq. cbn [Qnum Qden] in Hq.
  apply andb_true_iff in Hq. destruct Hq as [Hg Hm].
  apply Z.eqb_eq in Hg, Hm.
  assert (Hdec : (Z.pos d | 10 ^ Z.of_nat (Pos.size_nat d)))
    by (apply Z.mod_divide; [lia | exact Hm]).
  unfold print_number. cbn [Qnum Qden].
  rewrite mantissa_unsigned.
  set (nat_part := print_natural (Z.abs n / Z.pos d)).
  set (frac_part := if Z.abs n mod Z.pos d =? 0 then [] else _).
  destruct (Z.ltb_spec n 0) as [Hneg | Hpos].
  - replace ((chars "-" ++ nat_part ++ frac_part) ++ rest)
      with ("-"%char :: nat_part ++ frac_part ++ rest)
      by (cbn; rewrite <- app_assoc; reflexivity).
    change (Ascii.eqb "-" "-") with true. cbn iota.
    unfold nat_part, frac_part.
    rewrite (unsigned_print (-1) (Z.abs n) d rest); try lia; try assumption.
    + do 4 f_equal. lia.
    + replace (-1 * Z.abs n) with n by lia. exact Hg.
  - replace (([] ++ nat_part ++ frac_part) ++ rest)
      with (nat_part ++ frac_part ++ rest)
      by (cbn; rewrite <- app_assoc; reflexivity).
    assert (HI : 0 <= Z.abs n / Z.pos d) by (apply Z.div_pos; lia).
    destruct (print_natural_spec _ HI) as (l & Hl & Hall & Hlen & _).
    assert (Hfirst : exists c r, nat_part = c :: r /\ Ascii.eqb c "-" = false).
    { unfold nat_part. rewrite Hl.
      destruct l as [| c r]; [cbn in Hlen; lia |]. exists c, r.
      split; [reflexivity |]. inversion Hall as [| ? ? [x Hx] _]; subst.
      destruct (Ascii.eqb_spec c "-") as [-> | ]; [discriminate | reflexivity]. }
    destruct Hfirst as (c & r & Hc & Hminus).
    pose proof (unsigned_print 1 (Z.abs n) d rest) as Hu.
    fold nat_part frac_part in Hu. rewrite Hc in *. cbn [app] in *.
    rewrite Hminus.
    rewrite Hu; try lia; try assumption.
    + do 4 f_equal. lia.
    + replace (1 * Z.abs n) with n by lia. exact Hg.
Qed.

Lemma exponent_none q rest :
  ends_value rest -> exponent q rest = Some (JNum q, rest).
Proof.
  destruct rest as [| c r]; [reflexivity |]. intros (_ & _ & He).
  cbn [exponent]. rewrite He. reflexivity.
Qed.

Lemma number_print q rest :
  decimal q = true -> ends_value rest ->
  number (print_number q ++ rest) = Some (JNum q, rest).
Proof.
  intros Hq Hrest. unfold number. rewrite (mantissa_print q rest Hq Hrest).
  cbn [mbind option_bind]. apply exponent_none, Hrest.
Qed.

End JSONNumbers.

(** *** Texts *)

Section JSONTexts.
Import RefJSON.

Lemma json_nested_ind (P : json -> Prop) :
  P JNull -> (forall b, P (JBool b)) -> (forall q, P (JNum q)) ->
  (forall s, P (JStr s)) ->
  (forall l, List.Forall P l -> P (JArr l)) ->
  (forall f, List.Forall (fun kv => P (snd kv)) f -> P (JObj f)) ->
  forall j, P j.
Proof.
  intros Hnull Hbool Hnum Hstr Harr Hobj.
  fix IH 1. intros [| b | q | s | l | f].
  - exact Hnull.
  - apply Hbool.
  - apply Hnum.
  - apply Hstr.
  - apply Harr. induction l as [| x l IHl]; constructor; [apply IH | exact IHl].
  - apply Hobj. induction f as [| [k v] f IHf]; constructor;
      [apply IH | exact IHf].
Qed.

(** Strings. *)

Lemma string_body_escape_char c rest acc :
  string_body (escape_char c ++ rest) acc = string_body rest (c :: acc).
Proof.
  destruct c as [[|] [|] [|] [|] [|] [|] [|] [|]]; reflexivity.
Qed.

Lemma string_body_escape l rest acc :
  string_body (escape l ++ quote :: rest) acc = Some (rev acc ++ l, rest).
Proof.
  revert acc. induction l as [| c l IH]; intros acc.
  - cbn. rewrite app_nil_r. reflexivity.
  - unfold escape. cbn [flat_map]. fold (escape l).
    rewrite <- app_assoc, string_body_escape_char, IH.
    cbn [rev]. rewrite <- app_assoc. reflexivity.
Qed.

Lemma string_round_trip (s : string) :
  string_of_list_ascii (chars s) = s.
Proof. apply string_of_list_ascii_of_string. Qed.

(** White space and the first character of a value. *)

Lemma skip_ws_app ws s : all_ws ws -> skip_ws (ws ++ s) = skip_ws s.
Proof.
  induction 1 as [| c ws Hc _ IH]; [reflexivity |].
  cbn [app skip_ws]. rewrite Hc. exact IH.
Qed.

Lemma skip_ws_cons c r : is_ws c = false -> skip_ws (c :: r) = c :: r.
Proof. intros Hc. cbn [skip_ws]. rewrite Hc. reflexivity. Qed.

Lemma break_ws pretty level : all_ws (break pretty level).
Proof.
  unfold break. destruct pretty; [| constructor].
  constructor; [reflexivity |].
  induction (2 * level)%nat; constructor; [reflexivity | assumption].
Qed.

Lemma value_ws fuel ws s : all_ws ws -> value fuel (ws ++ s) = value fuel s.
Proof.
  intros Hws. destruct fuel; [reflexivity |].
  cbn [value]. rewrite (skip_ws_app _ _ Hws). reflexivity.
Qed.

Lemma ends_value_break pretty level c r :
  closing c -> ends_value (break pretty level ++ c :: r).
Proof.
  intros Hc. unfold break. destruct pretty.
  - cbn. split; [reflexivity |]. split; [discriminate | reflexivity].
  - cbn. destruct Hc as [-> | [-> | ->]];
      (split; [reflexivity |]; split; [discriminate | reflexivity]).
Qed.

Lemma skip_ws_break pretty level c r :
  closing c -> skip_ws (break pretty level ++ c :: r) = c :: r.
Proof.
  intros Hc. rewrite (skip_ws_app _ _ (break_ws pretty level)).
  apply skip_ws_cons. destruct Hc as [-> | [-> | ->]]; reflexivity.
Qed.

Lemma digit_opening c : is_Some (Date.digit c) \/ c = "-"%char -> opening c.
Proof.
  destruct c as [[|] [|] [|] [|] [|] [|] [|] [|]];
    intros [[d Hd] | Hc]; try discriminate; repeat split.
Qed.

Lemma value_number fuel c r :
  is_Some (Date.digit c) \/ c = "-"%char ->
  value (S fuel) (c :: r) = number (c :: r).
Proof.
  destruct c as [[|] [|] [|] [|] [|] [|] [|] [|]];
    intros [[d Hd] | Hc]; try discriminate; reflexivity.
Qed.

Lemma print_number_starts q :
  exists c r, print_number q = c :: r
              /\ (is_Some (Date.digit c) \/ c = "-"%char).
Proof.
  unfold print_number. destruct (Qnum q <? 0).
  - eexists _, _. split; [reflexivity | right; reflexivity].
  - assert (HI : 0 <= Z.abs (Qnum q) / Z.pos (Qden q))
      by (apply Z.div_pos; lia).
    destruct (print_natural_spec _ HI) as (l & -> & Hall & Hlen & _).
    destruct l as [| c r]; [cbn in Hlen; lia |].
    eexists _, _. split; [reflexivity |]. left.
    inversion Hall; subst. assumption.
Qed.

Lemma print_opens pretty level j :
  exists c r, print pretty level j = c :: r /\ opening c.
Proof.
  destruct j as [| [|] | q | s | [| x l] | [| kv f]];
    try (eexists _, _; split; [reflexivity | repeat split]).
  destruct (print_number_starts q) as (c & r & Hq & Hc).
  exists c, r. split; [exact Hq | apply digit_opening, Hc].
Qed.

Lemma length_print_pos pretty level j rest :
  (0 < length (print pretty level j ++ rest))%nat.
Proof.
  destruct (print_opens pretty level j) as (c & r & -> & _). cbn. lia.
Qed.

(** Values. *)

Lemma value_string fuel s :
  value (S fuel) (quote :: s)
  = '(str, r') ← string_body s []; Some (JStr (string_of_list_ascii str), r').
Proof. reflexivity. Qed.

Lemma value_array fuel r c r' :
  skip_ws r = c :: r' -> Ascii.eqb c "]" = false ->
  value (S fuel) ("["%char :: r) = elements fuel r [].
Proof.
  intros Hr Hc.
  change (value (S fuel) ("["%char :: r))
    with (match skip_ws r with
          | [] => None
          | c' :: r' =>
              if Ascii.eqb c' "]" then Some (JArr [], r')
              else elements fuel r []
          end).
  rewrite Hr, Hc. reflexivity.
Qed.

Lemma value_object fuel r c r' :
  skip_ws r = c :: r' -> Ascii.eqb c "}" = false ->
  value (S fuel) ("{"%char :: r) = members fuel r [].
Proof.
  intros Hr Hc.
  change (value (S fuel) ("{"%char :: r))
    with (match skip_ws r with
          | [] => None
          | c' :: r' =>
              if Ascii.eqb c' "}" then Some (JObj [], r')
              else members fuel r []
          end).
  rewrite Hr, Hc. reflexivity.
Qed.

Lemma elements_print pretty level (l : list json) :
  List.Forall parses l -> forallb wf_json l = true -> l <> [] ->
  forall rest fuel acc,
    (2 * length (break pretty (S level)
                 ++ join (separator pretty level)
                         (map (print pretty (S level)) l)
                 ++ break pretty level ++ "]"%char :: rest) + 1 <= fuel)%nat ->
    elements fuel
      (break pretty (S level)
       ++ join (separator pretty level) (map (print pretty (S level)) l)
       ++ break pretty level ++ "]"%char :: rest) acc
    = Some (JArr (rev acc ++ l), rest).
Proof.
  induction 1 as [| x l Hx Hl IH]; intros Hwf Hne rest fuel acc Hfuel;
    [contradiction |].
  cbn [forallb] in Hwf. apply andb_true_iff in Hwf. destruct Hwf as [Hwx Hwl].
  destruct fuel as [| fuel]; [lia |]. cbn [elements].
  rewrite (value_ws _ _ _ (break_ws pretty (S level))).
  destruct l as [| y l'].
  - cbn [map join] in *.
    rewrite (Hx Hwx pretty (S level) (break pretty level ++ "]"%char :: rest) fuel).
    + cbn [mbind option_bind]. rewrite skip_ws_break by (right; left; reflexivity).
      reflexivity.
    + apply ends_value_break. right; left; reflexivity.
    + rewrite !length_app in *. lia.
  - set (tail := join (separator pretty level)
                      (map (print pretty (S level)) (y :: l'))
                 ++ break pretty level ++ "]"%char :: rest) in *.
    assert (Heq : join (separator pretty level)
                       (map (print pretty (S level)) (x :: y :: l'))
                  ++ break pretty level ++ "]"%char :: rest
                  = print pretty (S level) x
                    ++ ","%char :: break pretty (S level) ++ tail).
    { unfold tail, separator. cbn [map join chars list_ascii_of_string].
      rewrite <- !app_assoc. reflexivity. }
    rewrite Heq in Hfuel |- *.
    rewrite (Hx Hwx pretty (S level) (","%char :: break pretty (S level) ++ tail) fuel).
    + cbn [mbind option_bind]. rewrite skip_ws_cons by reflexivity.
      change (Ascii.eqb "," ",") with true. cbn iota.
      unfold tail.
      rewrite (IH Hwl ltac:(discriminate) rest fuel (x :: acc)).
      * cbn [rev]. rewrite <- app_assoc. reflexivity.
      * fold tail. pose proof (length_print_pos pretty (S level) x []) as Hp.
        rewrite app_nil_r in Hp.
        rewrite !length_app in Hfuel. cbn [length] in Hfuel.
        rewrite !length_app in Hfuel. rewrite length_app. lia.
    + split; [reflexivity |]. split; [discriminate | reflexivity].
    + rewrite !length_app in Hfuel. rewrite length_app. lia.
Qed.

(** Objects. *)

Lemma distinct_middle (a : list string) k b :
  distinct (a ++ k :: b) = true ->
  existsb (String.eqb k) a = false.
Proof.
  induction a as [| x a IH]; [reflexivity |].
  cbn [app distinct existsb]. intros Hd.
  apply andb_true_iff in Hd. destruct Hd as [Hx Ha].
  apply orb_false_iff. split; [| exact (IH Ha)].
  apply negb_true_iff in Hx. rewrite existsb_app in Hx.
  apply orb_false_iff in Hx. destruct Hx as [_ Hx].
  cbn [existsb] in Hx. apply orb_false_iff in Hx. destruct Hx as [Hx _].
  rewrite String.eqb_sym. exact Hx.
Qed.

Lemma set_field_new k v acc :
  existsb (String.eqb k) (map fst acc) = false ->
  set_field k v acc = acc ++ [(k, v)].
Proof.
  induction acc as [| kv acc IH]; [reflexivity |].
  cbn [map existsb set_field app]. intros Hk.
  apply orb_false_iff in Hk. destruct Hk as [Hk Hacc].
  rewrite Hk, (IH Hacc). reflexivity.
Qed.

Lemma members_ws fuel ws s acc :
  all_ws ws -> members fuel (ws ++ s) acc = members fuel s acc.
Proof.
  intros Hws. destruct fuel; [reflexivity |].
  cbn [members]. rewrite (skip_ws_app _ _ Hws). reflexivity.
Qed.

Lemma members_step fuel k s acc :
  members (S fuel) (print_string k ++ ":"%char :: s) acc
  = '(v, r1) ← value fuel s;
    match skip_ws r1 with
    | d :: r2 =>
        if Ascii.eqb d ","
        then members fuel r2 (set_field k v acc)
        else if Ascii.eqb d "}" then Some (JObj (set_field k v acc), r2)
        else None
    | [] => None
    end.
Proof.
  unfold print_string. cbn [app]. rewrite <- app_assoc. cbn [app].
  cbn [members]. rewrite skip_ws_cons by reflexivity.
  change (strip_prefix [quote] (quote :: ?x)) with (Some x).
  cbn [mbind option_bind].
  rewrite string_body_escape. cbn [rev app mbind option_bind].
  rewrite skip_ws_cons by reflexivity.
  change (strip_prefix (chars ":") (":"%char :: s)) with (Some s).
  cbn [mbind option_bind]. rewrite string_round_trip. reflexivity.
Qed.

Lemma member_text_eq pretty level kv :
  member_text pretty level kv
  = print_string (fst kv) ++ ":"%char
    :: (if pretty then [" "%char] else []) ++ print pretty (S level) (snd kv).
Proof. unfold member_text. destruct pretty; reflexivity. Qed.

Lemma members_print pretty level (f : list (string * json)) :
  List.Forall (fun kv => parses (snd kv)) f ->
  forallb (fun kv => wf_json (snd kv)) f = true -> f <> [] ->
  forall rest fuel acc,
    distinct (map fst (acc ++ f)) = true ->
    (2 * length (break pretty (S level)
                 ++ join (separator pretty level)
                         (map (member_text pretty level) f)
                 ++ break pretty level ++ "}"%char :: rest) + 1 <= fuel)%nat ->
    members fuel
      (break pretty (S level)
       ++ join (separator pretty level) (map (member_text pretty level) f)
       ++ break pretty level ++ "}"%char :: rest) acc
    = Some (JObj (acc ++ f), rest).
Proof.
  induction 1 as [| [k v] f Hx Hl IH]; intros Hwf Hne rest fuel acc Hd Hfuel;
    [contradiction |].
  cbn [forallb snd] in Hwf. apply andb_true_iff in Hwf.
  destruct Hwf as [Hwx Hwl]. cbn [snd] in Hx.
  assert (Hnew : set_field k v acc = acc ++ [(k, v)]).
  { apply set_field_new. rewrite map_app in Hd. cbn [map fst] in Hd.
    apply (distinct_middle _ _ _ Hd). }
  assert (Hws : all_ws (if pretty then [" "%char] else []))
    by (destruct pretty; repeat constructor).
  destruct fuel as [| fuel]; [lia |].
  rewrite (members_ws _ _ _ _ (break_ws pretty (S level))).
  destruct f as [| y f'].
  - cbn [map join] in *. rewrite member_text_eq in *. cbn [fst snd] in *.
    rewrite <- !app_assoc. cbn [app]. rewrite <- !app_assoc.
    rewrite members_step, (value_ws _ _ _ Hws).
    rewrite (Hx Hwx pretty (S level) (break pretty level ++ "}"%char :: rest) fuel).
    + cbn [mbind option_bind].
      rewrite skip_ws_break by (right; right; reflexivity).
      change (Ascii.eqb "}" ",") with false.
      change (Ascii.eqb "}" "}") with true. cbn iota.
      rewrite Hnew. reflexivity.
    + apply ends_value_break. right; right; reflexivity.
    + rewrite !length_app in Hfuel. cbn [length] in Hfuel.
      rewrite !length_app in Hfuel. cbn [length] in Hfuel.
      rewrite ?length_app in Hfuel. rewrite !length_app. cbn [length].
      rewrite ?length_app. lia.
  - set (tail := join (separator pretty level)
                      (map (member_text pretty level) (y :: f'))
                 ++ break pretty level ++ "}"%char :: rest) in *.
    assert (Heq : join (separator pretty level)
                       (map (member_text pretty level) ((k, v) :: y :: f'))
                  ++ break pretty level ++ "}"%char :: rest
                  = print_string k ++ ":"%char
                    :: (if pretty then [" "%char] else [])
                    ++ print pretty (S level) v
                    ++ ","%char :: break pretty (S level) ++ tail).
    { unfold tail, separator. cbn [map join chars list_ascii_of_string].
      rewrite member_text_eq. cbn [fst snd].
      rewrite <- !app_assoc. cbn [app]. rewrite <- !app_assoc. reflexivity. }
    rewrite Heq in Hfuel |- *.
    rewrite members_step, (value_ws _ _ _ Hws).
    rewrite (Hx Hwx pretty (S level) (","%char :: break pretty (S level) ++ tail) fuel).
    + cbn [mbind option_bind]. rewrite skip_ws_cons by reflexivity.
      change (Ascii.eqb "," ",") with true. cbn iota.
      rewrite Hnew. unfold tail.
      rewrite (IH Hwl ltac:(discriminate) rest fuel (acc ++ [(k, v)])).
      * rewrite <- app_assoc. reflexivity.
      * rewrite <- app_assoc. exact Hd.
      * fold tail. rewrite !length_app in Hfuel. cbn [length] in Hfuel.
        rewrite !length_app in Hfuel. cbn [length] in Hfuel.
        rewrite ?length_app in Hfuel. rewrite !length_app. cbn [length]. lia.
    + split; [reflexivity |]. split; [discriminate | reflexivity].
    + rewrite !length_app in Hfuel. cbn [length] in Hfuel.
      rewrite !length_app in Hfuel. cbn [length] in Hfuel.
      rewrite ?length_app in Hfuel. rewrite !length_app. cbn [length].
      rewrite ?length_app. lia.
Qed.

(** Every value that a text spells is read back. *)

Lemma join_cons sep (x : list ascii) l : exists t, join sep (x :: l) = x ++ t.
Proof.
  destruct l as [| y l].
  - exists []. cbn. rewrite app_nil_r. reflexivity.
  - eexists. reflexivity.
Qed.

Lemma skip_ws_opening c r : opening c -> skip_ws (c :: r) = c :: r.
Proof. intros [Hc _]. apply skip_ws_cons, Hc. Qed.

Lemma print_array pretty level x l rest :
  print pretty level (JArr (x :: l)) ++ rest
  = "["%char :: break pretty (S level)
    ++ join (separator pretty level) (map (print pretty (S level)) (x :: l))
    ++ break pretty level ++ "]"%char :: rest.
Proof.
  cbn [print]. unfold separator. cbn [chars list_ascii_of_string app].
  rewrite <- !app_assoc. cbn [app]. reflexivity.
Qed.

Lemma print_object pretty level kv f rest :
  print pretty level (JObj (kv :: f)) ++ rest
  = "{"%char :: break pretty (S level)
    ++ join (separator pretty level) (map (member_text pretty level) (kv :: f))
    ++ break pretty level ++ "}"%char :: rest.
Proof.
  cbn [print]. unfold separator, member_text.
  cbn [chars list_ascii_of_string app].
  rewrite <- !app_assoc. cbn [app]. reflexivity.
Qed.

Lemma value_print j : parses j.
Proof.
  induction j as [| b | q | s | l IH | f IH] using json_nested_ind;
    intros Hwf pretty level rest fuel Hrest Hfuel;
    (destruct fuel as [| fuel];
     [exfalso;
      match type of Hfuel with
      | context [length (print ?p ?l ?j ++ ?r)] =>
          pose proof (length_print_pos p l j r)
      end; lia |]).
  - reflexivity.
  - destruct b; reflexivity.
  - cbn [print wf_json] in *.
    destruct (print_number_starts q) as (c & r & Hq & Hc).
    assert (Hv : value (S fuel) (print_number q ++ rest)
                 = number (print_number q ++ rest)).
    { rewrite Hq. cbn [app]. apply value_number, Hc. }
    rewrite Hv. apply number_print; assumption.
  - cbn [print]. unfold print_string. cbn [app].
    rewrite value_string, <- app_assoc. cbn [app].
    rewrite string_body_escape. cbn [rev app mbind option_bind].
    rewrite string_round_trip. reflexivity.
  - destruct l as [| x l]; [reflexivity |].
    cbn [wf_json] in Hwf. rewrite print_array in Hfuel |- *.
    destruct (join_cons (separator pretty level) (print pretty (S level) x)
                (map (print pretty (S level)) l)) as (t & Ht).
    destruct (print_opens pretty (S level) x) as (c & r & Hx & Hc).
    rewrite (value_array fuel _ c
               (r ++ t ++ break pretty level ++ "]"%char :: rest)).
    + rewrite (elements_print pretty level (x :: l) IH Hwf ltac:(discriminate)
                 rest fuel []); [reflexivity |].
      cbn [length] in Hfuel. lia.
    + rewrite (skip_ws_app _ _ (break_ws pretty (S level))).
      cbn [map]. rewrite Ht, Hx. cbn [app]. rewrite <- app_assoc.
      apply skip_ws_opening, Hc.
    + apply Hc.
  - destruct f as [| kv f]; [reflexivity |].
    cbn [wf_json] in Hwf. apply andb_true_iff in Hwf.
    destruct Hwf as [Hd Hwf]. rewrite print_object in Hfuel |- *.
    destruct (join_cons (separator pretty level) (member_text pretty level kv)
                (map (member_text pretty level) f)) as (t & Ht).
    rewrite (value_object fuel _ quote
               ((escape (chars (fst kv)) ++ [quote]
                 ++ chars (if pretty then ": " else ":")
                 ++ print pretty (S level) (snd kv))
                ++ t ++ break pretty level ++ "}"%char :: rest)).
    + rewrite (members_print pretty level (kv :: f) IH Hwf ltac:(discriminate)
                 rest fuel []); [reflexivity | exact Hd |].
      cbn [length] in Hfuel. lia.
    + rewrite (skip_ws_app _ _ (break_ws pretty (S level))).
      cbn [map]. rewrite Ht. unfold member_text at 1, print_string.
      cbn [app]. rewrite <- !app_assoc. cbn [app]. rewrite <- !app_assoc.
      reflexivity.
    + reflexivity.
Qed.

Lemma length_string_of_list_ascii l :
  String.length (string_of_list_ascii l) = length l.
Proof. induction l as [| c l IH]; [reflexivity | cbn; rewrite IH; reflexivity]. Qed.

(** [JSON.parse(JSON.stringify(v))], on JSON values. *)
Lemma parse_json_print pretty j :
  wf_json j = true ->
  parse_json (string_of_list_ascii (print pretty 0 j)) = Some j.
Proof.
  intros Hwf. unfold parse_json, chars.
  rewrite list_ascii_of_string_of_list_ascii, length_string_of_list_ascii.
  pose proof (value_print j Hwf pretty 0%nat [] (S (2 * length (print pretty 0 j)))
                I) as Hv.
  rewrite app_nil_r in Hv. rewrite Hv by lia. reflexivity.
Qed.

End JSONTexts.

(** *** Documents and their JSON values *)

Section JSONDocuments.
Import RefJSON.

Lemma member_app k (a b : list (string * json)) :
  member k (a ++ b)
  = match member k b with Some w => Some w | None => member k a end.
Proof.
  induction a as [| [k' v] a IH]; cbn [app member].
  - destruct (member k b); reflexivity.
  - rewrite IH. destruct (member k b); reflexivity.
Qed.

Lemma beside_keys names f k :
  beside names f = true -> In k names ->
  existsb (String.eqb k) (map fst f) = false.
Proof.
  intros Hb Hk. apply andb_true_iff in Hb. destruct Hb as [_ Hb].
  induction f as [| [k' v] f IH]; [reflexivity |].
  cbn [forallb fst snd] in Hb. apply andb_true_iff in Hb.
  destruct Hb as [Hkv Hf]. apply andb_true_iff in Hkv. destruct Hkv as [Hn _].
  cbn [map existsb fst]. rewrite (IH Hf), orb_false_r.
  destruct (String.eqb_spec k k') as [-> |]; [| reflexivity].
  apply negb_true_iff in Hn. exfalso.
  assert (He : existsb (String.eqb k') names = true).
  { apply existsb_exists. exists k'. split; [exact Hk | apply String.eqb_refl]. }
  congruence.
Qed.

Lemma member_absent k (f : list (string * json)) :
  existsb (String.eqb k) (map fst f) = false -> member k f = None.
Proof.
  induction f as [| [k' v] f IH]; [reflexivity |].
  cbn [map existsb fst member]. intros Hk.
  apply orb_false_iff in Hk. destruct Hk as [Hk Hf].
  rewrite (IH Hf), Hk. reflexivity.
Qed.

Lemma member_beside names f k :
  beside names f = true -> In k names -> member k f = None.
Proof. intros Hb Hk. apply member_absent, (beside_keys names); assumption. Qed.

Lemma others_app names (a b : list (string * json)) :
  others names (a ++ b) = others names a ++ others names b.
Proof. apply List.filter_app. Qed.

Lemma others_beside names f : beside names f = true -> others names f = f.
Proof.
  intros Hb. apply andb_true_iff in Hb. destruct Hb as [_ Hb].
  induction f as [| kv f IH]; [reflexivity |].
  cbn [forallb] in Hb. apply andb_true_iff in Hb. destruct Hb as [Hkv Hf].
  apply andb_true_iff in Hkv. destruct Hkv as [Hn _].
  unfold others in *. cbn [List.filter]. rewrite Hn, (IH Hf). reflexivity.
Qed.

Lemma beside_values names f :
  beside names f = true -> forallb (fun kv => wf_json (snd kv)) f = true.
Proof.
  intros Hb. apply andb_true_iff in Hb. destruct Hb as [_ Hb].
  apply forallb_forall. intros kv Hin.
  apply (proj1 (forallb_forall _ _) Hb) in Hin.
  apply andb_true_iff in Hin. apply Hin.
Qed.

Lemma beside_distinct names f :
  beside names f = true -> distinct (map fst f) = true.
Proof. intros Hb. apply andb_true_iff in Hb. apply Hb. Qed.

(** Keys of [a] followed by the keys of [b], none of which is in [a]. *)
Lemma distinct_app (a b : list string) :
  distinct a = true -> distinct b = true ->
  (forall k, In k a -> existsb (String.eqb k) b = false) ->
  distinct (a ++ b) = true.
Proof.
  intros Ha Hb Hab. induction a as [| x a IH]; [exact Hb |].
  cbn [app distinct] in *. apply andb_true_iff in Ha. destruct Ha as [Hx Ha].
  apply andb_true_iff. split.
  - rewrite existsb_app. apply negb_true_iff, orb_false_iff. split.
    + apply negb_true_iff, Hx.
    + apply Hab. left. reflexivity.
  - apply IH; [exact Ha |]. intros k Hk. apply Hab. right. exact Hk.
Qed.

(** Entries. *)

Lemma read_write_entry e : read_entry (write_entry e) = Some e.
Proof.
  destruct e as [d [s |] [h |] [sl |] [w |] [c |] [m |] [n |]]; reflexivity.
Qed.

Lemma read_write_entries l : mapM read_entry (map write_entry l) = Some l.
Proof.
  induction l as [| e l IH]; [reflexivity |].
  cbn [map mapM]. rewrite read_write_entry. cbn [mbind option_bind].
  rewrite IH. reflexivity.
Qed.

Lemma distinct_write_entry e :
  match write_entry e with
  | JObj f => distinct (map fst f) = true
  | _ => False
  end.
Proof.
  destruct e as [d [s |] [h |] [sl |] [w |] [c |] [m |] [n |]]; reflexivity.
Qed.

Lemma wf_field_number k o :
  forallb (fun kv => wf_json (snd kv)) (field k JNum o) = wf_number o.
Proof. destruct o; cbn; [apply andb_true_r | reflexivity]. Qed.

Lemma wf_field_string k o :
  forallb (fun kv => wf_json (snd kv)) (field k JStr o) = true.
Proof. destruct o; reflexivity. Qed.

Lemma wf_write_entry e : wf_entry e = true -> wf_json (write_entry e) = true.
Proof.
  intros He. pose proof (distinct_write_entry e) as Hd.
  unfold write_entry in *. cbn [wf_json]. rewrite Hd. cbn [andb forallb snd wf_json].
  rewrite !forallb_app, !wf_field_number, !wf_field_string, !andb_true_r.
  unfold wf_entry in He. rewrite <- !andb_assoc in He. exact He.
Qed.

Lemma wf_write_entries l :
  forallb wf_entry l = true -> forallb wf_json (map write_entry l) = true.
Proof.
  induction l as [| e l IH]; [reflexivity |].
  cbn [forallb map]. intros H. apply andb_true_iff in H. destruct H as [He Hl].
  rewrite (wf_write_entry e He), (IH Hl). reflexivity.
Qed.

(** Targets. *)

Lemma read_write_heartRate r :
  read_heartRate (Some (write_heartRate r)) = Some r.
Proof. destruct r; reflexivity. Qed.

Lemma write_goals_fields g : write_goals g = JObj (goal_fields g ++ g_other g).
Proof. unfold write_goals, goal_fields. rewrite <- !app_assoc. reflexivity. Qed.

Lemma goal_fields_names g k :
  In k (map fst (goal_fields g)) -> In k goal_names.
Proof.
  destruct g as [[s |] [sl |] [w |] [h |] [c |] o]; cbn; tauto.
Qed.

Lemma goal_fields_distinct g : distinct (map fst (goal_fields g)) = true.
Proof. destruct g as [[s |] [sl |] [w |] [h |] [c |] o]; reflexivity. Qed.

Lemma goal_fields_others g : others goal_names (goal_fields g) = [].
Proof. destruct g as [[s |] [sl |] [w |] [h |] [c |] o]; reflexivity. Qed.

Lemma read_write_goals g :
  wf_goals g = true -> read_goals (write_goals g) = Some g.
Proof.
  intros Hg. unfold wf_goals in Hg. apply andb_true_iff in Hg.
  destruct Hg as [_ Hb].
  rewrite write_goals_fields. unfold read_goals.
  rewrite !member_app, others_app, goal_fields_others, (others_beside _ _ Hb).
  rewrite !(member_beside goal_names (g_other g)) by (exact Hb || (cbn; tauto)).
  destruct g as [[s |] [sl |] [w |] [[lo hi] |] [c |] o]; reflexivity.
Qed.

Lemma wf_goals_parts g :
  wf_goals g = true ->
  wf_number (g_steps g) = true /\ wf_number (g_sleep g) = true
  /\ wf_number (g_water g) = true
  /\ match g_heartRate g with
     | Some r => decimal (hr_min r) && decimal (hr_max r)
     | None => true
     end = true
  /\ wf_number (g_calories g) = true
  /\ beside goal_names (g_other g) = true.
Proof.
  unfold wf_goals. intros Hg.
  apply andb_true_iff in Hg. destruct Hg as [Hg Hb].
  apply andb_true_iff in Hg. destruct Hg as [Hg Hc].
  apply andb_true_iff in Hg. destruct Hg as [Hg Hr].
  apply andb_true_iff in Hg. destruct Hg as [Hg Hw].
  apply andb_true_iff in Hg. destruct Hg as [Hs Hsl].
  auto 10.
Qed.

Lemma wf_write_goals g : wf_goals g = true -> wf_json (write_goals g) = true.
Proof.
  intros Hg. destruct (wf_goals_parts g Hg) as (Hs & Hsl & Hw & Hr & Hc & Hb).
  rewrite write_goals_fields. cbn [wf_json].
  apply andb_true_iff. split.
  - rewrite map_app. apply distinct_app.
    + apply goal_fields_distinct.
    + exact (beside_distinct _ _ Hb).
    + intros k Hk. apply goal_fields_names in Hk.
      exact (beside_keys _ _ _ Hb Hk).
  - rewrite forallb_app. unfold goal_fields.
    rewrite !forallb_app, !wf_field_number, Hs, Hsl, Hw, Hc,
      (beside_values _ _ Hb).
    destruct (g_heartRate g) as [[lo hi] |]; [| reflexivity].
    cbn in Hr |- *. apply andb_true_iff in Hr. destruct Hr as [-> ->].
    reflexivity.
Qed.

(** Documents. *)

Lemma write_document_fields d :
  write (PObject d) = JObj (document_fields d ++ doc_other d).
Proof. unfold write, document_fields. rewrite <- !app_assoc. reflexivity. Qed.

Lemma document_fields_names d k :
  In k (map fst (document_fields d)) -> In k document_names.
Proof.
  destruct d as [[u |] [g |] [s |] [| j | l] o]; cbn; tauto.
Qed.

Lemma document_fields_distinct d :
  distinct (map fst (document_fields d)) = true.
Proof. destruct d as [[u |] [g |] [s |] [| j | l] o]; reflexivity. Qed.

Lemma document_fields_others d :
  others document_names (document_fields d) = [].
Proof. destruct d as [[u |] [g |] [s |] [| j | l] o]; reflexivity. Qed.

(** The reference runtime reads a well-formed document back from the
    JSON value it writes for it. *)
Lemma read_write d :
  well_formed d = true -> read (write (PObject d)) = PObject d.
Proof.
  intros Hd. unfold well_formed in Hd. rewrite <- !andb_assoc in Hd.
  apply andb_true_iff in Hd. destruct Hd as [_ Hd].
  apply andb_true_iff in Hd. destruct Hd as [Hg Hd].
  apply andb_true_iff in Hd. destruct Hd as [_ Hd].
  apply andb_true_iff in Hd. destruct Hd as [He Hb].
  rewrite write_document_fields. unfold read.
  rewrite !member_app, others_app, document_fields_others,
    (others_beside _ _ Hb).
  rewrite !(member_beside document_names (doc_other d))
    by (exact Hb || (cbn; tauto)).
  destruct d as [u g s e o]. cbn [doc_entries doc_goals] in *.
  destruct e as [| j | l]; try discriminate.
  assert (Hu : member "user" (document_fields (mkDocument u g s (EntriesArray l) o)) = u)
    by (destruct u, g, s; reflexivity).
  assert (Hs : member "settings" (document_fields (mkDocument u g s (EntriesArray l) o)) = s)
    by (destruct u, g, s; reflexivity).
  assert (Hgo : member "goals" (document_fields (mkDocument u g s (EntriesArray l) o))
                = write_goals <$> g)
    by (destruct u, g, s; reflexivity).
  assert (Hen : member "entries" (document_fields (mkDocument u g s (EntriesArray l) o))
                = Some (JArr (map write_entry l)))
    by (destruct u, g, s; reflexivity).
  rewrite Hu, Hs, Hgo, Hen. cbn [read_entries].
  rewrite read_write_entries. cbn [app].
  destruct g as [g |]; cbn [fmap option_fmap option_map mbind option_bind];
    [rewrite (read_write_goals g Hg) |]; reflexivity.
Qed.

Lemma wf_field_value k o :
  forallb (fun kv => wf_json (snd kv)) (field k id o) = wf_value o.
Proof. destruct o; cbn; [apply andb_true_r | reflexivity]. Qed.

Lemma wf_write d : well_formed d = true -> wf_json (write (PObject d)) = true.
Proof.
  intros Hd. unfold well_formed in Hd. rewrite <- !andb_assoc in Hd.
  apply andb_true_iff in Hd. destruct Hd as [Hu Hd].
  apply andb_true_iff in Hd. destruct Hd as [Hg Hd].
  apply andb_true_iff in Hd. destruct Hd as [Hs Hd].
  apply andb_true_iff in Hd. destruct Hd as [He Hb].
  rewrite write_document_fields. cbn [wf_json].
  apply andb_true_iff. split.
  - rewrite map_app. apply distinct_app.
    + apply document_fields_distinct.
    + exact (beside_distinct _ _ Hb).
    + intros k Hk. apply document_fields_names in Hk.
      exact (beside_keys _ _ _ Hb Hk).
  - rewrite forallb_app, (beside_values _ _ Hb), andb_true_r.
    unfold document_fields. rewrite !forallb_app, !wf_field_value, Hu, Hs.
    cbn [andb]. apply andb_true_iff. split.
    + destruct (doc_goals d) as [g |]; [| reflexivity].
      cbn [field forallb snd]. rewrite (wf_write_goals g Hg). reflexivity.
    + destruct (doc_entries d) as [| j | l]; try discriminate.
      cbn [write_entries forallb snd wf_json].
      rewrite (wf_write_entries l He). reflexivity.
Qed.

(** [JSON.parse(JSON.stringify(d))] and
    [JSON.parse(JSON.stringify(d, null, 2))] are [d]. *)
Lemma runtime_reads_back d :
  well_formed d = true ->
  JSON_parse (JSON_stringify (PObject d)) = Some (PObject d)
  /\ JSON_parse (JSON_stringify_pretty (PObject d)) = Some (PObject d).
Proof.
  intros Hd. cbn [JSON_parse JSON_stringify JSON_stringify_pretty runtime].
  rewrite !(parse_json_print _ _ (wf_write d Hd)).
  cbn [fmap option_fmap option_map]. rewrite (read_write d Hd). auto.
Qed.

End JSONDocuments.

(** *** The data model on JSON values *)

Section JSONDataModel.
Import RefJSON.


Lemma In_keys k v (f : list (string * json)) :
  In (k, v) f -> existsb (String.eqb k) (map fst f) = true.
Proof.
  intros Hin. apply existsb_exists. exists k. split; [| apply String.eqb_refl].
  apply (in_map fst) in Hin. exact Hin.
Qed.









End JSONDataModel.

Section JSONEntries.
Import RefJSON.




End JSONEntries.

Section JSONGoals.
Import RefJSON.









End JSONGoals.

Section JSONDocumentsRead.
Import RefJSON.







End JSONDocumentsRead.

(** ** The round trip of export and import *)

Section RoundTrip.
Import StorageManager.
Local Existing Instance RefJSON.runtime.



(** On this runtime every well-formed document is readable: the texts
    that the writers of the store leave in the storage are read back. *)
Lemma well_formed_readable d : well_formed d = true -> readable d.
Proof.
  intros Hd. split; [| apply (runtime_reads_back d Hd)].
  cbn [JSON_stringify RefJSON.runtime]. rewrite write_document_fields.
  destruct (document_fields d ++ doc_other d); discriminate.
Qed.


End RoundTrip.

(** ** The statements at concrete inputs *)

Section Witnesses.
Import StorageManager.
Local Existing Instance RefJSON.runtime.

Lemma ex_store_holds : holds ex_store ex_doc.
Proof.
  exists ex_text. split; [reflexivity |]. split; [discriminate |].
  vm_compute. reflexivity.
Defined.

Lemma ex_entries_invariant : entries_invariant ex_entries.
Proof.
  split; [| split].
  - repeat constructor; eexists; vm_compute; reflexivity.
  - repeat constructor; vm_compute; reflexivity.
  - repeat constructor; simpl; intuition discriminate.
Defined.

Lemma ex_doc_readable : readable ex_doc.
Proof. split; [discriminate | vm_compute; reflexivity]. Defined.

Lemma calculateHealthScore_range_witness :
  nonneg_latest [ex_full_entry] /\ nonneg_goals ex_full_goals
  /\ exists z, calculateHealthScore [ex_full_entry] ex_full_goals = Some z
               /\ 0 <= z <= 100.
Proof.
  assert (Hm : nonneg_latest [ex_full_entry])
    by (repeat split; discriminate).
  assert (Hg : nonneg_goals ex_full_goals)
    by (repeat split; discriminate).
  split; [exact Hm |]. split; [exact Hg |].
  destruct (calculateHealthScore_range [ex_full_entry] ex_full_goals)
    as (z & Hz & Hhi & Hlo & _).
  exists z. split; [exact Hz |]. split; [exact (Hlo Hm Hg) | exact Hhi].
Defined.


Lemma calculateHealthScore_zero_goal_witness :
  (0 # 1 == 0)%Q
  /\ calculateHealthScore [ex_full_entry] (with_g_steps ex_full_goals (Some (0 # 1)))
     = calculateHealthScore [ex_full_entry] (with_g_steps ex_full_goals None).
Proof.
  assert (Hz : (0 # 1 == 0)%Q) by reflexivity.
  split; [exact Hz |].
  destruct (calculateHealthScore_zero_goal [ex_full_entry] ex_full_goals)
    as [_ Hall].
  exact (proj1 (Hall (0 # 1) Hz)).
Defined.

Lemma detectHealthFlags_rules_witness :
  chronic ex_short_nights
  /\ last (detectHealthFlags ex_short_nights no_goals)
     = Some DashboardManager.flag_chronic_sleep.
Proof.
  assert (Hc : chronic ex_short_nights).
  { split; [simpl; lia |]. repeat constructor. }
  split; [exact Hc |].
  destruct (detectHealthFlags_rules
              (mkEntry "2024-01-05" (Some 5000%Q) (Some 60%Q) (Some 5%Q)
                       (Some 4%Q) None None None)
              (tl ex_short_nights) no_goals)
    as (_ & _ & _ & _ & _ & _ & Hlast & _).
  exact (Hlast Hc).
Defined.

Lemma writes_keep_entries_sorted_witness :
  holds ex_store ex_doc
  /\ doc_entries ex_doc = EntriesArray ex_entries
  /\ entries_invariant ex_entries
  /\ iso_dated ex_new_entry
  /\ (exists b st' l',
         saveEntry ex_new_entry ex_store = (Return b, st')
         /\ entries_invariant l')
  /\ (exists b st' l',
         deleteEntry "2024-01-03" ex_store = (Return b, st')
         /\ entries_invariant l').
Proof.
  assert (Hiso : iso_dated ex_new_entry) by (eexists; vm_compute; reflexivity).
  split; [exact ex_store_holds |]. split; [reflexivity |].
  split; [exact ex_entries_invariant |]. split; [exact Hiso |].
  destruct (writes_keep_entries_sorted ex_store ex_doc ex_entries
              ex_new_entry "2024-01-03" ex_store_holds eq_refl
              ex_entries_invariant Hiso)
    as [(b & st' & l' & Hs & _ & Hinv & _) (b2 & st2 & l2 & Hd & _ & Hinv2 & _)].
  split; [exists b, st', l' | exists b2, st2, l2]; auto.
Defined.

Lemma saveEntry_upsert_witness :
  holds ex_store ex_doc
  /\ doc_entries ex_doc = EntriesArray ex_entries
  /\ List.NoDup (map date ex_entries)
  /\ (exists st1,
         saveEntry ex_update_entry ex_store = (Return true, st1)
         /\ exists l1,
             written st1 (with_entries ex_doc l1)
             /\ length l1 = 2%nat
             /\ dated "2024-01-03" l1
                = [mkEntry "2024-01-03" (Some 12000%Q) None (Some 8%Q) None
                           None None None]).
Proof.
  assert (Hnd : List.NoDup (map date ex_entries))
    by apply ex_entries_invariant.
  split; [exact ex_store_holds |]. split; [reflexivity |].
  split; [exact Hnd |].
  eexists. split; [vm_compute; reflexivity |].
  destruct (saveEntry_upsert ex_store _ ex_doc ex_entries ex_update_entry
              ex_store_holds eq_refl Hnd eq_refl)
    as (l1 & Hw & Hcase & _).
  exists l1. split; [exact Hw |]. exact (conj (proj2 Hcase) (proj1 Hcase)).
Defined.

Lemma importJSON_validates_witness :
  fits ex_store (mkDocument None None None (EntriesArray []) [])
  /\ exists res st',
      importJSON ex_empty_text ex_store = (Return res, st')
      /\ success res = true
      /\ written st' (mkDocument None None None (EntriesArray []) []).
Proof.
  assert (Hfit : fits ex_store (mkDocument None None None (EntriesArray []) []))
    by (vm_compute; repeat constructor).
  split; [exact Hfit |].
  destruct (importJSON_validates ex_store ex_empty_text)
    as (res & st' & Hi & Hres).
  exists res, st'. split; [exact Hi |].
  change (JSON_parse ex_empty_text)
    with (Some (PObject (mkDocument None None None (EntriesArray []) [])))
    in Hres.
  simpl in Hres. destruct Hres as (Hok & Hw & _).
  split; [exact Hok | exact (proj1 (Hw Hfit))].
Defined.


Lemma getEntriesInRange_inclusive_witness :
  holds ex_store ex_doc
  /\ doc_entries ex_doc = EntriesArray ex_entries
  /\ List.Forall iso_dated ex_entries
  /\ dated "2024-01-01" ex_entries
     = [mkEntry "2024-01-01" None None (Some (15 # 2)%Q) None None None None]
  /\ getEntriesInRange "2024-01-01" "2024-01-01" ex_store
     = (Return [mkEntry "2024-01-01" None None (Some (15 # 2)%Q) None None
                        None None], ex_store).
Proof.
  assert (Hiso : List.Forall iso_dated ex_entries)
    by apply ex_entries_invariant.
  split; [exact ex_store_holds |]. split; [reflexivity |].
  split; [exact Hiso |]. split; [reflexivity |].
  destruct (getEntriesInRange_inclusive ex_store ex_doc ex_entries
              "2024-01-01" "2024-01-01" ex_store_holds eq_refl Hiso)
    as (r & Hr & _ & _ & Hsame).
  rewrite Hr. rewrite (Hsame _ eq_refl eq_refl). reflexivity.
Defined.

(** C6. The code breaks the last part of the claim: importJSON does not
    look at the result of saveAll. On a storage that holds a document
    with two entries and has no room for another text, the valid text
    of a document without entries is answered with [{success: true, ...}]
    although nothing was stored: the storage is as it was, and holds the
    old document. *)
Theorem importJSON_full_storage :
  JSON_parse ex_empty_text
  = Some (PObject (mkDocument None None None (EntriesArray []) []))
  /\ holds ex_full_store ex_doc
  /\ importJSON ex_empty_text ex_full_store
     = (Return (mkImportResult true "Data imported successfully"),
        ex_full_store).
Proof.
  split; [vm_compute; reflexivity |]. split; [| vm_compute; reflexivity].
  exists ex_text. split; [reflexivity |]. split; [discriminate |].
  vm_compute. reflexivity.
Qed.

End Witnesses.

(** * Further properties *)

(** ** The store: reading, writing and looking up *)

Section StoreReads.
Context `{JSONRuntime}.
Import StorageManager.

Lemma getAll_unreadable st : unreadable st -> getAll st = (Return PNull, st).
Proof.
  unfold unreadable, getAll, try_catch, bind, localStorage.getItem,
    parse_or_throw, ret, throw.
  destruct (item st) as [text|]; [| reflexivity].
  intros [-> | [Hp | Hp]]; [reflexivity | |];
    destruct (String.eqb text ""); try reflexivity; rewrite Hp; reflexivity.
Qed.

Lemma getEntryByDate_holds st d l day :
  holds st d -> doc_entries d = EntriesArray l ->
  getEntryByDate day st = (Return (lookup_date day l), st).
Proof.
  intros Hh Hl. unfold getEntryByDate, bind.
  rewrite (getEntries_holds _ _ _ Hh Hl). reflexivity.
Qed.

Lemma getGoals_holds st d :
  holds st d -> getGoals st = (Return (goals_of d), st).
Proof.
  intros Hh. unfold getGoals, bind, goals_of. rewrite (getAll_holds _ _ Hh).
  destruct (doc_goals d); reflexivity.
Qed.

Lemma lookup_date_dated day l : lookup_date day l = hd_error (dated day l).
Proof.
  unfold lookup_date, dated. induction l as [| x l IH]; simpl; [reflexivity |].
  destruct (String.eqb (date x) day); [reflexivity | exact IH].
Qed.

Lemma lookup_without_same day l : lookup_date day (without_date day l) = None.
Proof.
  unfold lookup_date, without_date.
  induction l as [| x l IH]; simpl; [reflexivity |].
  destruct (String.eqb (date x) day) eqn:Hx; simpl; [exact IH |].
  rewrite Hx. exact IH.
Qed.

Lemma lookup_without_other day day' l :
  day' <> day -> lookup_date day' (without_date day l) = lookup_date day' l.
Proof.
  intros Hne. unfold lookup_date, without_date.
  induction l as [| x l IH]; simpl; [reflexivity |].
  destruct (String.eqb (date x) day) eqn:Hx; simpl.
  - apply String.eqb_eq in Hx.
    assert (Hx' : String.eqb (date x) day' = false)
      by (apply String.eqb_neq; congruence).
    rewrite Hx'. exact IH.
  - destruct (String.eqb (date x) day'); [reflexivity | exact IH].
Qed.

Lemma without_absent day l : dated day l = [] -> without_date day l = l.
Proof.
  unfold dated, without_date. induction l as [| x l IH]; simpl; [reflexivity |].
  destruct (String.eqb (date x) day); simpl; [discriminate |].
  intros Hd. rewrite (IH Hd). reflexivity.
Qed.

Lemma with_entries_same d l :
  doc_entries d = EntriesArray l -> with_entries d l = d.
Proof. destruct d; simpl. intros ->. reflexivity. Qed.

Lemma filter_sublist {A : Type} (p : A -> bool) (l : list A) :
  sublist (List.filter p l) l.
Proof.
  induction l as [| x l IH]; simpl; [constructor |].
  destruct (p x); [apply sublist_skip | apply sublist_cons]; exact IH.
Qed.

Lemma firstn_sublist {A : Type} (n : nat) (l : list A) : sublist (firstn n l) l.
Proof.
  revert n. induction l as [| x l IH]; intros [| n]; simpl;
    try constructor; try apply sublist_nil_l; apply IH.
Qed.

(** X1. On a storage without a document to read (no data, an empty or
    unparseable text, or the text of null) every read answers with its
    default and nothing throws or writes: no entries, no entry for a date,
    none in a range or in the last days, empty targets, the default
    settings, an empty profile. *)
Theorem reads_of_unreadable_storage
        (st : LocalStorage) (day a b : string)
        (startDate endDate : option Z) (days : nat) :
  unreadable st ->
  getAll st = (Return PNull, st)
  /\ getEntries st = (Return (AnArray []), st)
  /\ getEntryByDate day st = (Return None, st)
  /\ getEntriesInRange a b st = (Return [], st)
  /\ getLastNDays startDate endDate days st = (Return [], st)
  /\ getGoals st = (Return no_goals, st)
  /\ getSettings st = (Return default_settings, st)
  /\ getUserProfile st = (Return (JObj []), st).
Proof.
  intros Hu. pose proof (getAll_unreadable st Hu) as Hg.
  assert (He : getEntries st = (Return (AnArray []), st))
    by (unfold getEntries, bind; rewrite Hg; reflexivity).
  split; [exact Hg |]. split; [exact He |].
  unfold getEntryByDate, getEntriesInRange, getLastNDays, getGoals,
    getSettings, getUserProfile, bind.
  rewrite He, Hg. unfold Array.slice0. destruct days; repeat split.
Qed.

(** X2. The writes do not create the document: on a storage without a
    document to read, saveEntry, deleteEntry and updateGoals throw a
    TypeError and leave the storage as it was. *)
Theorem writes_need_a_document
        (st : LocalStorage) (entry : Entry) (day : string) (goals : Goals) :
  unreadable st ->
  (exists e, saveEntry entry st = (Throw e, st) /\ err_name e = TypeError)
  /\ (exists e, deleteEntry day st = (Throw e, st) /\ err_name e = TypeError)
  /\ (exists e, updateGoals goals st = (Throw e, st) /\ err_name e = TypeError).
Proof.
  intros Hu. pose proof (getAll_unreadable st Hu) as Hg.
  unfold saveEntry, deleteEntry, updateGoals, bind. rewrite Hg.
  repeat split; eexists; split; reflexivity.
Qed.

(** X3. Save, then look up. After a saveEntry that the storage accepted,
    on a store whose dates are distinct and whose new text the runtime
    reads back, getEntryByDate of the date of the entry returns the entry
    as stored (merged over the old one if there was one), and the lookup
    of any other date answers as before the save. *)
Theorem saveEntry_then_getEntryByDate
        (st st1 : LocalStorage) (d : Document) (l : list Entry)
        (entry : Entry) :
  holds st d -> doc_entries d = EntriesArray l ->
  List.NoDup (map date l) ->
  saveEntry entry st = (Return true, st1) ->
  readable (with_entries d (upsert entry l)) ->
  getEntryByDate (date entry) st1
  = (Return (Some (match lookup_date (date entry) l with
                   | Some old => spread old entry
                   | None => entry
                   end)), st1)
  /\ forall day, day <> date entry ->
       getEntryByDate day st1 = (Return (lookup_date day l), st1).
Proof.
  intros Hh Hl Hnd Hsave Hread.
  rewrite (saveEntry_holds _ _ _ _ Hh Hl) in Hsave.
  destruct (saveAll_document (with_entries d (upsert entry l)) st)
    as (b & st' & Hsave' & Ht & _).
  rewrite Hsave in Hsave'. injection Hsave' as <- <-.
  destruct (Ht eq_refl) as (_ & Hw & _).
  pose proof (written_holds _ _ Hw Hread) as Hh1.
  destruct (upsert_dated entry l Hnd) as (_ & Hcase & Hother).
  split.
  - rewrite (getEntryByDate_holds _ _ (upsert entry l) _ Hh1 eq_refl).
    rewrite !lookup_date_dated.
    destruct (dated (date entry) l) as [| old t]; destruct Hcase as [-> _];
      reflexivity.
  - intros day Hday.
    rewrite (getEntryByDate_holds _ _ (upsert entry l) _ Hh1 eq_refl).
    rewrite !lookup_date_dated, (Hother day Hday). reflexivity.
Qed.

(** X4. Delete, then look up. After a deleteEntry that the storage
    accepted, on a store whose new text the runtime reads back, no entry
    is found for the deleted date (every entry of that date is gone, were
    there several), and the lookup of any other date answers as before. *)
Theorem deleteEntry_then_getEntryByDate
        (st st1 : LocalStorage) (d : Document) (l : list Entry) (day : string) :
  holds st d -> doc_entries d = EntriesArray l ->
  deleteEntry day st = (Return true, st1) ->
  readable (with_entries d (without_date day l)) ->
  getEntryByDate day st1 = (Return None, st1)
  /\ getEntries st1 = (Return (AnArray (without_date day l)), st1)
  /\ forall day', day' <> day ->
       getEntryByDate day' st1 = (Return (lookup_date day' l), st1).
Proof.
  intros Hh Hl Hdel Hread.
  rewrite (deleteEntry_holds _ _ _ _ Hh Hl) in Hdel.
  fold (without_date day l) in Hdel.
  destruct (saveAll_document (with_entries d (without_date day l)) st)
    as (b & st' & Hsave' & Ht & _).
  rewrite Hdel in Hsave'. injection Hsave' as <- <-.
  destruct (Ht eq_refl) as (_ & Hw & _).
  pose proof (written_holds _ _ Hw Hread) as Hh1.
  split; [| split].
  - rewrite (getEntryByDate_holds _ _ (without_date day l) _ Hh1 eq_refl).
    rewrite lookup_without_same. reflexivity.
  - apply (getEntries_holds _ _ _ Hh1 eq_refl).
  - intros day' Hne.
    rewrite (getEntryByDate_holds _ _ (without_date day l) _ Hh1 eq_refl).
    rewrite (lookup_without_other _ _ _ Hne). reflexivity.
Qed.

(** X5. Deleting a date that has no entry is not an error and changes
    nothing: deleteEntry returns, the document it writes is the document
    it read, and a storage that holds the text saveAll writes for that
    document is left exactly as it was. *)
Theorem deleteEntry_absent_date
        (st : LocalStorage) (d : Document) (l : list Entry) (day : string) :
  holds st d -> doc_entries d = EntriesArray l ->
  lookup_date day l = None ->
  exists b st',
    deleteEntry day st = (Return b, st')
    /\ (b = true -> written st' d)
    /\ (b = false -> st' = st)
    /\ (written st d -> st' = st).
Proof.
  intros Hh Hl Hnone.
  assert (Hd : dated day l = []).
  { rewrite lookup_date_dated in Hnone.
    destruct (dated day l); [reflexivity | discriminate]. }
  rewrite (deleteEntry_holds _ _ _ _ Hh Hl).
  fold (without_date day l). rewrite (without_absent _ _ Hd).
  rewrite (with_entries_same _ _ Hl).
  destruct (saveAll_document d st) as (b & st' & Hsave & Ht & Hf).
  exists b, st'. split; [exact Hsave |].
  split; [intros Hb; apply (Ht Hb) |]. split; [intros Hb; apply (Hf Hb) |].
  intros Hw. destruct b.
  - destruct (Ht eq_refl) as (_ & Hw' & Hq).
    destruct st as [it q], st' as [it' q']. unfold written in *. simpl in *.
    congruence.
  - apply (Hf eq_refl).
Qed.

End StoreReads.

Section StoreUpdates.
Context `{JSONRuntime}.
Import StorageManager.

Lemma updateGoals_holds st d goals :
  holds st d ->
  updateGoals goals st
  = saveAll (PObject (with_goals d (spread_goals (goals_of d) goals))) st.
Proof.
  intros Hh. unfold updateGoals, bind. rewrite (getAll_holds _ _ Hh).
  reflexivity.
Qed.

Lemma find_app_first {A : Type} (p : A -> bool) (a b : list A) :
  List.find p (a ++ b)
  = match List.find p a with Some x => Some x | None => List.find p b end.
Proof.
  induction a as [| x a IH]; [reflexivity |].
  cbn [app List.find]. destruct (p x); [reflexivity | exact IH].
Qed.

Lemma find_filter_kept {A : Type} (p q : A -> bool) (l : list A) :
  (forall x, p x = true -> q x = true) ->
  List.find p (List.filter q l) = List.find p l.
Proof.
  intros Hpq. induction l as [| x l IH]; [reflexivity |].
  cbn [List.filter List.find]. destruct (p x) eqn:Hp.
  - rewrite (Hpq x Hp). cbn [List.find]. rewrite Hp. reflexivity.
  - destruct (q x); [cbn [List.find]; rewrite Hp |]; exact IH.
Qed.

(** [{...old, ...new}[k]] is [new[k]] when [new] has the key [k], and
    [old[k]] otherwise. *)
Lemma get_field_spread_fields {A : Type} (k : string)
      (old new : list (string * A)) :
  get_field k (spread_fields old new)
  = match get_field k new with
    | Some v => Some v
    | None => get_field k old
    end.
Proof.
  set (p := fun kv : string * A => String.eqb (fst kv) k).
  set (upd := fun kv : string * A =>
                (fst kv, match get_field (fst kv) new with
                         | Some v => v
                         | None => snd kv
                         end)).
  set (q := fun kv : string * A =>
              match get_field (fst kv) old with
              | Some _ => false
              | None => true
              end).
  assert (Hold : get_field k old
                 = match List.find p old with
                   | Some kv => Some (snd kv)
                   | None => None
                   end) by reflexivity.
  assert (Hnew : get_field k new
                 = match List.find p new with
                   | Some kv => Some (snd kv)
                   | None => None
                   end) by reflexivity.
  assert (Hboth : get_field k (spread_fields old new)
                  = match List.find p (map upd old ++ List.filter q new) with
                    | Some kv => Some (snd kv)
                    | None => None
                    end) by reflexivity.
  assert (Hmap : List.find p (map upd old)
                 = match List.find p old with
                   | Some kv => Some (upd kv)
                   | None => None
                   end).
  { clear. induction old as [| kv old IH]; [reflexivity |].
    cbn [map List.find]. unfold p at 1 3, upd at 1. cbn [fst].
    fold (p kv). destruct (p kv); [reflexivity | exact IH]. }
  rewrite Hboth, find_app_first, Hmap, Hold.
  destruct (List.find p old) as [kv |] eqn:Hfind.
  - apply List.find_some in Hfind. destruct Hfind as [_ Hk].
    unfold p in Hk. apply String.eqb_eq in Hk. unfold upd. cbn [snd].
    rewrite Hk. destruct (get_field k new); reflexivity.
  - rewrite find_filter_kept.
    + rewrite Hnew. destruct (List.find p new); reflexivity.
    + intros x Hx. unfold p in Hx. apply String.eqb_eq in Hx.
      unfold q. rewrite Hx, Hold. reflexivity.
Qed.

(** X6. Update the targets, then read them. After an updateGoals that the
    storage accepted, on a store whose new text the runtime reads back,
    getGoals returns the old targets overridden by the new ones: a target
    given wins and a target not given keeps its value, for the five
    targets that the code reads by name and for every other property of
    the two objects; the entries are the ones the store had. *)
Theorem updateGoals_then_getGoals
        (st st1 : LocalStorage) (d : Document) (goals : Goals) :
  holds st d ->
  updateGoals goals st = (Return true, st1) ->
  readable (with_goals d (spread_goals (goals_of d) goals)) ->
  exists merged,
    getGoals st1 = (Return merged, st1)
    /\ g_steps merged
       = match g_steps goals with Some v => Some v | None => g_steps (goals_of d) end
    /\ g_sleep merged
       = match g_sleep goals with Some v => Some v | None => g_sleep (goals_of d) end
    /\ g_water merged
       = match g_water goals with Some v => Some v | None => g_water (goals_of d) end
    /\ g_heartRate merged
       = match g_heartRate goals with
         | Some v => Some v | None => g_heartRate (goals_of d) end
    /\ g_calories merged
       = match g_calories goals with
         | Some v => Some v | None => g_calories (goals_of d) end
    /\ (forall k,
          get_field k (g_other merged)
          = match get_field k (g_other goals) with
            | Some v => Some v
            | None => get_field k (g_other (goals_of d))
            end)
    /\ fst (getEntries st1) = fst (getEntries st).
Proof.
  intros Hh Hup Hread.
  rewrite (updateGoals_holds _ _ _ Hh) in Hup.
  set (d1 := with_goals d (spread_goals (goals_of d) goals)) in *.
  destruct (saveAll_document d1 st) as (b & st' & Hsave' & Ht & _).
  rewrite Hup in Hsave'. injection Hsave' as <- <-.
  destruct (Ht eq_refl) as (_ & Hw & _).
  pose proof (written_holds _ _ Hw Hread) as Hh1.
  exists (spread_goals (goals_of d) goals).
  split; [rewrite (getGoals_holds _ _ Hh1); reflexivity |].
  do 5 (split; [reflexivity |]).
  split; [intros k; apply get_field_spread_fields |].
  unfold getEntries, bind.
  rewrite (getAll_holds _ _ Hh), (getAll_holds _ _ Hh1). simpl.
  destruct (doc_entries d); reflexivity.
Qed.

Lemma init_with_item (st : LocalStorage) (text : string) (fetched : option Parsed) :
  item st = Some text -> init fetched st = (Return tt, st).
Proof.
  intros Hitem. unfold init, hasData, bind, localStorage.getItem, ret.
  rewrite Hitem. reflexivity.
Qed.

Lemma init_without_item (st : LocalStorage) (fetched : option Parsed) :
  item st = None ->
  init fetched st
  = (Return tt,
     snd (saveAll (match fetched with
                   | Some defaultData => defaultData
                   | None => PObject skeleton
                   end) st)).
Proof.
  intros Hitem. unfold init, hasData, bind, localStorage.getItem, ret.
  rewrite Hitem. cbn [negb]. unfold loadDefaultData.
  destruct fetched as [v|]; unfold bind; rewrite saveAll_spec;
    destruct (_ <=? _)%nat; reflexivity.
Qed.

(** X7. init never throws and is idempotent: on every storage, whatever
    the fetch of the default data gives, init returns, and running it
    again on the storage it leaves changes nothing. A storage that holds
    any text under the key, be it empty or unparseable, is left as it is:
    existing data are not replaced and a broken text is not repaired. *)
Theorem init_idempotent (st : LocalStorage) (fetched : option Parsed) :
  exists st',
    init fetched st = (Return tt, st')
    /\ init fetched st' = (Return tt, st')
    /\ (forall text, item st = Some text -> st' = st)
    /\ quota st' = quota st.
Proof.
  destruct (item st) as [text|] eqn:Hitem.
  - exists st. rewrite (init_with_item _ _ _ Hitem). auto.
  - rewrite (init_without_item _ _ Hitem), saveAll_spec.
    destruct (_ <=? _)%nat eqn:Hq; cbn [snd]; eexists; split; try reflexivity.
    + split; [eapply init_with_item; reflexivity |].
      split; [discriminate | reflexivity].
    + split; [| split; [discriminate | reflexivity]].
      rewrite (init_without_item _ _ Hitem), saveAll_spec, Hq. reflexivity.
Qed.

(** X8. The first run. On a storage with nothing under the key (as after
    clearAll), init never throws and writes the fetched default data or,
    when the fetch fails, the minimal document; if the storage has room
    for the minimal document and the runtime reads its text back, the
    store afterwards holds it: no entries, no targets, the default
    settings, and a second init changes nothing. *)
Theorem init_on_empty_storage (st : LocalStorage) :
  let empty := mkLocalStorage None (quota st) in
  clearAll st = (Return tt, empty)
  /\ (forall fetched, exists st', init fetched empty = (Return tt, st'))
  /\ (fits empty skeleton -> readable skeleton ->
      exists st',
        init None empty = (Return tt, st')
        /\ holds st' skeleton
        /\ getEntries st' = (Return (AnArray []), st')
        /\ getGoals st' = (Return no_goals, st')
        /\ getSettings st' = (Return default_settings, st')
        /\ forall fetched, init fetched st' = (Return tt, st')).
Proof.
  intros empty. split; [reflexivity |]. split.
  - intros fetched. unfold init, hasData, bind, localStorage.getItem, ret.
    simpl. unfold loadDefaultData.
    destruct fetched as [v|]; unfold bind; rewrite saveAll_spec;
      destruct (_ <=? _)%nat; eexists; reflexivity.
  - intros Hfit Hread.
    destruct (saveAll_document skeleton empty) as (b & st' & Hsave & Ht & Hf).
    destruct b; [| destruct (Hf eq_refl) as [Hno _]; contradiction].
    destruct (Ht eq_refl) as (_ & Hw & _).
    pose proof (written_holds _ _ Hw Hread) as Hh.
    exists st'. split.
    { unfold init, hasData, bind, localStorage.getItem, ret. simpl.
      unfold loadDefaultData, bind. rewrite Hsave. reflexivity. }
    split; [exact Hh |].
    split; [apply (getEntries_holds _ _ _ Hh eq_refl) |].
    split; [apply (getGoals_holds _ _ Hh) |].
    split.
    { unfold getSettings, bind. rewrite (getAll_holds _ _ Hh). reflexivity. }
    intros fetched. eapply init_with_item. exact Hw.
Qed.

(** X9. getLastNDays on a store that holds a document with an array of
    entries never returns more than [days] entries (none at all for 0
    days); they are entries of the store in the order of the store, and
    each lies in the window between the two dates. *)
Theorem getLastNDays_bounded
        (st : LocalStorage) (d : Document) (l : list Entry)
        (startDate endDate : option Z) (days : nat) :
  holds st d -> doc_entries d = EntriesArray l ->
  exists r,
    getLastNDays startDate endDate days st = (Return r, st)
    /\ (length r <= days)%nat
    /\ sublist r l
    /\ forall e, In e r ->
         exists s t n, startDate = Some s /\ endDate = Some n
                       /\ time_of e = Some t /\ s <= t <= n.
Proof.
  intros Hh Hl. unfold getLastNDays, bind.
  rewrite (getEntries_holds _ _ _ Hh Hl). eexists. split; [reflexivity |].
  unfold Array.slice0. split; [| split].
  - rewrite length_firstn. lia.
  - etransitivity; [apply firstn_sublist | apply filter_sublist].
  - intros e He.
    assert (He' : In e (List.filter (in_window startDate endDate) l)).
    { apply list_elem_of_In. eapply elem_of_sublist; [| apply firstn_sublist].
      apply list_elem_of_In. exact He. }
    clear He. rename He' into He.
    apply filter_In in He. destruct He as [_ Hw].
    unfold in_window, Date.geb, Date.leb, time_of in *.
    destruct (Date.parse (date e)) as [t|]; [| discriminate].
    destruct startDate as [s|]; [| discriminate].
    destruct endDate as [n|]; [| rewrite andb_false_r in Hw; discriminate].
    apply andb_true_iff in Hw. destruct Hw as [H1 H2].
    apply Z.leb_le in H1, H2. exists s, t, n. auto.
Qed.

(** X10. getEntriesInRange with a start day after the end day returns no
    entry and does not throw, whatever the store holds. *)
Theorem getEntriesInRange_empty_range
        (st : LocalStorage) (d : Document) (l : list Entry) (a b : string)
        (ta tb : Z) :
  holds st d -> doc_entries d = EntriesArray l ->
  Date.parse a = Some ta -> Date.parse b = Some tb -> tb < ta ->
  getEntriesInRange a b st = (Return [], st).
Proof.
  intros Hh Hl Ha Hb Hlt. unfold getEntriesInRange, bind.
  rewrite (getEntries_holds _ _ _ Hh Hl). unfold ret. f_equal. f_equal.
  induction l as [| x l' IH] in |- *; simpl; [reflexivity |].
  assert (Hx : in_range a b x = false).
  { unfold in_range, Date.geb, Date.leb.
    destruct (Date.parse (date x)) as [t|]; [| reflexivity].
    rewrite Ha, Hb. apply andb_false_iff.
    destruct (Z.leb_spec ta t); [right; apply Z.leb_gt; lia | left; reflexivity]. }
  rewrite Hx. exact IH.
Qed.

(** X11. The range of a store whose entries satisfy the invariant
    satisfies it too: getEntriesInRange returns entries of the store in
    the order of the store, so most recent first and without a date
    twice. *)
Theorem getEntriesInRange_keeps_order
        (st : LocalStorage) (d : Document) (l : list Entry) (a b : string) :
  holds st d -> doc_entries d = EntriesArray l ->
  entries_invariant l ->
  exists r,
    getEntriesInRange a b st = (Return r, st)
    /\ sublist r l
    /\ entries_invariant r.
Proof.
  intros Hh Hl Hinv. unfold getEntriesInRange, bind.
  rewrite (getEntries_holds _ _ _ Hh Hl). eexists. split; [reflexivity |].
  split; [apply filter_sublist | apply filter_invariant, Hinv].
Qed.

(** X12. Import, then read. An import that the storage accepts replaces
    the whole document: afterwards getEntries returns the entries of the
    imported text, exactly as they were listed (importJSON neither sorts
    them nor removes a date given twice), and getGoals its targets. *)
Theorem importJSON_then_reads
        (st : LocalStorage) (text : string) (d : Document) (l : list Entry) :
  JSON_parse text = Some (PObject d) -> doc_entries d = EntriesArray l ->
  fits st d -> readable d ->
  exists res st',
    importJSON text st = (Return res, st')
    /\ success res = true
    /\ getEntries st' = (Return (AnArray l), st')
    /\ getGoals st' = (Return (goals_of d), st')
    /\ forall day, getEntryByDate day st' = (Return (lookup_date day l), st').
Proof.
  intros Hp Hl Hfit Hread.
  unfold importJSON, try_catch, bind, parse_or_throw, ret, throw.
  rewrite Hp, Hl. cbn [is_array].
  destruct (saveAll_document d st) as (b & st' & Hsave & Ht & Hf).
  rewrite Hsave.
  destruct b; [| destruct (Hf eq_refl) as [Hno _]; contradiction].
  destruct (Ht eq_refl) as (_ & Hw & _).
  pose proof (written_holds _ _ Hw Hread) as Hh.
  eexists _, _. split; [reflexivity |]. split; [reflexivity |].
  split; [apply (getEntries_holds _ _ _ Hh Hl) |].
  split; [apply (getGoals_holds _ _ Hh) |].
  intros day. apply (getEntryByDate_holds _ _ _ _ Hh Hl).
Qed.

End StoreUpdates.

(** ** The dashboard: statistics, score and flags *)

Section Statistics.
Local Open Scope Q_scope.

Lemma length_number_truthy (e : Entry) (l : list Entry) :
  JS.truthy (length_number (e :: l)) = true.
Proof.
  unfold JS.truthy, length_number. apply negb_true_iff.
  destruct (Qeq_bool _ 0) eqn:Hb; [| reflexivity].
  apply Qeq_bool_iff in Hb. unfold Qeq in Hb. simpl in Hb. lia.
Qed.

Lemma length_number_pos (e : Entry) (l : list Entry) :
  0 < length_number (e :: l).
Proof. unfold length_number, Qlt. simpl. lia. Qed.

Lemma reduce_sum_from (f : Entry -> option JS.number) (l : list Entry)
      (P : JS.number -> Prop) (acc : JS.number) :
  P acc ->
  (forall a e, P a -> In e l -> P (a + JS.or_zero (f e))) ->
  P (fold_left (fun sum e => sum + JS.or_zero (f e)) l acc).
Proof.
  revert acc. induction l as [| x l IH]; intros acc Hacc Hstep; simpl;
    [exact Hacc |].
  apply IH.
  - apply Hstep; [exact Hacc | left; reflexivity].
  - intros a e Ha He. apply Hstep; [exact Ha | right; exact He].
Qed.

Lemma or_zero_nonneg (a : option JS.number) : nonneg a -> 0 <= JS.or_zero a.
Proof.
  unfold nonneg, JS.or_zero. destruct a as [v|]; [| lra].
  destruct (JS.truthy v); lra.
Qed.

Lemma reduce_sum_nonneg (f : Entry -> option JS.number) (l : list Entry) :
  List.Forall (fun e => nonneg (f e)) l -> 0 <= reduce_sum f l.
Proof.
  intros Hall. unfold reduce_sum.
  apply (reduce_sum_from f l (fun a => 0 <= a)); [lra |].
  intros a e Ha He. rewrite List.Forall_forall in Hall.
  pose proof (or_zero_nonneg _ (Hall e He)). lra.
Qed.

Lemma reduce_sum_missing (f : Entry -> option JS.number) (l : list Entry) :
  List.Forall (fun e => f e = None) l -> reduce_sum f l == 0.
Proof.
  intros Hall. unfold reduce_sum.
  apply (reduce_sum_from f l (fun a => a == 0)); [reflexivity |].
  intros a e Ha He. rewrite List.Forall_forall in Hall.
  rewrite (Hall e He). simpl. rewrite Ha. reflexivity.
Qed.

Lemma calculateStats_cons (e : Entry) (l : list Entry) :
  calculateStats (e :: l)
  = Some (mkStats (reduce_sum steps (e :: l) / length_number (e :: l))
                  (reduce_sum heartRate (e :: l) / length_number (e :: l))
                  (reduce_sum sleep (e :: l) / length_number (e :: l))
                  (reduce_sum water (e :: l) / length_number (e :: l))
                  (reduce_sum calories (e :: l) / length_number (e :: l))
                  (length (e :: l))).
Proof.
  unfold calculateStats. cbn [length Nat.eqb].
  rewrite !(truthy_div _ _ (length_number_truthy e l)). reflexivity.
Qed.

Lemma average_of_cons (m : Metric) (e : Entry) (l : list Entry) s :
  calculateStats (e :: l) = Some s ->
  average_of m s = reduce_sum (metric_of m) (e :: l) / length_number (e :: l).
Proof.
  rewrite calculateStats_cons. intros [= <-]. destruct m; reflexivity.
Qed.

End Statistics.

(** X13. calculateStats is defined for every list of entries: the
    division by the number of entries is guarded, the empty list giving
    zeros. It counts the entries; for each metric, the average is not
    negative when no logged value is, and is zero when no entry logs the
    metric. *)
Theorem calculateStats_defined (entries : list Entry) :
  exists s,
    calculateStats entries = Some s
    /\ totalEntries s = length entries
    /\ forall m : Metric,
         (entries = [] -> average_of m s = 0%Q)
         /\ (List.Forall (fun e => nonneg (metric_of m e)) entries ->
             (0 <= average_of m s)%Q)
         /\ (List.Forall (fun e => metric_of m e = None) entries ->
             (average_of m s == 0)%Q).
Proof.
  destruct entries as [| e l].
  - eexists. split; [reflexivity |]. split; [reflexivity |].
    intros m. destruct m; repeat split; simpl; intros; lra.
  - eexists. split; [apply calculateStats_cons |]. split; [reflexivity |].
    intros m.
    rewrite (average_of_cons m e l _ (calculateStats_cons e l)).
    split; [discriminate |]. split.
    + intros Hall. apply quotient_nonneg;
        [apply reduce_sum_nonneg, Hall | apply length_number_pos].
    + intros Hall. rewrite (reduce_sum_missing _ _ Hall).
      unfold Qdiv. lra.
Qed.

Section ScoreEdges.
Local Open Scope Q_scope.

Lemma Math_round_integer (x : JS.number) (z : Z) :
  x == inject_Z z -> JS.Math_round x = z.
Proof.
  intros Hx. unfold JS.Math_round.
  assert (Hle : (z <= Qfloor (x + (1 # 2)))%Z).
  { rewrite <- (Qfloor_Z z). apply Qfloor_resp_le. lra. }
  assert (Hlt : (Qfloor (x + (1 # 2)) < z + 1)%Z).
  { rewrite Zlt_Qlt, inject_Z_plus. change (inject_Z 1) with 1.
    pose proof (Qfloor_le (x + (1 # 2))). lra. }
  lia.
Qed.

Lemma Math_round_at_most (x : JS.number) (z : Z) :
  x <= inject_Z z -> (JS.Math_round x <= z)%Z.
Proof.
  intros Hx. unfold JS.Math_round.
  assert (Hlt : (Qfloor (x + (1 # 2)) < z + 1)%Z).
  { rewrite Zlt_Qlt, inject_Z_plus. change (inject_Z 1) with 1.
    pose proof (Qfloor_le (x + (1 # 2))). lra. }
  lia.
Qed.

Lemma ratio_points_no_target value goal cap :
  no_target goal -> ratio_points value goal cap = 0.
Proof.
  unfold no_target, ratio_points. intros Hg.
  destruct value as [v|], goal as [g|]; try reflexivity.
  rewrite (falsy_zero g Hg). reflexivity.
Qed.

Lemma ratio_points_reached value goal cap :
  0 <= cap -> reaches value goal -> ratio_points value goal cap == cap.
Proof.
  intros Hcap (v & g & -> & -> & Hpos & Hle). unfold ratio_points.
  assert (Ht : JS.truthy g = true).
  { unfold JS.truthy. apply negb_true_iff.
    destruct (Qeq_bool g 0) eqn:Hb; [| reflexivity].
    apply Qeq_bool_iff in Hb. lra. }
  rewrite Ht. apply Q.min_r.
  assert (H1 : 1 <= v / g).
  { apply Qle_shift_div_l; [exact Hpos | lra]. }
  rewrite <- (Qmult_1_l cap) at 1.
  apply Qmult_le_compat_r; assumption.
Qed.

Lemma ratio_points_cap_if value goal (cap : Z) :
  (0 <= cap)%Z ->
  ratio_points value goal (inject_Z cap) <= inject_Z (cap_if value goal cap).
Proof.
  intros Hcap. unfold ratio_points, cap_if.
  assert (Hq : 0 <= inject_Z cap) by (rewrite <- (Zle_Qle 0); exact Hcap).
  destruct value as [v|], goal as [g|];
    try (change (inject_Z 0) with 0; lra).
  destruct (JS.truthy g); [apply Q.le_min_r | exact Hq].
Qed.

Lemma heart_points_cap_if value goal :
  heart_points value goal <= inject_Z (cap_if value goal 15).
Proof.
  pose proof (heart_points_bounds value goal) as [_ Hb].
  unfold cap_if. destruct value as [v|], goal as [g|];
    try exact Hb; unfold heart_points; change (inject_Z 0) with 0; lra.
Qed.

End ScoreEdges.

(** X14. Without targets the score is 0: when every numeric target is
    absent or zero and there is no target range for the heart rate, no
    component is counted, whatever the entries hold; in particular for
    the empty goals. *)
Theorem calculateHealthScore_no_targets (entries : list Entry) (goals : Goals) :
  no_target (g_steps goals) -> no_target (g_sleep goals) ->
  no_target (g_water goals) -> no_target (g_calories goals) ->
  g_heartRate goals = None ->
  calculateHealthScore entries goals = Some 0
  /\ calculateHealthScore entries no_goals = Some 0.
Proof.
  assert (Hgen : forall g, no_target (g_steps g) -> no_target (g_sleep g) ->
            no_target (g_water g) -> no_target (g_calories g) ->
            g_heartRate g = None -> calculateHealthScore entries g = Some 0).
  { intros g H1 H2 H3 H4 H5. destruct entries as [| latest rest];
      [reflexivity |].
    destruct (raw_score_eq latest g) as (score & Hs & E).
    unfold calculateHealthScore. rewrite Hs. simpl. f_equal.
    apply Math_round_integer. rewrite E.
    rewrite !ratio_points_no_target by assumption.
    rewrite H5.
    replace (heart_points (heartRate latest) None) with 0%Q
      by (destruct (heartRate latest); reflexivity).
    change (inject_Z 0) with 0%Q. lra. }
  intros H1 H2 H3 H4 H5. split; [apply Hgen; assumption |].
  apply Hgen; simpl; trivial.
Qed.

(** X15. Full marks. When steps, sleep, water and calories of the latest
    entry each reach a positive target and its heart rate lies in the
    target range, the score is exactly 100. *)
Theorem calculateHealthScore_all_targets_met
        (latest : Entry) (rest : list Entry) (goals : Goals)
        (hr : JS.number) (range : HeartRateGoal) :
  reaches (steps latest) (g_steps goals) ->
  reaches (sleep latest) (g_sleep goals) ->
  reaches (water latest) (g_water goals) ->
  reaches (calories latest) (g_calories goals) ->
  heartRate latest = Some hr -> g_heartRate goals = Some range ->
  (hr_min range <= hr)%Q -> (hr <= hr_max range)%Q ->
  calculateHealthScore (latest :: rest) goals = Some 100.
Proof.
  intros H1 H2 H3 H4 Hhr Hg Hlo Hhi.
  destruct (raw_score_eq latest goals) as (score & Hs & E).
  unfold calculateHealthScore. rewrite Hs. simpl. f_equal.
  apply Math_round_integer. rewrite E.
  rewrite (ratio_points_reached _ _ 25%Q ltac:(lra) H1).
  rewrite (ratio_points_reached _ _ 25%Q ltac:(lra) H2).
  rewrite (ratio_points_reached _ _ 20%Q ltac:(lra) H3).
  rewrite (ratio_points_reached _ _ 15%Q ltac:(lra) H4).
  rewrite Hhr, Hg. unfold heart_points.
  assert (Hin : in_target range hr = true) by (apply in_target_iff; auto).
  rewrite Hin. reflexivity.
Qed.

(** X16. No renormalization. The score never exceeds the sum of the caps
    of the components that are counted, a component being counted only
    when its metric is logged and its target set: an entry that logs
    nothing but steps scores 25 at most. *)
Theorem calculateHealthScore_missing_components
        (latest : Entry) (rest : list Entry) (goals : Goals) :
  exists z,
    calculateHealthScore (latest :: rest) goals = Some z
    /\ z <= cap_if (steps latest) (g_steps goals) 25
            + cap_if (sleep latest) (g_sleep goals) 25
            + cap_if (water latest) (g_water goals) 20
            + cap_if (heartRate latest) (g_heartRate goals) 15
            + cap_if (calories latest) (g_calories goals) 15
    /\ (sleep latest = None -> water latest = None ->
        heartRate latest = None -> calories latest = None -> z <= 25).
Proof.
  destruct (raw_score_eq latest goals) as (score & Hs & E).
  exists (JS.Math_round score). unfold calculateHealthScore. rewrite Hs.
  split; [reflexivity |].
  assert (Hb : JS.Math_round score
               <= cap_if (steps latest) (g_steps goals) 25
                  + cap_if (sleep latest) (g_sleep goals) 25
                  + cap_if (water latest) (g_water goals) 20
                  + cap_if (heartRate latest) (g_heartRate goals) 15
                  + cap_if (calories latest) (g_calories goals) 15).
  { apply Math_round_at_most. rewrite E, !inject_Z_plus.
    pose proof (ratio_points_cap_if (steps latest) (g_steps goals) 25 ltac:(lia)).
    pose proof (ratio_points_cap_if (sleep latest) (g_sleep goals) 25 ltac:(lia)).
    pose proof (ratio_points_cap_if (water latest) (g_water goals) 20 ltac:(lia)).
    pose proof (heart_points_cap_if (heartRate latest) (g_heartRate goals)).
    pose proof (ratio_points_cap_if (calories latest) (g_calories goals) 15 ltac:(lia)).
    change (inject_Z 25) with 25%Q in *. change (inject_Z 20) with 20%Q in *.
    change (inject_Z 15) with 15%Q in *. lra. }
  split; [exact Hb |].
  intros H2 H3 H4 H5. rewrite H2, H3, H4, H5 in Hb. unfold cap_if in Hb.
  destruct (steps latest), (g_steps goals); simpl in Hb; lia.
Qed.

Section FlagEdges.
Local Open Scope Q_scope.

Lemma not_below_false (limit : JS.number) (a : option JS.number) :
  not_below limit a -> JS.cmp_undef JS.ltb a limit = false.
Proof.
  unfold not_below. destruct a as [v|]; simpl; [| reflexivity].
  intros Hle. destruct (JS.ltb v limit) eqn:Hb; [| reflexivity].
  apply ltb_iff in Hb. lra.
Qed.

Lemma not_above_false (limit : JS.number) (a : option JS.number) :
  not_above limit a -> JS.cmp_undef JS.gtb a limit = false.
Proof.
  unfold not_above. destruct a as [v|]; simpl; [| reflexivity].
  intros Hle. destruct (JS.gtb v limit) eqn:Hb; [| reflexivity].
  apply gtb_iff in Hb. lra.
Qed.

Lemma chronicb_long_night latest rest v :
  sleep latest = Some v -> 6 <= v -> chronicb (latest :: rest) = false.
Proof.
  intros Hs Hv. destruct (chronicb (latest :: rest)) eqn:Hc; [| reflexivity].
  apply chronicb_iff in Hc. destruct Hc as [_ Hall].
  simpl in Hall. inversion Hall as [| ? ? Hshort _]; subst.
  unfold short_night in Hshort. rewrite Hs in Hshort. lra.
Qed.

End FlagEdges.

(** X17. detectHealthFlags raises nothing for a day within the limits:
    when the latest entry logs at least 6 hours of sleep and, for what it
    logs of them, a heart rate of 100 at most, 3 glasses of water and 2000
    steps at least, no flag is returned, whatever the older entries are.
    No list of entries gets more than 5 flags, and no entries, none. *)
Theorem detectHealthFlags_quiet
        (latest : Entry) (rest : list Entry) (goals : Goals) (v : JS.number) :
  sleep latest = Some v -> (6 <= v)%Q ->
  not_above 100%Q (heartRate latest) ->
  not_below 3%Q (water latest) ->
  not_below 2000%Q (steps latest) ->
  detectHealthFlags (latest :: rest) goals = []
  /\ (forall entries, (length (detectHealthFlags entries goals) <= 5)%nat)
  /\ detectHealthFlags [] goals = [].
Proof.
  intros Hs Hv Hh Hw Hst. split; [| split; [| reflexivity]].
  - rewrite detectHealthFlags_eq.
    rewrite (not_below_false 6%Q (sleep latest)) by (rewrite Hs; exact Hv).
    rewrite (not_above_false _ _ Hh), (not_below_false _ _ Hw),
      (not_below_false _ _ Hst), (chronicb_long_night _ _ _ Hs Hv).
    reflexivity.
  - intros [| e l]; [simpl; lia |]. rewrite detectHealthFlags_eq.
    rewrite !length_app. unfold emit.
    destruct (JS.cmp_undef JS.ltb (sleep e) 6%Q),
             (JS.cmp_undef JS.gtb (heartRate e) 100%Q),
             (JS.cmp_undef JS.ltb (water e) 3%Q),
             (JS.cmp_undef JS.ltb (steps e) 2000%Q),
             (chronicb (e :: l)); simpl; lia.
Qed.

(** X18. The alerts of the notifications and the flags of the dashboard
    agree: for an entry, checkHealthFlags sends exactly one alert for each
    single-day flag that detectHealthFlags raises for it as the latest
    entry, in the same order; the look-back over three days has no alert,
    and neither function looks at the goals. *)
Theorem checkHealthFlags_matches_flags
        (entry : Entry) (rest : list Entry) (goals : option Goals)
        (goals' : Goals) :
  NotificationManager.checkHealthFlags (Some entry) goals
  = map alert_of (single_day (detectHealthFlags (entry :: rest) goals'))
  /\ NotificationManager.checkHealthFlags None goals = [].
Proof.
  split; [| reflexivity].
  rewrite detectHealthFlags_eq. unfold NotificationManager.checkHealthFlags.
  destruct (JS.cmp_undef JS.ltb (sleep entry) 6%Q),
           (JS.cmp_undef JS.gtb (heartRate entry) 100%Q),
           (JS.cmp_undef JS.ltb (water entry) 3%Q),
           (JS.cmp_undef JS.ltb (steps entry) 2000%Q),
           (chronicb (entry :: rest)); vm_compute; reflexivity.
Qed.

(** X19. checkGoals announces only goals that are reached: the name of a
    metric (steps, water, sleep, in this order) is shown exactly when the
    metric and its target are both there and the metric is at least the
    target; nothing is shown without an entry or without goals. When
    the target is positive, an announced metric has its full points in
    the score. *)
Theorem checkGoals_sound (entry : Entry) (goals : Goals) :
  let shown := NotificationManager.checkGoals (Some entry) (Some goals) in
  let met (value goal : option JS.number) :=
    exists v g, value = Some v /\ goal = Some g /\ (g <= v)%Q in
  sublist shown ["daily steps"; "water intake"; "sleep"]
  /\ ("daily steps" ∈ shown <-> met (steps entry) (g_steps goals))
  /\ ("water intake" ∈ shown <-> met (water entry) (g_water goals))
  /\ ("sleep" ∈ shown <-> met (sleep entry) (g_sleep goals))
  /\ NotificationManager.checkGoals None (Some goals) = []
  /\ NotificationManager.checkGoals (Some entry) None = []
  /\ (forall score g, "daily steps" ∈ shown ->
        g_steps goals = Some g -> (0 < g)%Q ->
        exists score',
          add_ratio_score (steps entry) (g_steps goals) 25%Q score = Some score'
          /\ (score' == score + 25)%Q).
Proof.
  intros shown met.
  assert (Hmet : forall value goal,
             NotificationManager.cmp_undef2 JS.geb value goal = true
             <-> met value goal).
  { intros value goal. unfold NotificationManager.cmp_undef2, met, JS.geb.
    destruct value as [v|], goal as [g|];
      try (split; [discriminate | intros (? & ? & ? & ? & ?); discriminate]).
    rewrite Qle_bool_iff. split; [eauto |].
    intros (v' & g' & [= <-] & [= <-] & Hle). exact Hle. }
  assert (Hin : forall (s : string) (l : list string) (b : bool),
             bool_decide (s ∈ l) = b -> (s ∈ l <-> b = true)).
  { intros s l b <-. rewrite bool_decide_eq_true. reflexivity. }
  subst shown. unfold NotificationManager.checkGoals.
  rewrite <- !Hmet.
  split; [| split; [| split; [| split; [| split; [reflexivity | split;
                                                    [reflexivity |]]]]]].
  - destruct (NotificationManager.cmp_undef2 JS.geb (steps entry) (g_steps goals)),
             (NotificationManager.cmp_undef2 JS.geb (water entry) (g_water goals)),
             (NotificationManager.cmp_undef2 JS.geb (sleep entry) (g_sleep goals));
      cbn [DashboardManager.push app];
      repeat first [apply sublist_nil | apply sublist_skip | apply sublist_cons].
  - destruct (NotificationManager.cmp_undef2 JS.geb (steps entry) (g_steps goals)),
             (NotificationManager.cmp_undef2 JS.geb (water entry) (g_water goals)),
             (NotificationManager.cmp_undef2 JS.geb (sleep entry) (g_sleep goals));
      apply Hin; vm_compute; reflexivity.
  - destruct (NotificationManager.cmp_undef2 JS.geb (steps entry) (g_steps goals)),
             (NotificationManager.cmp_undef2 JS.geb (water entry) (g_water goals)),
             (NotificationManager.cmp_undef2 JS.geb (sleep entry) (g_sleep goals));
      apply Hin; vm_compute; reflexivity.
  - destruct (NotificationManager.cmp_undef2 JS.geb (steps entry) (g_steps goals)),
             (NotificationManager.cmp_undef2 JS.geb (water entry) (g_water goals)),
             (NotificationManager.cmp_undef2 JS.geb (sleep entry) (g_sleep goals));
      apply Hin; vm_compute; reflexivity.
  - intros score g Hshown Hg Hpos.
    assert (Hs : NotificationManager.cmp_undef2 JS.geb (steps entry)
                   (g_steps goals) = true).
    { destruct (NotificationManager.cmp_undef2 JS.geb (steps entry) (g_steps goals));
        [reflexivity |]. exfalso. revert Hshown.
      destruct (NotificationManager.cmp_undef2 JS.geb (water entry) (g_water goals)),
               (NotificationManager.cmp_undef2 JS.geb (sleep entry) (g_sleep goals));
        cbn [DashboardManager.push app]; intros Hc;
        apply (Hin _ _ false) in Hc; try discriminate; vm_compute; reflexivity. }
    apply Hmet in Hs. destruct Hs as (v & g' & Hv & Hg' & Hle).
    rewrite Hg in Hg'. injection Hg' as <-.
    destruct (add_ratio_score_eq (steps entry) (g_steps goals) 25%Q score)
      as (score' & Hadd & E).
    exists score'. split; [exact Hadd |]. rewrite E.
    rewrite (ratio_points_reached (steps entry) (g_steps goals) 25%Q);
      [reflexivity | lra |].
    exists v, g. auto.
Qed.

(** ** The recommendations *)

Section SortByKey.
Context {A : Type} (key : A -> Z).

Lemma after_key_cmp x y : Array.after (key_cmp key) x y = true <-> key y < key x.
Proof. unfold Array.after, key_cmp. rewrite Z.ltb_lt. lia. Qed.

Lemma insert_sorted_by_key x l :
  StronglySorted (fun a b => key a <= key b) l ->
  StronglySorted (fun a b => key a <= key b) (Array.insert_sorted (key_cmp key) x l).
Proof.
  induction 1 as [| y l Hs IH Hall]; simpl.
  - constructor; constructor.
  - destruct (Array.after (key_cmp key) x y) eqn:Haft.
    + apply after_key_cmp in Haft. constructor; [exact IH |].
      rewrite (insert_sorted_perm (key_cmp key) x l).
      constructor; [lia | exact Hall].
    + assert (Hxy : key x <= key y).
      { destruct (Z.le_gt_cases (key x) (key y)) as [Hle | Hgt]; [exact Hle |].
        apply after_key_cmp in Hgt. congruence. }
      constructor; [constructor; assumption |].
      constructor; [exact Hxy |].
      eapply List.Forall_impl; [| exact Hall]. simpl. intros z Hz. lia.
Qed.

Lemma sort_by_key l :
  StronglySorted (fun a b => key a <= key b) (Array.sort (key_cmp key) l).
Proof.
  induction l as [| x l IH]; simpl; [constructor |].
  apply insert_sorted_by_key, IH.
Qed.

End SortByKey.

Section Recommendations.
Context `{NumberFormat}.
Import RecommendationEngine.

Lemma sleep_analysis_app e recs :
  sleep_analysis e recs = recs ++ sleep_analysis e [].
Proof.
  unfold sleep_analysis, push, DashboardManager.push.
  repeat (destruct (JS.cmp_undef _ _ _)); simpl;
    rewrite ?app_nil_r; reflexivity.
Qed.

Lemma heart_analysis_app e recs :
  heart_analysis e recs = recs ++ heart_analysis e [].
Proof.
  unfold heart_analysis, push, DashboardManager.push.
  destruct (JS.cmp_undef JS.gtb (heartRate e) 100%Q); [reflexivity |].
  destruct (_ && _); [reflexivity |].
  destruct (_ && _); simpl; rewrite ?app_nil_r; reflexivity.
Qed.

Lemma mood_analysis_app e recs :
  mood_analysis e recs = recs ++ mood_analysis e [].
Proof.
  unfold mood_analysis, push, DashboardManager.push.
  destruct (_ || _); [reflexivity |].
  destruct (_ || _); simpl; rewrite ?app_nil_r; reflexivity.
Qed.

Lemma activity_analysis_app e goals recs :
  activity_analysis e goals recs
  = match activity_analysis e goals [] with
    | Return a => Return (recs ++ a)
    | Throw x => Throw x
    end.
Proof.
  unfold activity_analysis, push, DashboardManager.push.
  destruct (JS.cmp_undef JS.ltb (steps e) 2000%Q); [reflexivity |].
  destruct (JS.cmp_undef JS.ltb (steps e) _); [| reflexivity].
  destruct (goal_of g_steps "steps" goals); reflexivity.
Qed.

Lemma hydration_analysis_app e goals recs :
  hydration_analysis e goals recs
  = match hydration_analysis e goals [] with
    | Return a => Return (recs ++ a)
    | Throw x => Throw x
    end.
Proof.
  unfold hydration_analysis, push, DashboardManager.push.
  destruct (JS.cmp_undef JS.ltb (water e) 3%Q); [reflexivity |].
  destruct (JS.cmp_undef JS.ltb (water e) _); [| reflexivity].
  destruct (goal_of g_water "water" goals); reflexivity.
Qed.

Lemma sleep_analysis_block e : block "sleep" (sleep_analysis e []).
Proof.
  unfold sleep_analysis, push, DashboardManager.push, block.
  repeat (destruct (JS.cmp_undef _ _ _)); simpl; eauto.
Qed.

Lemma heart_analysis_block e : block "heart" (heart_analysis e []).
Proof.
  unfold heart_analysis, push, DashboardManager.push, block.
  destruct (JS.cmp_undef JS.gtb (heartRate e) 100%Q); [simpl; eauto |].
  destruct (_ && _); [simpl; eauto |].
  destruct (_ && _); simpl; eauto.
Qed.

Lemma mood_analysis_block e : block "wellness" (mood_analysis e []).
Proof.
  unfold mood_analysis, push, DashboardManager.push, block.
  destruct (_ || _); [simpl; eauto |].
  destruct (_ || _); simpl; eauto.
Qed.

Lemma activity_analysis_one e goals a :
  activity_analysis e goals [] = Return a ->
  exists r, a = [r] /\ category r = "activity".
Proof.
  unfold activity_analysis, push, DashboardManager.push.
  destruct (JS.cmp_undef JS.ltb (steps e) 2000%Q);
    [intros [= <-]; simpl; eauto |].
  destruct (JS.cmp_undef JS.ltb (steps e) _);
    [| intros [= <-]; simpl; eauto].
  destruct (goal_of g_steps "steps" goals); [| discriminate].
  intros [= <-]; simpl; eauto.
Qed.

Lemma hydration_analysis_one e goals a :
  hydration_analysis e goals [] = Return a ->
  exists r, a = [r] /\ category r = "hydration".
Proof.
  unfold hydration_analysis, push, DashboardManager.push.
  destruct (JS.cmp_undef JS.ltb (water e) 3%Q);
    [intros [= <-]; simpl; eauto |].
  destruct (JS.cmp_undef JS.ltb (water e) _);
    [| intros [= <-]; simpl; eauto].
  destruct (goal_of g_water "water" goals); [| discriminate].
  intros [= <-]; simpl; eauto.
Qed.

(** What analyzeEntry sorts: the recommendations of the five blocks. *)
Lemma analyzeEntry_blocks e goals recs :
  analyzeEntry (Some e) goals = Return recs ->
  exists a h,
    activity_analysis e goals [] = Return a
    /\ hydration_analysis e goals [] = Return h
    /\ recs = Array.sort by_priority
                (sleep_analysis e [] ++ a ++ h
                 ++ heart_analysis e [] ++ mood_analysis e []).
Proof.
  unfold analyzeEntry. rewrite activity_analysis_app.
  destruct (activity_analysis e goals []) as [a | x]; [| discriminate].
  rewrite hydration_analysis_app.
  destruct (hydration_analysis e goals []) as [h | x]; [| discriminate].
  intros [= <-]. exists a, h. split; [reflexivity |]. split; [reflexivity |].
  rewrite mood_analysis_app, heart_analysis_app.
  rewrite <- !app_assoc. reflexivity.
Qed.

Lemma below_between_false lo hi a :
  JS.cmp_undef JS.ltb a lo = false ->
  JS.cmp_undef JS.ltb a hi = true -> between lo hi a.
Proof.
  unfold between. destruct a as [v|]; simpl; [| discriminate].
  intros Hlo Hhi. apply ltb_iff in Hhi. exists v. split; [reflexivity |].
  split; [| exact Hhi].
  destruct (Qlt_le_dec v lo) as [Hlt | Hle]; [| exact Hle].
  apply ltb_iff in Hlt. congruence.
Qed.

Lemma between_below lo hi a :
  (lo <= hi)%Q -> between lo hi a ->
  JS.cmp_undef JS.ltb a lo = false /\ JS.cmp_undef JS.ltb a hi = true.
Proof.
  intros Hlh (v & -> & Hlo & Hhi). simpl. split; [| apply ltb_iff; exact Hhi].
  destruct (JS.ltb v lo) eqn:Hb; [| reflexivity].
  apply ltb_iff in Hb. lra.
Qed.

Lemma between_or_not lo hi a : between lo hi a \/ ~ between lo hi a.
Proof.
  unfold between. destruct a as [v|];
    [| right; intros (w & Hw & _); discriminate].
  destruct (Qlt_le_dec v lo) as [Hlt | Hle];
    [right; intros (w & [= <-] & Hlo & _); lra |].
  destruct (Qlt_le_dec v hi) as [Hlt | Hge];
    [left; eauto | right; intros (w & [= <-] & _ & Hhi); lra].
Qed.

End Recommendations.

(** X20. The recommendations that analyzeEntry returns are ordered by
    priority, high before medium before low. There is one of them at most
    for each category; for an entry there are from two to five, always
    one about activity and one about hydration, and for no entry the
    single invitation to start logging. *)
Theorem analyzeEntry_ordered `{NumberFormat}
        (entry : option Entry) (goals : option Goals)
        (recs : list Recommendation) :
  RecommendationEngine.analyzeEntry entry goals = Return recs ->
  StronglySorted priority_le recs
  /\ List.NoDup (map category recs)
  /\ match entry with
     | Some _ =>
         (2 <= length recs <= 5)%nat
         /\ In "activity" (map category recs)
         /\ In "hydration" (map category recs)
     | None => recs = [RecommendationEngine.start_logging]
     end.
Proof.
  intros Hr. destruct entry as [e|].
  - destruct (analyzeEntry_blocks e goals recs Hr) as (a & h & Ha & Hh & ->).
    set (pushed := _ ++ _) in *.
    pose proof (sort_perm RecommendationEngine.by_priority pushed) as Hp.
    split.
    { apply (sort_by_key
               (fun r => RecommendationEngine.priorityOrder (priority r))). }
    destruct (activity_analysis_one e goals a Ha) as (ra & -> & Hca).
    destruct (hydration_analysis_one e goals h Hh) as (rh & -> & Hch).
    assert (Hcats : exists s w m,
               map category pushed = s ++ ["activity"; "hydration"] ++ w ++ m
               /\ (s = [] \/ s = ["sleep"]) /\ (w = [] \/ w = ["heart"])
               /\ (m = [] \/ m = ["wellness"])).
    { exists (map category (RecommendationEngine.sleep_analysis e [])),
        (map category (RecommendationEngine.heart_analysis e [])),
        (map category (RecommendationEngine.mood_analysis e [])).
      split.
      - subst pushed. rewrite !map_app. simpl. rewrite Hca, Hch. reflexivity.
      - split; [| split].
        + destruct (sleep_analysis_block e) as [-> | (r & -> & Hc)];
            [left; reflexivity | right; simpl; rewrite Hc; reflexivity].
        + destruct (heart_analysis_block e) as [-> | (r & -> & Hc)];
            [left; reflexivity | right; simpl; rewrite Hc; reflexivity].
        + destruct (mood_analysis_block e) as [-> | (r & -> & Hc)];
            [left; reflexivity | right; simpl; rewrite Hc; reflexivity]. }
    destruct Hcats as (s & w & m & Hmap & Hs & Hw & Hm).
    assert (Hpm : Permutation (map category (Array.sort
                     RecommendationEngine.by_priority pushed))
                    (s ++ ["activity"; "hydration"] ++ w ++ m))
      by (rewrite <- Hmap; apply Permutation_map, Hp).
    split; [| split; [| split]].
    + eapply Permutation_NoDup; [symmetry; exact Hpm |].
      destruct Hs as [-> | ->], Hw as [-> | ->], Hm as [-> | ->];
        repeat constructor; simpl; intuition discriminate.
    + rewrite <- (length_map category), (Permutation_length Hpm).
      destruct Hs as [-> | ->], Hw as [-> | ->], Hm as [-> | ->]; simpl; lia.
    + eapply Permutation_in; [symmetry; exact Hpm |].
      apply in_or_app. right. left. reflexivity.
    + eapply Permutation_in; [symmetry; exact Hpm |].
      apply in_or_app. right. right. left. reflexivity.
  - simpl in Hr. injection Hr as <-.
    split; [repeat constructor |]. split; [| reflexivity].
    repeat constructor. intros [].
Qed.

(** X21. analyzeEntry reads a property of [goals] without a guard in two
    places. With goals it always returns; without goals it throws a
    TypeError exactly when the steps of the entry lie from 2000 on and
    below 10000, or its water from 3 glasses on and below 8, and returns
    otherwise. *)
Theorem analyzeEntry_missing_goals `{NumberFormat} (entry : Entry) :
  (forall goals, exists recs,
      RecommendationEngine.analyzeEntry (Some entry) (Some goals) = Return recs)
  /\ ((exists e, RecommendationEngine.analyzeEntry (Some entry) None = Throw e
                 /\ err_name e = TypeError)
      <-> between 2000%Q 10000%Q (steps entry)
          \/ between 3%Q 8%Q (water entry))
  /\ ((exists recs, RecommendationEngine.analyzeEntry (Some entry) None
                    = Return recs)
      <-> ~ (between 2000%Q 10000%Q (steps entry)
             \/ between 3%Q 8%Q (water entry))).
Proof.
  assert (Hnone :
            (between 2000%Q 10000%Q (steps entry)
             \/ between 3%Q 8%Q (water entry) ->
             exists e, RecommendationEngine.analyzeEntry (Some entry) None
                       = Throw e /\ err_name e = TypeError)
            /\ (~ (between 2000%Q 10000%Q (steps entry)
                   \/ between 3%Q 8%Q (water entry)) ->
                exists recs, RecommendationEngine.analyzeEntry (Some entry) None
                             = Return recs)).
  { unfold RecommendationEngine.analyzeEntry,
      RecommendationEngine.activity_analysis,
      RecommendationEngine.hydration_analysis,
      RecommendationEngine.goal_or, RecommendationEngine.goal_of.
    destruct (JS.cmp_undef JS.ltb (steps entry) 2000%Q) eqn:S1;
      destruct (JS.cmp_undef JS.ltb (steps entry) 10000%Q) eqn:S2;
      destruct (JS.cmp_undef JS.ltb (water entry) 3%Q) eqn:W1;
      destruct (JS.cmp_undef JS.ltb (water entry) 8%Q) eqn:W2;
      (split;
       [ intros Hb;
         first
           [ solve [eexists; split; reflexivity]
           | exfalso; destruct Hb as [Hb | Hb];
             [ apply (between_below 2000%Q 10000%Q) in Hb; [| discriminate]
             | apply (between_below 3%Q 8%Q) in Hb; [| discriminate] ];
             destruct Hb; congruence ]
       | intros Hnb;
         first
           [ solve [eexists; reflexivity]
           | exfalso; apply Hnb;
             first [ left; apply below_between_false; assumption
                   | right; apply below_between_false; assumption ] ] ]). }
  destruct Hnone as [Hthrow Hret].
  split; [| split].
  - intros goals. unfold RecommendationEngine.analyzeEntry,
      RecommendationEngine.activity_analysis,
      RecommendationEngine.hydration_analysis,
      RecommendationEngine.goal_of.
    repeat (destruct (JS.cmp_undef JS.ltb _ _)); eexists; reflexivity.
  - split; [| exact Hthrow]. intros (e & He & _).
    destruct (between_or_not 2000%Q 10000%Q (steps entry)) as [Hb | Hn1];
      [left; exact Hb |].
    destruct (between_or_not 3%Q 8%Q (water entry)) as [Hb | Hn2];
      [right; exact Hb |].
    assert (Hnb : ~ (between 2000%Q 10000%Q (steps entry)
                     \/ between 3%Q 8%Q (water entry))) by tauto.
    destruct (Hret Hnb) as (recs & Hrecs). congruence.
  - split; [| exact Hret]. intros (recs & Hrecs) Hb.
    destruct (Hthrow Hb) as (e & He & _). congruence.
Qed.

Section FlagsAndRecommendations.
Context `{NumberFormat}.
Import RecommendationEngine.

Lemma analyzeEntry_contains e goals recs :
  analyzeEntry (Some e) goals = Return recs ->
  (JS.cmp_undef JS.ltb (sleep e) 6%Q = true -> In sleep_insufficient recs)
  /\ (JS.cmp_undef JS.gtb (heartRate e) 100%Q = true -> In heart_elevated recs)
  /\ (JS.cmp_undef JS.ltb (water e) 3%Q = true -> In hydration_low recs)
  /\ (JS.cmp_undef JS.ltb (steps e) 2000%Q = true -> In activity_very_low recs).
Proof.
  intros Hr.
  destruct (analyzeEntry_blocks e goals recs Hr) as (a & h & Ha & Hh & ->).
  set (pushed := _ ++ _).
  assert (Hin : forall r, In r pushed ->
                          In r (Array.sort by_priority pushed)).
  { intros r Hr'. eapply Permutation_in; [| exact Hr'].
    symmetry. apply sort_perm. }
  repeat split; intros Hb; apply Hin; subst pushed.
  - apply in_or_app. left. unfold sleep_analysis. rewrite Hb.
    left. reflexivity.
  - do 3 (apply in_or_app; right). apply in_or_app. left.
    unfold heart_analysis. rewrite Hb. left. reflexivity.
  - do 2 (apply in_or_app; right). apply in_or_app. left.
    unfold hydration_analysis in Hh. rewrite Hb in Hh. injection Hh as <-.
    left. reflexivity.
  - apply in_or_app. right. apply in_or_app. left.
    unfold activity_analysis in Ha. rewrite Hb in Ha. injection Ha as <-.
    left. reflexivity.
Qed.

End FlagsAndRecommendations.

(** X22. The flags of the dashboard and the recommendations agree: when
    analyzeEntry returns for an entry, every single-day flag that
    detectHealthFlags raises for that entry as the latest one comes with
    a recommendation of high priority in the matching category (sleep,
    heart, hydration, activity). *)
Theorem flags_have_recommendations `{NumberFormat}
        (entry : Entry) (rest : list Entry) (goals : option Goals)
        (goals' : Goals) (recs : list Recommendation) :
  RecommendationEngine.analyzeEntry (Some entry) goals = Return recs ->
  forall f, In f (single_day (detectHealthFlags (entry :: rest) goals')) ->
            exists r, In r recs /\ category r = category_of f
                      /\ priority r = high.
Proof.
  intros Hr f Hf.
  destruct (analyzeEntry_contains entry goals recs Hr) as (H1 & H2 & H3 & H4).
  rewrite detectHealthFlags_eq in Hf.
  destruct (JS.cmp_undef JS.ltb (sleep entry) 6%Q) eqn:B1;
    destruct (JS.cmp_undef JS.gtb (heartRate entry) 100%Q) eqn:B2;
    destruct (JS.cmp_undef JS.ltb (water entry) 3%Q) eqn:B3;
    destruct (JS.cmp_undef JS.ltb (steps entry) 2000%Q) eqn:B4;
    destruct (chronicb (entry :: rest));
    vm_compute in Hf;
    repeat (destruct Hf as [<- | Hf]);
    try contradiction;
    first [ exists RecommendationEngine.sleep_insufficient;
            split; [apply H1; reflexivity | split; reflexivity]
          | exists RecommendationEngine.heart_elevated;
            split; [apply H2; reflexivity | split; reflexivity]
          | exists RecommendationEngine.hydration_low;
            split; [apply H3; reflexivity | split; reflexivity]
          | exists RecommendationEngine.activity_very_low;
            split; [apply H4; reflexivity | split; reflexivity] ].
Qed.

(** ** The risk scores *)

Section RiskScores.
Local Open Scope Z_scope.

Ltac split_ifs :=
  repeat match goal with
         | |- context [if ?b then _ else _] => destruct b
         end.

Lemma cardiovascular_points_sum a s c h sm di :
  MedicalAI.cardiovascular_points a s c h sm di
  = age_points a + pressure_points s + cholesterol_points c + hdl_points h
    + (if sm then 4 else 0) + (if di then 3 else 0).
Proof.
  unfold MedicalAI.cardiovascular_points, age_points, pressure_points,
    cholesterol_points, hdl_points.
  destruct sm, di; cbv zeta;
    generalize (JS.geb a 70%Q), (JS.geb a 60%Q), (JS.geb a 50%Q),
      (JS.geb a 40%Q), (JS.geb a 35%Q), (JS.geb s 160%Q), (JS.geb s 140%Q),
      (JS.geb s 130%Q), (JS.geb s 120%Q), (JS.geb c 280%Q), (JS.geb c 240%Q),
      (JS.geb c 200%Q), (JS.ltb h 35%Q), (JS.geb h 60%Q);
    intros b1 b2 b3 b4 b5 b6 b7 b8 b9 b10 b11 b12 b13 b14;
    repeat (match goal with
            | |- context [if ?b then _ else _] => is_var b; destruct b
            end; cbv iota);
    reflexivity.
Qed.

Lemma geb_true (x c : JS.number) : JS.geb x c = true <-> (c <= x)%Q.
Proof. unfold JS.geb. apply Qle_bool_iff. Qed.

Lemma geb_false (x c : JS.number) : JS.geb x c = false <-> (x < c)%Q.
Proof.
  unfold JS.geb. split.
  - intros Hb. apply Qnot_le_lt. intros Hle. apply Qle_bool_iff in Hle.
    congruence.
  - intros Hlt. destruct (Qle_bool c x) eqn:Hb; [| reflexivity].
    apply Qle_bool_iff in Hb. lra.
Qed.

Lemma ltb_false (x c : JS.number) : JS.ltb x c = false <-> (c <= x)%Q.
Proof.
  unfold JS.ltb. rewrite negb_false_iff. apply Qle_bool_iff.
Qed.

(** Decide the tests of a goal on numbers, keeping what each says. *)
Ltac cases_on x :=
  repeat match goal with
         | |- context [JS.geb x ?c] =>
             let Hb := fresh "Hb" in
             destruct (JS.geb x c) eqn:Hb;
             [apply geb_true in Hb | apply geb_false in Hb]
         | |- context [JS.ltb x ?c] =>
             let Hb := fresh "Hb" in
             destruct (JS.ltb x c) eqn:Hb;
             [apply ltb_iff in Hb | apply ltb_false in Hb]
         | |- context [JS.gtb x ?c] =>
             let Hb := fresh "Hb" in
             destruct (JS.gtb x c) eqn:Hb;
             [apply gtb_iff in Hb | idtac]
         end.

Lemma age_points_bounds a : 0 <= age_points a <= 10.
Proof. unfold age_points. split_ifs; lia. Qed.
Lemma pressure_points_bounds s : 0 <= pressure_points s <= 6.
Proof. unfold pressure_points. split_ifs; lia. Qed.
Lemma cholesterol_points_bounds c : 0 <= cholesterol_points c <= 6.
Proof. unfold cholesterol_points. split_ifs; lia. Qed.
Lemma hdl_points_bounds h : -2 <= hdl_points h <= 3.
Proof. unfold hdl_points. split_ifs; lia. Qed.

Lemma age_points_mono a a' : (a <= a')%Q -> age_points a <= age_points a'.
Proof.
  intros Hle. unfold age_points. cases_on a; cases_on a'; try lia; lra.
Qed.

Lemma pressure_points_mono s s' :
  (s <= s')%Q -> pressure_points s <= pressure_points s'.
Proof.
  intros Hle. unfold pressure_points. cases_on s; cases_on s'; try lia; lra.
Qed.

Lemma cholesterol_points_mono c c' :
  (c <= c')%Q -> cholesterol_points c <= cholesterol_points c'.
Proof.
  intros Hle. unfold cholesterol_points. cases_on c; cases_on c'; try lia; lra.
Qed.

Lemma hdl_points_antimono h h' :
  (h' <= h)%Q -> hdl_points h <= hdl_points h'.
Proof.
  intros Hle. unfold hdl_points. cases_on h; cases_on h'; try lia; lra.
Qed.

Lemma risk_of_points_mono p p' :
  p <= p' -> MedicalAI.risk_of_points p <= MedicalAI.risk_of_points p'.
Proof.
  intros Hle. unfold MedicalAI.risk_of_points.
  repeat match goal with
         | |- context [?x <=? ?y] => destruct (Z.leb_spec x y)
         end; lia.
Qed.

Lemma risk_of_points_range p :
  1 <= MedicalAI.risk_of_points p <= 50.
Proof. unfold MedicalAI.risk_of_points. split_ifs; lia. Qed.

Lemma cv_points_eq d :
  cv_points (MedicalAI.calculateCardiovascularRisk d)
  = age_points (cv_age d) + pressure_points (cv_systolic d)
    + cholesterol_points (cv_cholesterol d) + hdl_points (cv_hdl d)
    + (if MedicalAI.or_false (smoker d) then 4 else 0)
    + (if MedicalAI.or_false (diabetic d) then 3 else 0).
Proof.
  unfold MedicalAI.calculateCardiovascularRisk. cbn [cv_points].
  apply cardiovascular_points_sum.
Qed.

Lemma cv_category_rank d :
  let r := MedicalAI.calculateCardiovascularRisk d in
  (cv_category r = "Low" /\ cv_points r <= 8 /\ cv_risk r < 10)
  \/ (cv_category r = "Moderate" /\ 9 <= cv_points r <= 12
      /\ 10 <= cv_risk r < 20)
  \/ (cv_category r = "High" /\ 13 <= cv_points r /\ 20 <= cv_risk r).
Proof.
  unfold MedicalAI.calculateCardiovascularRisk. cbn [cv_points cv_category cv_risk].
  generalize (MedicalAI.cardiovascular_points
                (JS.or_default (age d) 30%Q) (JS.or_default (systolicBP d) 120%Q)
                (JS.or_default (totalCholesterol d) 200%Q)
                (JS.or_default (hdlCholesterol d) 50%Q)
                (MedicalAI.or_false (smoker d)) (MedicalAI.or_false (diabetic d))).
  intros p. unfold MedicalAI.risk_of_points.
  repeat match goal with
         | |- context [?x <=? ?y] => destruct (Z.leb_spec x y)
         end; cbn; first [left; split; [reflexivity | lia]
                         | right; left; split; [reflexivity | lia]
                         | right; right; split; [reflexivity | lia]].
Qed.

End RiskScores.

(** X23. The cardiovascular score stays in its range: for every health
    data the points lie between -2 and 32 and the risk is between 1 and
    50 percent; the category is Low up to 8 points, Moderate from 9 to 12
    and High from 13 on. The advice always ends with the general one on
    exercise, and asks for a cardiologist exactly in the High category. *)
Theorem calculateCardiovascularRisk_range (data : HealthData) :
  let r := MedicalAI.calculateCardiovascularRisk data in
  -2 <= cv_points r <= 32
  /\ 1 <= cv_risk r <= 50
  /\ (cv_category r = "Low" <-> cv_points r <= 8)
  /\ (cv_category r = "Moderate" <-> 9 <= cv_points r <= 12)
  /\ (cv_category r = "High" <-> 13 <= cv_points r)
  /\ last (cv_recommendations r) = Some MedicalAI.advice_exercise
  /\ (In MedicalAI.advice_cardiologist (cv_recommendations r)
      <-> cv_category r = "High").
Proof.
  intros r.
  pose proof (cv_points_eq data) as Hp. fold r in Hp.
  pose proof (age_points_bounds (cv_age data)).
  pose proof (pressure_points_bounds (cv_systolic data)).
  pose proof (cholesterol_points_bounds (cv_cholesterol data)).
  pose proof (hdl_points_bounds (cv_hdl data)).
  split.
  { rewrite Hp. destruct (MedicalAI.or_false (smoker data)),
      (MedicalAI.or_false (diabetic data)); lia. }
  split; [apply risk_of_points_range |].
  pose proof (cv_category_rank data) as Hc. fold r in Hc.
  assert (Hrec : last (cv_recommendations r) = Some MedicalAI.advice_exercise
                 /\ (In MedicalAI.advice_cardiologist (cv_recommendations r)
                     <-> 20 <= cv_risk r)).
  { subst r. unfold MedicalAI.calculateCardiovascularRisk.
    cbn [cv_recommendations cv_risk]. unfold MedicalAI.getCardioRecommendations.
    match goal with |- context [20 <=? ?x] => destruct (Z.leb_spec 20 x) end;
      destruct (JS.cmp_undef JS.gtb (systolicBP data) 140%Q),
               (JS.cmp_undef JS.gtb (totalCholesterol data) 240%Q),
               (MedicalAI.or_false (smoker data));
      (split; [reflexivity |]); cbn;
      (split; [intros Hin; first [assumption | exfalso; intuition discriminate]
              | intros Hge; first [lia | tauto]]). }
  destruct Hrec as [Hlast Hcard].
  destruct Hc as [(Hc & Hpt & Hr) | [(Hc & Hpt & Hr) | (Hc & Hpt & Hr)]];
    rewrite Hc, Hcard;
    repeat split; intros; try discriminate; try lia; try reflexivity;
      try assumption.
Qed.

(** X24. No factor of the cardiovascular score lowers it by getting
    worse: when the data are no better on any factor (age, systolic
    pressure and cholesterol not lower, HDL not higher, smoking and
    diabetes not dropped, each value taken after its default), the
    points, the risk and the category do not decrease. *)
Theorem calculateCardiovascularRisk_monotone (data data' : HealthData) :
  cv_no_better data data' ->
  let r := MedicalAI.calculateCardiovascularRisk data in
  let r' := MedicalAI.calculateCardiovascularRisk data' in
  cv_points r <= cv_points r'
  /\ cv_risk r <= cv_risk r'
  /\ category_rank (cv_category r) <= category_rank (cv_category r').
Proof.
  intros (Ha & Hs & Hc & Hh & Hsm & Hdi) r r'.
  assert (Hp : cv_points r <= cv_points r').
  { subst r r'. rewrite !cv_points_eq.
    pose proof (age_points_mono _ _ Ha).
    pose proof (pressure_points_mono _ _ Hs).
    pose proof (cholesterol_points_mono _ _ Hc).
    pose proof (hdl_points_antimono _ _ Hh).
    destruct (MedicalAI.or_false (smoker data)),
      (MedicalAI.or_false (smoker data')),
      (MedicalAI.or_false (diabetic data)),
      (MedicalAI.or_false (diabetic data'));
      try (specialize (Hsm eq_refl); discriminate);
      try (specialize (Hdi eq_refl); discriminate); lia. }
  split; [exact Hp |]. split.
  - apply (risk_of_points_mono _ _ Hp).
  - pose proof (cv_category_rank data) as Hc1. fold r in Hc1.
    pose proof (cv_category_rank data') as Hc2. fold r' in Hc2.
    destruct Hc1 as [(-> & ? & ?) | [(-> & ? & ?) | (-> & ? & ?)]];
      destruct Hc2 as [(-> & ? & ?) | [(-> & ? & ?) | (-> & ? & ?)]];
      cbn; lia.
Qed.

Section DiabetesAndDepression.
Local Open Scope Z_scope.

Ltac split_ifs :=
  repeat match goal with
         | |- context [if ?b then _ else _] => destruct b
         end.

Ltac cases_on x :=
  repeat match goal with
         | |- context [JS.geb x ?c] =>
             let Hb := fresh "Hb" in
             destruct (JS.geb x c) eqn:Hb;
             [apply geb_true in Hb | apply geb_false in Hb]
         | |- context [JS.ltb x ?c] =>
             let Hb := fresh "Hb" in
             destruct (JS.ltb x c) eqn:Hb;
             [apply ltb_iff in Hb | apply ltb_false in Hb]
         | |- context [JS.leb x ?c] =>
             let Hb := fresh "Hb" in
             destruct (JS.leb x c) eqn:Hb;
             [apply Qle_bool_iff in Hb | apply (geb_false c x) in Hb]
         end.

Lemma diabetes_points_range a b w f p g :
  0 <= MedicalAI.diabetes_points a b w f p g <= 16.
Proof.
  unfold MedicalAI.diabetes_points. cbv zeta.
  destruct f;
    generalize (JS.geb a 65%Q), (JS.geb a 45%Q), (JS.geb a 40%Q),
      (JS.geb b 35%Q), (JS.geb b 30%Q), (JS.geb b 25%Q),
      (JS.gtb w 102%Q), (JS.gtb w 88%Q), (JS.ltb p 2%Q),
      (JS.geb g 126%Q), (JS.geb g 100%Q);
    intros b1 b2 b3 b4 b5 b6 b7 b8 b9 b10 b11;
    repeat (match goal with
            | |- context [if ?b then _ else _] => is_var b; destruct b
            end; cbv iota);
    lia.
Qed.

Lemma diabetes_points_glucose a b w f p g :
  (126 <= g)%Q -> 4 <= MedicalAI.diabetes_points a b w f p g.
Proof.
  intros Hg. unfold MedicalAI.diabetes_points. cbv zeta.
  apply geb_true in Hg. rewrite Hg.
  destruct f;
    generalize (JS.geb a 65%Q), (JS.geb a 45%Q), (JS.geb a 40%Q),
      (JS.geb b 35%Q), (JS.geb b 30%Q), (JS.geb b 25%Q),
      (JS.gtb w 102%Q), (JS.gtb w 88%Q), (JS.ltb p 2%Q);
    intros b1 b2 b3 b4 b5 b6 b7 b8 b9;
    repeat (match goal with
            | |- context [if ?b then _ else _] => is_var b; destruct b
            end; cbv iota);
    lia.
Qed.

Lemma diabetes_points_activity a b w f p p' g :
  JS.ltb p 2%Q = true -> JS.ltb p' 2%Q = false ->
  MedicalAI.diabetes_points a b w f p g
  = MedicalAI.diabetes_points a b w f p' g + 2.
Proof.
  intros Hp Hp'. unfold MedicalAI.diabetes_points. cbv zeta.
  rewrite Hp, Hp'.
  destruct f;
    generalize (JS.geb a 65%Q), (JS.geb a 45%Q), (JS.geb a 40%Q),
      (JS.geb b 35%Q), (JS.geb b 30%Q), (JS.geb b 25%Q),
      (JS.gtb w 102%Q), (JS.gtb w 88%Q),
      (JS.geb g 126%Q), (JS.geb g 100%Q);
    intros b1 b2 b3 b4 b5 b6 b7 b8 b10 b11;
    repeat (match goal with
            | |- context [if ?b then _ else _] => is_var b; destruct b
            end; cbv iota);
    lia.
Qed.

Lemma fold_sum_mono (l l' : list JS.number) (acc acc' : JS.number) :
  Forall2 Qle l l' -> (acc <= acc')%Q ->
  (fold_left (fun sum val => sum + val)%Q l acc
   <= fold_left (fun sum val => sum + val)%Q l' acc')%Q.
Proof.
  intros Hall. revert acc acc'.
  induction Hall as [| x y l l' Hxy Hall IH]; intros acc acc' Hacc;
    cbn [fold_left]; [exact Hacc |].
  apply IH. apply Qplus_le_compat; assumption.
Qed.

Lemma fold_sum_range (l : list JS.number) (acc : JS.number) :
  List.Forall (fun v => 0 <= v <= 3)%Q l ->
  (acc <= fold_left (fun sum val => sum + val)%Q l acc
   <= acc + 3 * inject_Z (Z.of_nat (length l)))%Q.
Proof.
  intros Hall. revert acc.
  induction Hall as [| x l Hx Hall IH]; intros acc.
  - cbn [fold_left length]. change (inject_Z (Z.of_nat 0)) with 0%Q. lra.
  - cbn [fold_left length]. specialize (IH (acc + x)%Q).
    rewrite Nat2Z.inj_succ, <- Z.add_1_r, inject_Z_plus.
    change (inject_Z 1) with 1%Q. lra.
Qed.

Lemma severity_of_score (r : list JS.number) :
  let s := MedicalAI.screenDepression r in
  (severity s = "Minimal" /\ (ds_score s <= 4)%Q)
  \/ (severity s = "Mild" /\ (4 < ds_score s <= 9)%Q)
  \/ (severity s = "Moderate" /\ (9 < ds_score s <= 14)%Q)
  \/ (severity s = "Moderately Severe" /\ (14 < ds_score s <= 19)%Q)
  \/ (severity s = "Severe" /\ (19 < ds_score s)%Q).
Proof.
  unfold MedicalAI.screenDepression. cbv zeta.
  match goal with |- context [JS.leb ?s 4%Q] => set (score := s) end.
  cases_on score; cbn [severity ds_score]; intuition auto.
Qed.

Lemma ds_score_eq (r : list JS.number) :
  ds_score (MedicalAI.screenDepression r)
  = fold_left (fun sum val => sum + val)%Q r 0%Q.
Proof.
  unfold MedicalAI.screenDepression. cbv zeta. split_ifs; reflexivity.
Qed.

End DiabetesAndDepression.

(** X25. The diabetes score stays in its range: for every health data the
    points lie between 0 and 16, the risk is Low up to 2 points, Moderate
    from 3 to 5 and High from 6 on. The two glucose findings exclude each
    other; a fasting glucose in the diabetic range gives 4 points at
    least, so never a Low risk, and the urgent advice; the advice always
    ends with the diet and the daily exercise. *)
Theorem calculateDiabetesRisk_range (data : HealthData) :
  let r := MedicalAI.calculateDiabetesRisk data in
  0 <= db_points r <= 16
  /\ (db_risk r = "Low" <-> db_points r <= 2)
  /\ (db_risk r = "Moderate" <-> 3 <= db_points r <= 5)
  /\ (db_risk r = "High" <-> 6 <= db_points r)
  /\ (db_diabetic r = true ->
      preDiabetic r = false /\ 4 <= db_points r /\ db_risk r <> "Low")
  /\ (In MedicalAI.advice_endocrinologist (db_recommendations r)
      <-> db_diabetic r = true)
  /\ (In MedicalAI.advice_glucose_monitoring (db_recommendations r)
      <-> preDiabetic r = true)
  /\ exists first,
       db_recommendations r
       = first ++ [MedicalAI.advice_diet; MedicalAI.advice_daily_exercise].
Proof.
  intros r. subst r. unfold MedicalAI.calculateDiabetesRisk. cbv zeta.
  cbn [db_points db_risk db_diabetic preDiabetic db_recommendations].
  set (g := JS.or_default (fastingGlucose data) 90%Q).
  set (b := JS.or_default (bmi data) 22%Q).
  pose proof (diabetes_points_range
                (JS.or_default (age data) 30%Q) b
                (JS.or_default (waistCircumference data) 80%Q)
                (MedicalAI.or_false (diabetesFamilyHistory data))
                (JS.or_default (weeklyExerciseHours data) 2%Q) g) as Hrange.
  pose proof (diabetes_points_glucose
                (JS.or_default (age data) 30%Q) b
                (JS.or_default (waistCircumference data) 80%Q)
                (MedicalAI.or_false (diabetesFamilyHistory data))
                (JS.or_default (weeklyExerciseHours data) 2%Q) g) as Hgl.
  set (p := MedicalAI.diabetes_points _ _ _ _ _ _) in *.
  split; [exact Hrange |].
  assert (Hrisk : forall q : Z,
             ((if 6 <=? q then "High" else if 3 <=? q then "Moderate" else "Low")
              = "Low" <-> q <= 2)
             /\ ((if 6 <=? q then "High" else if 3 <=? q then "Moderate" else "Low")
                 = "Moderate" <-> 3 <= q <= 5)
             /\ ((if 6 <=? q then "High" else if 3 <=? q then "Moderate" else "Low")
                 = "High" <-> 6 <= q)).
  { intros q. destruct (Z.leb_spec 6 q); [| destruct (Z.leb_spec 3 q)];
      repeat split; intros; try discriminate; try lia; reflexivity. }
  destruct (Hrisk p) as (HL & HM & HH).
  split; [exact HL |]. split; [exact HM |]. split; [exact HH |].
  unfold MedicalAI.getDiabetesRecommendations. cbv zeta.
  split; [| split; [| split]].
  - intros Hd. apply geb_true in Hd. split; [| split].
    + apply andb_false_iff. right. apply ltb_false. exact Hd.
    + apply Hgl, Hd.
    + intros Hlow. apply HL in Hlow. specialize (Hgl Hd). lia.
  - destruct (JS.geb g 126%Q); [| destruct (JS.geb g 100%Q)];
      destruct (JS.geb b 30%Q); cbn;
      (split; [intros Hin; first [reflexivity | exfalso; intuition discriminate]
              | intros Hd; first [discriminate | tauto]]).
  - destruct (JS.geb g 126%Q) eqn:H126; [| destruct (JS.geb g 100%Q) eqn:H100];
      destruct (JS.geb b 30%Q); cbn;
      try (apply geb_true in H126;
           assert (Hlt : JS.ltb g 126%Q = false) by (apply ltb_false; exact H126);
           rewrite Hlt, ?andb_false_r);
      try (apply geb_false in H126;
           assert (Hlt : JS.ltb g 126%Q = true) by (apply ltb_iff; exact H126);
           rewrite Hlt);
      cbn;
      (split; [intros Hin; first [reflexivity | exfalso; intuition discriminate]
              | intros Hd; first [discriminate | tauto]]).
  - destruct (JS.geb g 126%Q); [| destruct (JS.geb g 100%Q)];
      destruct (JS.geb b 30%Q); cbn; eexists;
      first [ instantiate (1 := [_; _]); reflexivity
            | instantiate (1 := [_]); reflexivity
            | instantiate (1 := []); reflexivity ].
Qed.

(** X26. The default of the weekly exercise hides inactivity: 0 hours are
    read as the default of 2 hours, so that health data with no exercise
    at all get the result of data that do not give the hours, with no
    point for inactivity, while any other number of hours below 2 gives
    two points more. *)
Theorem calculateDiabetesRisk_no_exercise
        (data : HealthData) (z h : JS.number) :
  (z == 0)%Q -> ~ (h == 0)%Q -> (h < 2)%Q ->
  MedicalAI.calculateDiabetesRisk (with_exercise data (Some z))
  = MedicalAI.calculateDiabetesRisk (with_exercise data None)
  /\ db_points (MedicalAI.calculateDiabetesRisk (with_exercise data (Some h)))
     = db_points (MedicalAI.calculateDiabetesRisk (with_exercise data None)) + 2.
Proof.
  intros Hz Hnz Hlt. split.
  - unfold MedicalAI.calculateDiabetesRisk, with_exercise. simpl.
    rewrite (falsy_zero z Hz). reflexivity.
  - unfold MedicalAI.calculateDiabetesRisk, with_exercise.
    cbn [db_points weeklyExerciseHours age bmi waistCircumference
                   diabetesFamilyHistory fastingGlucose JS.or_default].
    assert (Ht : JS.truthy h = true).
    { unfold JS.truthy. apply negb_true_iff.
      destruct (Qeq_bool h 0) eqn:Hb; [| reflexivity].
      apply Qeq_bool_iff in Hb. contradiction. }
    rewrite Ht. apply diabetes_points_activity.
    + apply ltb_iff. exact Hlt.
    + reflexivity.
Qed.

(** X27. The depression screen of a completed PHQ-9 form, nine responses
    from 0 to 3, has a score between 0 and 27. For any responses the
    severity follows the score (Minimal up to 4, Mild up to 9, Moderate
    up to 14, Moderately Severe up to 19, Severe above), and raising
    responses never lowers the score or the severity. *)
Theorem screenDepression_scale (responses responses' : list JS.number) :
  let s := MedicalAI.screenDepression responses in
  let s' := MedicalAI.screenDepression responses' in
  (length responses = 9%nat ->
   List.Forall (fun v => 0 <= v <= 3)%Q responses ->
   (0 <= ds_score s <= 27)%Q)
  /\ (severity s = "Minimal" <-> (ds_score s <= 4)%Q)
  /\ (severity s = "Severe" <-> (19 < ds_score s)%Q)
  /\ (Forall2 Qle responses responses' ->
      (ds_score s <= ds_score s')%Q
      /\ severity_rank (severity s) <= severity_rank (severity s')).
Proof.
  intros s s'.
  pose proof (severity_of_score responses) as Hs. fold s in Hs.
  pose proof (severity_of_score responses') as Hs'. fold s' in Hs'.
  split; [| split; [| split]].
  - intros Hlen Hall. subst s. rewrite ds_score_eq.
    pose proof (fold_sum_range responses 0%Q Hall) as Hr.
    rewrite Hlen in Hr. change (inject_Z (Z.of_nat 9)) with 9%Q in Hr. lra.
  - destruct Hs as [(-> & ?) | [(-> & ?) | [(-> & ?) | [(-> & ?) | (-> & ?)]]]];
      split; intros; try discriminate; try reflexivity; lra.
  - destruct Hs as [(-> & ?) | [(-> & ?) | [(-> & ?) | [(-> & ?) | (-> & ?)]]]];
      split; intros; try discriminate; try reflexivity; lra.
  - intros Hall.
    assert (Hle : (ds_score s <= ds_score s')%Q).
    { subst s s'. rewrite !ds_score_eq. apply fold_sum_mono; [exact Hall | lra]. }
    split; [exact Hle |].
    destruct Hs as [(-> & ?) | [(-> & ?) | [(-> & ?) | [(-> & ?) | (-> & ?)]]]];
      destruct Hs' as [(-> & ?) | [(-> & ?) | [(-> & ?) | [(-> & ?) | (-> & ?)]]]];
      cbn; try lia; lra.
Qed.

(** ** The further properties on examples *)

Section FurtherWitnesses.
Import StorageManager.
Local Existing Instance RefJSON.runtime.
Local Existing Instance ex_format.
Local Open Scope Z_scope.

Lemma ex_blank_store_unreadable : unreadable ex_blank_store.
Proof. exact I. Defined.

Lemma ex_entries_distinct : List.NoDup (map date ex_entries).
Proof. apply ex_entries_invariant. Defined.

Lemma ex_skeleton_readable : readable skeleton.
Proof. split; [discriminate | vm_compute; reflexivity]. Defined.

Lemma reads_of_unreadable_storage_witness :
  unreadable ex_blank_store
  /\ getEntries ex_blank_store = (Return (AnArray []), ex_blank_store)
  /\ getEntryByDate "2024-01-03" ex_blank_store = (Return None, ex_blank_store).
Proof.
  split; [exact ex_blank_store_unreadable |].
  destruct (reads_of_unreadable_storage ex_blank_store "2024-01-03"
              "2024-01-01" "2024-01-31" None None 7 ex_blank_store_unreadable)
    as (_ & Hentries & Hday & _).
  split; [exact Hentries | exact Hday].
Defined.

Lemma writes_need_a_document_witness :
  unreadable ex_blank_store
  /\ exists e, saveEntry ex_new_entry ex_blank_store = (Throw e, ex_blank_store)
               /\ err_name e = TypeError.
Proof.
  split; [exact ex_blank_store_unreadable |].
  exact (proj1 (writes_need_a_document ex_blank_store ex_new_entry
                  "2024-01-03" no_goals ex_blank_store_unreadable)).
Defined.

Lemma saveEntry_then_getEntryByDate_witness :
  holds ex_store ex_doc
  /\ List.NoDup (map date ex_entries)
  /\ readable (with_entries ex_doc (upsert ex_update_entry ex_entries))
  /\ exists st1,
      saveEntry ex_update_entry ex_store = (Return true, st1)
      /\ getEntryByDate "2024-01-03" st1
         = (Return (Some (mkEntry "2024-01-03" (Some 12000%Q) None (Some 8%Q)
                                  None None None None)), st1).
Proof.
  assert (Hread : readable (with_entries ex_doc (upsert ex_update_entry ex_entries)))
    by (split; [discriminate | vm_compute; reflexivity]).
  split; [exact ex_store_holds |]. split; [exact ex_entries_distinct |].
  split; [exact Hread |].
  eexists. split; [vm_compute; reflexivity |].
  refine (proj1 (saveEntry_then_getEntryByDate ex_store _ ex_doc ex_entries
                   ex_update_entry ex_store_holds eq_refl ex_entries_distinct
                   _ Hread)).
  vm_compute. reflexivity.
Defined.

Lemma deleteEntry_then_getEntryByDate_witness :
  holds ex_store ex_doc
  /\ readable (with_entries ex_doc (without_date "2024-01-03" ex_entries))
  /\ exists st1,
      deleteEntry "2024-01-03" ex_store = (Return true, st1)
      /\ getEntryByDate "2024-01-03" st1 = (Return None, st1).
Proof.
  assert (Hread : readable (with_entries ex_doc
                              (without_date "2024-01-03" ex_entries)))
    by (split; [discriminate | vm_compute; reflexivity]).
  split; [exact ex_store_holds |]. split; [exact Hread |].
  eexists. split; [vm_compute; reflexivity |].
  refine (proj1 (deleteEntry_then_getEntryByDate ex_store _ ex_doc ex_entries
                   "2024-01-03" ex_store_holds eq_refl _ Hread)).
  vm_compute. reflexivity.
Defined.

Lemma deleteEntry_absent_date_witness :
  holds ex_store ex_doc
  /\ lookup_date "2024-02-01" ex_entries = None
  /\ exists b st', deleteEntry "2024-02-01" ex_store = (Return b, st').
Proof.
  split; [exact ex_store_holds |]. split; [reflexivity |].
  destruct (deleteEntry_absent_date ex_store ex_doc ex_entries "2024-02-01"
              ex_store_holds eq_refl eq_refl)
    as (b & st' & Hdel & _).
  exists b, st'. exact Hdel.
Defined.

Lemma updateGoals_then_getGoals_witness :
  holds ex_document_store ex_document
  /\ readable (with_goals ex_document
                 (spread_goals (goals_of ex_document) ex_new_goals))
  /\ exists st1 merged,
      updateGoals ex_new_goals ex_document_store = (Return true, st1)
      /\ getGoals st1 = (Return merged, st1)
      /\ g_steps merged = Some 10000%Q
      /\ g_sleep merged = Some 8%Q
      /\ g_heartRate merged = Some (mkHeartRateGoal 60%Q 100%Q)
      /\ get_field "exercise" (g_other merged) = Some (JNum 45%Q).
Proof.
  assert (Hh : holds ex_document_store ex_document).
  { exists ex_document_text. split; [reflexivity |]. split; [discriminate |].
    vm_compute. reflexivity. }
  assert (Hread : readable (with_goals ex_document
                              (spread_goals (goals_of ex_document)
                                 ex_new_goals)))
    by (split; [discriminate | vm_compute; reflexivity]).
  split; [exact Hh |]. split; [exact Hread |].
  eexists.
  assert (Hup : updateGoals ex_new_goals ex_document_store
                = (Return true, ?[st1]))
    by (vm_compute; reflexivity).
  destruct (updateGoals_then_getGoals ex_document_store _ ex_document
              ex_new_goals Hh Hup Hread)
    as (merged & Hget & Hsteps & Hsleep & _ & Hheart & _ & Hother & _).
  exists merged. split; [exact Hup |]. split; [exact Hget |].
  split; [exact Hsteps |]. split; [exact Hsleep |].
  split; [exact Hheart |]. exact (Hother "exercise").
Defined.

Lemma init_on_empty_storage_witness :
  fits ex_blank_store skeleton /\ readable skeleton
  /\ exists st',
      init None ex_blank_store = (Return tt, st')
      /\ getEntries st' = (Return (AnArray []), st').
Proof.
  assert (Hfit : fits ex_blank_store skeleton)
    by (apply Nat.leb_le; vm_compute; reflexivity).
  split; [exact Hfit |]. split; [exact ex_skeleton_readable |].
  destruct (proj2 (proj2 (init_on_empty_storage ex_store))
              Hfit ex_skeleton_readable)
    as (st' & Hinit & _ & Hentries & _).
  exists st'. split; [exact Hinit | exact Hentries].
Defined.

Lemma getLastNDays_bounded_witness :
  holds ex_store ex_doc
  /\ exists r,
      getLastNDays (Date.parse "2024-01-02") (Date.parse "2024-01-09") 7 ex_store
      = (Return r, ex_store)
      /\ (length r <= 7)%nat.
Proof.
  split; [exact ex_store_holds |].
  destruct (getLastNDays_bounded ex_store ex_doc ex_entries
              (Date.parse "2024-01-02") (Date.parse "2024-01-09") 7
              ex_store_holds eq_refl)
    as (r & Hr & Hlen & _).
  exists r. split; [exact Hr | exact Hlen].
Defined.

Lemma getEntriesInRange_empty_range_witness :
  holds ex_store ex_doc
  /\ Date.parse "2024-01-31" = Some 1706659200000
  /\ Date.parse "2024-01-01" = Some 1704067200000
  /\ getEntriesInRange "2024-01-31" "2024-01-01" ex_store = (Return [], ex_store).
Proof.
  assert (Ha : Date.parse "2024-01-31" = Some 1706659200000)
    by (vm_compute; reflexivity).
  assert (Hb : Date.parse "2024-01-01" = Some 1704067200000)
    by (vm_compute; reflexivity).
  split; [exact ex_store_holds |]. split; [exact Ha |]. split; [exact Hb |].
  refine (getEntriesInRange_empty_range ex_store ex_doc ex_entries
            "2024-01-31" "2024-01-01" _ _ ex_store_holds eq_refl Ha Hb _).
  reflexivity.
Defined.

Lemma getEntriesInRange_keeps_order_witness :
  holds ex_store ex_doc /\ entries_invariant ex_entries
  /\ exists r,
      getEntriesInRange "2024-01-02" "2024-01-31" ex_store = (Return r, ex_store)
      /\ entries_invariant r.
Proof.
  split; [exact ex_store_holds |]. split; [exact ex_entries_invariant |].
  destruct (getEntriesInRange_keeps_order ex_store ex_doc ex_entries
              "2024-01-02" "2024-01-31" ex_store_holds eq_refl
              ex_entries_invariant)
    as (r & Hr & _ & Hinv).
  exists r. split; [exact Hr | exact Hinv].
Defined.

Lemma importJSON_then_reads_witness :
  JSON_parse ex_text = Some (PObject ex_doc)
  /\ fits ex_blank_store ex_doc /\ readable ex_doc
  /\ exists res st',
      importJSON ex_text ex_blank_store = (Return res, st')
      /\ getEntries st' = (Return (AnArray ex_entries), st').
Proof.
  assert (Hparse : JSON_parse ex_text = Some (PObject ex_doc))
    by (vm_compute; reflexivity).
  assert (Hfit : fits ex_blank_store ex_doc)
    by (apply Nat.leb_le; vm_compute; reflexivity).
  split; [exact Hparse |]. split; [exact Hfit |].
  split; [exact ex_doc_readable |].
  destruct (importJSON_then_reads ex_blank_store ex_text ex_doc ex_entries
              Hparse eq_refl Hfit ex_doc_readable)
    as (res & st' & Himp & _ & Hentries & _).
  exists res, st'. split; [exact Himp | exact Hentries].
Defined.

Lemma calculateStats_defined_witness :
  List.Forall (fun e => nonneg (metric_of Steps e)) ex_entries
  /\ exists s, calculateStats ex_entries = Some s
               /\ (0 <= average_of Steps s)%Q.
Proof.
  assert (Hall : List.Forall (fun e => nonneg (metric_of Steps e)) ex_entries)
    by (repeat constructor; discriminate).
  split; [exact Hall |].
  destruct (calculateStats_defined ex_entries) as (s & Hs & _ & Hm).
  exists s. split; [exact Hs |].
  exact (proj1 (proj2 (Hm Steps)) Hall).
Defined.

Lemma calculateHealthScore_no_targets_witness :
  no_target (g_steps (steps_goal 0%Q))
  /\ calculateHealthScore [ex_full_entry] (steps_goal 0%Q) = Some 0.
Proof.
  assert (Hz : no_target (g_steps (steps_goal 0%Q))) by reflexivity.
  split; [exact Hz |].
  exact (proj1 (calculateHealthScore_no_targets [ex_full_entry] (steps_goal 0%Q)
                  Hz I I I eq_refl)).
Defined.

Lemma calculateHealthScore_all_targets_met_witness :
  reaches (steps ex_full_entry) (g_steps ex_full_goals)
  /\ calculateHealthScore [ex_full_entry] ex_full_goals = Some 100.
Proof.
  assert (Hr : forall v g : JS.number, (0 < g)%Q -> (g <= v)%Q ->
                                       reaches (Some v) (Some g))
    by (intros v g Hg Hv; exists v, g; auto).
  assert (Hsteps : reaches (steps ex_full_entry) (g_steps ex_full_goals))
    by (apply Hr; [reflexivity | discriminate]).
  split; [exact Hsteps |].
  refine (calculateHealthScore_all_targets_met ex_full_entry [] ex_full_goals
            70%Q (mkHeartRateGoal 60%Q 80%Q) Hsteps _ _ _ eq_refl eq_refl _ _);
    first [apply Hr; [reflexivity | discriminate] | discriminate].
Defined.

Lemma calculateHealthScore_missing_components_witness :
  exists z, calculateHealthScore [ex_steps_entry] ex_full_goals = Some z
            /\ z <= 25.
Proof.
  destruct (calculateHealthScore_missing_components ex_steps_entry []
              ex_full_goals) as (z & Hz & _ & Hle).
  exists z. split; [exact Hz |].
  exact (Hle eq_refl eq_refl eq_refl eq_refl).
Defined.

Lemma detectHealthFlags_quiet_witness :
  not_above 100%Q (heartRate ex_full_entry)
  /\ detectHealthFlags (ex_full_entry :: ex_short_nights) no_goals = [].
Proof.
  assert (Hhr : not_above 100%Q (heartRate ex_full_entry)) by discriminate.
  split; [exact Hhr |].
  refine (proj1 (detectHealthFlags_quiet ex_full_entry ex_short_nights no_goals
                   8%Q eq_refl _ Hhr _ _)); discriminate.
Defined.

Lemma checkGoals_sound_witness :
  In "daily steps"
     (NotificationManager.checkGoals (Some ex_full_entry) (Some ex_full_goals))
  /\ exists score',
      add_ratio_score (steps ex_full_entry) (g_steps ex_full_goals) 25%Q 0%Q
      = Some score'
      /\ (score' == 0 + 25)%Q.
Proof.
  assert (Hin : "daily steps"
                ∈ NotificationManager.checkGoals (Some ex_full_entry)
                    (Some ex_full_goals))
    by (apply list_elem_of_In; left; reflexivity).
  split; [apply list_elem_of_In; exact Hin |].
  destruct (checkGoals_sound ex_full_entry ex_full_goals)
    as (_ & _ & _ & _ & _ & _ & Hscore).
  exact (Hscore 0%Q 10000%Q Hin eq_refl eq_refl).
Defined.

Lemma analyzeEntry_ordered_witness :
  exists recs,
    RecommendationEngine.analyzeEntry (Some ex_poor_entry) (Some ex_full_goals)
    = Return recs
    /\ StronglySorted priority_le recs.
Proof.
  eexists. split; [vm_compute; reflexivity |].
  refine (proj1 (analyzeEntry_ordered (Some ex_poor_entry) (Some ex_full_goals)
                   _ _)).
  vm_compute. reflexivity.
Defined.

Lemma analyzeEntry_missing_goals_witness :
  between 2000%Q 10000%Q (steps ex_steps_entry)
  /\ exists e,
      RecommendationEngine.analyzeEntry (Some ex_steps_entry) None = Throw e
      /\ err_name e = TypeError.
Proof.
  assert (Hb : between 2000%Q 10000%Q (steps ex_steps_entry))
    by (exists 5000%Q; split; [reflexivity | split; [discriminate | reflexivity]]).
  split; [exact Hb |].
  exact (proj2 (proj1 (proj2 (analyzeEntry_missing_goals ex_steps_entry)))
           (or_introl Hb)).
Defined.

Lemma flags_have_recommendations_witness :
  In DashboardManager.flag_sleep
     (single_day (detectHealthFlags [ex_poor_entry] no_goals))
  /\ exists recs r,
      RecommendationEngine.analyzeEntry (Some ex_poor_entry) (Some ex_full_goals)
      = Return recs
      /\ In r recs /\ category r = "sleep" /\ priority r = high.
Proof.
  assert (Hin : In DashboardManager.flag_sleep
                   (single_day (detectHealthFlags [ex_poor_entry] no_goals)))
    by (left; reflexivity).
  split; [exact Hin |].
  eexists.
  assert (Hrun : RecommendationEngine.analyzeEntry (Some ex_poor_entry)
                   (Some ex_full_goals) = Return ?[recs])
    by (vm_compute; reflexivity).
  destruct (flags_have_recommendations ex_poor_entry [] (Some ex_full_goals)
              no_goals _ Hrun _ Hin) as (r & Hr & Hcat & Hprio).
  exists r. split; [exact Hrun |]. split; [exact Hr |].
  split; [exact Hcat | exact Hprio].
Defined.

Lemma calculateCardiovascularRisk_monotone_witness :
  cv_no_better ex_health ex_health_worse
  /\ cv_risk (MedicalAI.calculateCardiovascularRisk ex_health)
     <= cv_risk (MedicalAI.calculateCardiovascularRisk ex_health_worse).
Proof.
  assert (Hnb : cv_no_better ex_health ex_health_worse)
    by (repeat split; discriminate).
  split; [exact Hnb |].
  exact (proj1 (proj2 (calculateCardiovascularRisk_monotone ex_health
                         ex_health_worse Hnb))).
Defined.

Lemma calculateDiabetesRisk_range_witness :
  db_diabetic (MedicalAI.calculateDiabetesRisk ex_health) = true
  /\ 4 <= db_points (MedicalAI.calculateDiabetesRisk ex_health)
  /\ db_risk (MedicalAI.calculateDiabetesRisk ex_health) <> "Low".
Proof.
  assert (Hd : db_diabetic (MedicalAI.calculateDiabetesRisk ex_health) = true)
    by reflexivity.
  split; [exact Hd |].
  destruct (calculateDiabetesRisk_range ex_health) as (_ & _ & _ & _ & H & _).
  exact (proj2 (H Hd)).
Defined.

Lemma calculateDiabetesRisk_no_exercise_witness :
  (0 == 0)%Q /\ ~ (1 == 0)%Q /\ (1 < 2)%Q
  /\ MedicalAI.calculateDiabetesRisk (with_exercise ex_health (Some 0%Q))
     = MedicalAI.calculateDiabetesRisk (with_exercise ex_health None).
Proof.
  assert (Hz : (0 == 0)%Q) by reflexivity.
  assert (Hnz : ~ (1 == 0)%Q) by discriminate.
  assert (Hlt : (1 < 2)%Q) by reflexivity.
  split; [exact Hz |]. split; [exact Hnz |]. split; [exact Hlt |].
  exact (proj1 (calculateDiabetesRisk_no_exercise ex_health 0%Q 1%Q Hz Hnz Hlt)).
Defined.

Lemma screenDepression_scale_witness :
  length ex_responses = 9%nat
  /\ List.Forall (fun v => 0 <= v <= 3)%Q ex_responses
  /\ Forall2 Qle ex_responses ex_responses_worse
  /\ (0 <= ds_score (MedicalAI.screenDepression ex_responses) <= 27)%Q
  /\ severity_rank (severity (MedicalAI.screenDepression ex_responses))
     <= severity_rank (severity (MedicalAI.screenDepression ex_responses_worse)).
Proof.
  assert (Hall : List.Forall (fun v => 0 <= v <= 3)%Q ex_responses)
    by (repeat constructor; discriminate).
  assert (Hle : Forall2 Qle ex_responses ex_responses_worse)
    by (repeat constructor; discriminate).
  split; [reflexivity |]. split; [exact Hall |]. split; [exact Hle |].
  destruct (screenDepression_scale ex_responses ex_responses_worse)
    as (Hrange & _ & _ & Hmono).
  split; [exact (Hrange eq_refl Hall) | exact (proj2 (Hmono Hle))].
Defined.

End FurtherWitnesses.
